(** * nercone-archiver: the archive manager, embedded and verified

    A shallow embedding of [src/nercone_archiver/manager.py]
    (class [ArchiveManager]) and of the commands of
    [src/nercone_archiver/__main__.py], together with the properties
    of them that the specification states and further properties read
    off the code.

    Conventions of the embedding.
    - A Python [str] is a Rocq [string]; [Str.lower] is [str.lower] on
      ASCII text, which is all the manager compares against, and what
      is stated of a lowered string is stated of ASCII text.
    - The file system is a finite map from absolute, canonical paths
      (lists of segments) to nodes; there are no symbolic links.
    - A method of [ArchiveManager] is a computation in a state and
      exception monad over the session object and the world.
    - The codec libraries (zipfile, pyzipper, tarfile, py7zr, rarfile)
      are not part of the repository: what they read and write is a
      parameter of the development, see [codecs]. *)

From Stdlib Require Import Ascii String.
From stdpp Require Import base option list sorting strings gmap fin_maps.

Local Open Scope string_scope.
Local Open Scope list_scope.

(** ** Python strings *)

Module Str.

Definition lower_ascii (c : ascii) : ascii :=
  let n := nat_of_ascii c in
  if (65 <=? n)%nat && (n <=? 90)%nat then ascii_of_nat (n + 32) else c.

(** [s.lower()] on ASCII text: the letters [A] to [Z] are lowered and
    every other character is kept.  On other text Python lowers more
    characters, some by their context; see [is_ascii]. *)
Fixpoint lower (s : string) : string :=
  match s with
  | EmptyString => EmptyString
  | String c r => String (lower_ascii c) (lower r)
  end.


(** [s.startswith(p)] *)
Fixpoint startswith (s p : string) {struct p} : bool :=
  match p, s with
  | EmptyString, _ => true
  | String a p', String b s' => Ascii.eqb a b && startswith s' p'
  | String _ _, EmptyString => false
  end.

(** [s.endswith(suf)] *)
Fixpoint endswith (s suf : string) : bool :=
  if String.eqb s suf then true
  else match s with
       | EmptyString => false
       | String _ r => endswith r suf
       end.

(** [sub in s] *)
Fixpoint contains (sub s : string) : bool :=
  if startswith s sub then true
  else match s with
       | EmptyString => false
       | String _ r => contains sub r
       end.

(** [s.split('/')] *)
Fixpoint split_slash (s : string) : list string :=
  match s with
  | EmptyString => [EmptyString]
  | String c r =>
      if Ascii.eqb c "/" then EmptyString :: split_slash r
      else match split_slash r with
           | h :: t => String c h :: t
           | [] => [String c EmptyString]
           end
  end.

(** ['/'.join(l)] *)
Definition join_slash (l : list string) : string := String.concat "/" l.

(** [s.rfind(c)], with [None] for Python's [-1] *)
Fixpoint rfind (c : ascii) (s : string) : option nat :=
  match s with
  | EmptyString => None
  | String a r =>
      match rfind c r with
      | Some i => Some (S i)
      | None => if Ascii.eqb a c then Some 0%nat else None
      end
  end.

(** [s[n:]] *)
Fixpoint drop (n : nat) (s : string) : string :=
  match n, s with
  | O, _ => s
  | S _, EmptyString => EmptyString
  | S m, String _ r => drop m r
  end.

(** [c in s] for a character *)
Fixpoint mem (c : ascii) (s : string) : bool :=
  match s with
  | EmptyString => false
  | String a r => Ascii.eqb a c || mem c r
  end.

(** [s.lstrip('/\\')] *)
Fixpoint lstrip_seps (s : string) : string :=
  match s with
  | String c r =>
      if Ascii.eqb c "/" || Ascii.eqb c "\" then lstrip_seps r else s
  | EmptyString => EmptyString
  end.

End Str.

(** ** [os.path] and [pathlib] on POSIX *)

Module OsPath.

(** [os.path.basename(p)]: what follows the last slash. *)
Definition basename (p : string) : string :=
  List.last (Str.split_slash p) EmptyString.

(** The loop of [posixpath.normpath] over the components; [abs] says
    that the path has initial slashes, [acc] is [new_comps] reversed. *)
Fixpoint normpath_go (abs : bool) (acc : list string) (comps : list string)
  : list string :=
  match comps with
  | [] => rev acc
  | comp :: rest =>
      if String.eqb comp "" || String.eqb comp "." then normpath_go abs acc rest
      else if negb (String.eqb comp "..")
           then normpath_go abs (comp :: acc) rest
           else match acc with
                | [] => if abs then normpath_go abs acc rest
                        else normpath_go abs (comp :: acc) rest
                | top :: acc' =>
                    if String.eqb top ".."
                    then normpath_go abs (comp :: acc) rest
                    else normpath_go abs acc' rest
                end
  end.

(** [os.path.normpath(path)] *)
Definition normpath (path : string) : string :=
  if String.eqb path "" then "."
  else
    let initial_slashes :=
      if Str.startswith path "/" then
        if Str.startswith path "//" && negb (Str.startswith path "///")
        then 2%nat else 1%nat
      else 0%nat in
    let comps := normpath_go (negb (Nat.eqb initial_slashes 0)) []
                   (Str.split_slash path) in
    let path' := Str.join_slash comps in
    let path' := match initial_slashes with
                 | 0%nat => path'
                 | 1%nat => "/" +:+ path'
                 | _ => "//" +:+ path'
                 end in
    if String.eqb path' "" then "." else path'.

End OsPath.

Module PurePath.

(** A [pathlib.PurePosixPath]: whether it is anchored at the root, and
    its parts below the anchor. *)
Record t := mk { absolute : bool; parts : list string }.

(** The parts pathlib keeps of a string: empty and [.] components go. *)
Definition parse_parts (s : string) : list string :=
  List.filter (fun c => negb (String.eqb c "" || String.eqb c "."))
              (Str.split_slash s).

(** [Path(s)] *)
Definition of_string (s : string) : t :=
  mk (Str.startswith s "/") (parse_parts s).

(** [p / s]: an absolute right operand replaces the left one. *)
Definition join (p : t) (s : string) : t :=
  if Str.startswith s "/" then of_string s
  else mk (absolute p) (parts p ++ parse_parts s).

(** [p / name] for a single name *)
Definition child (p : t) (name : string) : t := join p name.

(** [p.name] *)
Definition name (p : t) : string := List.last (parts p) EmptyString.

(** [p.parent] *)
Definition parent (p : t) : t := mk (absolute p) (removelast (parts p)).

(** [p.suffix] *)
Definition suffix (p : t) : string :=
  let n := name p in
  match Str.rfind "." n with
  | Some i =>
      if (0 <? i)%nat && (i <? String.length n - 1)%nat then Str.drop i n
      else EmptyString
  | None => EmptyString
  end.

(** [str(p)] *)
Definition to_string (p : t) : string :=
  match absolute p, parts p with
  | true, ps => "/" +:+ Str.join_slash ps
  | false, [] => "."
  | false, ps => Str.join_slash ps
  end.

(** [p.relative_to(base)], [None] for [ValueError] *)
Fixpoint strip_prefix (base ps : list string) : option (list string) :=
  match base, ps with
  | [], _ => Some ps
  | b :: base', x :: ps' =>
      if String.eqb b x then strip_prefix base' ps' else None
  | _ :: _, [] => None
  end.

Definition relative_to (p base : t) : option t :=
  if Bool.eqb (absolute p) (absolute base) then
    mk false <$> strip_prefix (parts base) (parts p)
  else None.

(** The lexical part of [p.resolve()] for an absolute path: [..] steps
    up, and stays at the root there. *)
Fixpoint collapse (acc : list string) (ps : list string) : list string :=
  match ps with
  | [] => rev acc
  | p :: rest =>
      if String.eqb p ".." then collapse (tail acc) rest
      else collapse (p :: acc) rest
  end.

End PurePath.

(** ** The format resolver *)

(** [ArchiveManager._get_format] *)
Definition _get_format (path : string) : string :=
  let name := Str.lower (OsPath.basename path) in
  if Str.endswith name ".tar.gz" then "tar.gz"
  else if Str.endswith name ".tar.xz" then "tar.xz"
  else if Str.endswith name ".tgz" then "tar.gz"
  else Str.lower (Str.drop 1 (PurePath.suffix (PurePath.of_string path))).



(** ** Exceptions *)

Inductive exc_class :=
  | FileNotFoundError | FileExistsError | IsADirectoryError
  | NotADirectoryError | SameFileError
  | ValueError | ImportError | TypeError
  | RuntimeError | NotImplementedError | RecursionError
  (** an exception class of a codec library, and whether it derives
      from [RuntimeError] *)
  | LibraryError (name : string) (runtime : bool).

Record exn := Exn { exn_class : exc_class; exn_msg : string }.

(** [isinstance(e, RuntimeError)] *)
Definition isinstance_RuntimeError (e : exn) : bool :=
  match exn_class e with
  | RuntimeError | NotImplementedError | RecursionError => true
  | LibraryError _ r => r
  | _ => false
  end.

Inductive result (A : Type) :=
  | Ok (a : A)
  | Raise (e : exn).
Arguments Ok {A} a.
Arguments Raise {A} e.

Definition is_ok {A} (r : result A) : bool :=
  match r with Ok _ => true | Raise _ => false end.

(** Truthiness of an optional string: [None] and [""] are false. *)
Definition truthy (o : option string) : bool :=
  match o with
  | Some s => negb (String.eqb s "")
  | None => false
  end.

(** ** The file system *)

Inductive container := ZipBox | TarBox | SevenZBox | RarBox.

Global Instance container_eq_dec : EqDecision container.
Proof. solve_decision. Defined.

(** What a file holds: bytes, or the image of a container with the
    password it is locked with and its members (a member without data
    is a directory entry). *)
Inductive data :=
  | Bytes (b : list Byte.byte)
  | Packed (box : container) (lock : option string)
           (members : list (list string * option data)).

Definition member : Type := list string * option data.

Inductive node :=
  | Dir
  | File (d : data).

(** Absolute canonical paths to nodes; the root [[]] is a directory
    and is not stored. *)
Abbreviation fsmap := (gmap (list string) node).

Module Fs.

Definition is_dir (fs : fsmap) (p : list string) : bool :=
  match p with
  | [] => true
  | _ => match fs !! p with Some Dir => true | _ => false end
  end.

Definition is_file (fs : fsmap) (p : list string) : bool :=
  match fs !! p with Some (File _) => true | _ => false end.

Definition exists_ (fs : fsmap) (p : list string) : bool :=
  match p with
  | [] => true
  | _ => bool_decide (is_Some (fs !! p))
  end.

(** [q] lies strictly below [p]. *)
Definition below (p q : list string) : bool :=
  match PurePath.strip_prefix p q with
  | Some (_ :: _) => true
  | _ => false
  end.

Definition show (p : list string) : string := "/" +:+ Str.join_slash p.

Definition os_error (c : exc_class) (what : string) (p : list string) : exn :=
  Exn c (what +:+ ": '" +:+ show p +:+ "'").

(** [os.makedirs(p, exist_ok=True)], walking down from [cur]. *)
Fixpoint makedirs_from (fs : fsmap) (cur rest : list string) : result fsmap :=
  match rest with
  | [] => Ok fs
  | s :: rest' =>
      let cur' := cur ++ [s] in
      match fs !! cur' with
      | None => makedirs_from (<[cur' := Dir]> fs) cur' rest'
      | Some Dir => makedirs_from fs cur' rest'
      | Some (File _) =>
          Raise (match rest' with
                 | [] => os_error FileExistsError "[Errno 17] File exists" cur'
                 | _ => os_error NotADirectoryError "[Errno 20] Not a directory"
                                 (cur' ++ rest')
                 end)
      end
  end.

Definition makedirs (fs : fsmap) (p : list string) : result fsmap :=
  makedirs_from fs [] p.

(** [open(p, 'wb')] followed by writing [d]. *)
Definition write_file (fs : fsmap) (p : list string) (d : data) : result fsmap :=
  if is_dir fs p then Raise (os_error IsADirectoryError "[Errno 21] Is a directory" p)
  else if is_dir fs (removelast p) then Ok (<[p := File d]> fs)
  else if exists_ fs (removelast p)
       then Raise (os_error NotADirectoryError "[Errno 20] Not a directory" p)
       else Raise (os_error FileNotFoundError "[Errno 2] No such file or directory" p).

(** [shutil.rmtree(p)], and [os.unlink(p)] on a file. *)
Definition remove_tree (fs : fsmap) (p : list string) : fsmap :=
  filter (fun kv => kv.1 <> p /\ below p kv.1 = false) fs.

(** [os.listdir(p)] *)
Definition listdir (fs : fsmap) (p : list string) : list string :=
  omap (fun kv => match PurePath.strip_prefix p kv.1 with
                  | Some [n] => Some n
                  | _ => None
                  end) (map_to_list fs).

(** Everything strictly below [p], as paths relative to [p]:
    what [Path.rglob('*')] yields on a directory. *)
Definition descendants (fs : fsmap) (p : list string) : list (list string * node) :=
  omap (fun kv => match PurePath.strip_prefix p kv.1 with
                  | Some (n :: q) => Some (n :: q, kv.2)
                  | _ => None
                  end) (map_to_list fs).

(** The regular files [os.walk(p)] reports, relative to [p]. *)
Definition walk_files (fs : fsmap) (p : list string) : list (list string) :=
  omap (fun qn => match qn.2 with
                  | File _ => Some qn.1
                  | Dir => None
                  end) (descendants fs p).

(** What a codec library does when it extracts one member below [td]:
    the upper directories are made, then the directory or the file. *)
Definition extract_member (fs : fsmap) (td : list string) (m : member)
  : result fsmap :=
  let target := td ++ m.1 in
  match makedirs fs (removelast target) with
  | Raise e => Raise e
  | Ok fs1 =>
      match m.2 with
      | None => makedirs fs1 target
      | Some d => write_file fs1 target d
      end
  end.

End Fs.

(** ** Sessions, the world and the monad of the methods *)

(** The attributes of an [ArchiveManager]. *)
Record session := Session {
  temp_dir : list string;
  _password_for_export : option string;
  _imported_archive_path : option string;
  _is_encrypted_import : bool
}.

(** The file system, the working directory of the process and what the
    logger has been given: (level, message). *)
Record world := World {
  files : fsmap;
  cwd : list string;
  logged : list (string * string)
}.

Record state := State { self : session; env : world }.

Definition M (A : Type) : Type := state -> result A * state.

Definition ret {A} (a : A) : M A := fun st => (Ok a, st).

Definition bind {A B} (m : M A) (k : A -> M B) : M B :=
  fun st => match m st with
            | (Ok a, st') => k a st'
            | (Raise e, st') => (Raise e, st')
            end.

Definition raise {A} (e : exn) : M A := fun st => (Raise e, st).

(** [try: m except Exception as e: h e] *)
Definition try_except {A} (m : M A) (h : exn -> M A) : M A :=
  fun st => match m st with
            | (Ok a, st') => (Ok a, st')
            | (Raise e, st') => h e st'
            end.

Declare Scope py_scope.
Delimit Scope py_scope with py.
Notation "x <- m ; k" := (bind m (fun x => k))
  (at level 20, m at level 100, k at level 200, only parsing) : py_scope.
Notation "m ;; k" := (bind m (fun _ => k))
  (at level 100, k at level 200, only parsing, right associativity) : py_scope.
Local Open Scope py_scope.

Definition get_self : M session := fun st => (Ok (self st), st).
Definition get_fs : M fsmap := fun st => (Ok (files (env st)), st).
Definition get_cwd : M (list string) := fun st => (Ok (cwd (env st)), st).

Definition put_fs (fs : fsmap) : M unit :=
  fun st => (Ok tt, State (self st) (World fs (cwd (env st)) (logged (env st)))).

Definition set_password_for_export (v : option string) : M unit :=
  fun st => let s := self st in
    (Ok tt, State (Session (temp_dir s) v (_imported_archive_path s)
                           (_is_encrypted_import s)) (env st)).

Definition set_imported_archive_path (v : option string) : M unit :=
  fun st => let s := self st in
    (Ok tt, State (Session (temp_dir s) (_password_for_export s) v
                           (_is_encrypted_import s)) (env st)).

Definition set_is_encrypted_import (v : bool) : M unit :=
  fun st => let s := self st in
    (Ok tt, State (Session (temp_dir s) (_password_for_export s)
                           (_imported_archive_path s) v) (env st)).

(** [logger.log(message, level)] *)
Definition logger_log (message level : string) : M unit :=
  fun st => let w := env st in
    (Ok tt, State (self st) (World (files w) (cwd w) (logged w ++ [(level, message)]))).

Definition lift {A} (r : result A) : M A := fun st => (r, st).

(** A file system step that may raise. *)
Definition fs_step (f : fsmap -> result fsmap) : M unit :=
  fs <- get_fs; fs' <- lift (f fs); put_fs fs'.

(** The canonical path a [Path] denotes for the operating system. *)
Definition canon (wd : list string) (p : PurePath.t) : list string :=
  PurePath.collapse (if PurePath.absolute p then [] else rev wd) (PurePath.parts p).

Definition os_path (s : string) : M (list string) :=
  wd <- get_cwd; ret (canon wd (PurePath.of_string s)).

(** [open(path, 'rb')] and reading it whole *)
Definition read_file (fs : fsmap) (p : list string) : result data :=
  match fs !! p with
  | Some (File d) => Ok d
  | Some Dir => Raise (Fs.os_error IsADirectoryError "[Errno 21] Is a directory" p)
  | None =>
      match p with
      | [] => Raise (Fs.os_error IsADirectoryError "[Errno 21] Is a directory" p)
      | _ => Raise (Fs.os_error FileNotFoundError "[Errno 2] No such file or directory" p)
      end
  end.

(** ** The codec libraries *)

(** What a reading library does with an archive: it fails to open it,
    or it extracts members in order and then, possibly, raises. *)
Inductive outcome :=
  | OpenFails (e : exn)
  | Extracts (ms : list member) (err : option exn).

Inductive zip_opener := ZipFile | AESZipFile.

(** The libraries, as far as the manager uses them. *)
Record codecs := Codecs {
  (** [pyzipper.AESZipFile(path)] opens and reports [WZ_AES] *)
  probe_aes : data -> bool;
  (** [opener(path, 'r')], the password set, [extract] on every member *)
  read_zip : zip_opener -> data -> option string -> outcome;
  (** [tarfile.open(path, "r:*")] and [extract] on every member *)
  read_tar : data -> outcome;
  (** [py7zr.SevenZipFile(path, 'r', password=...)] and the calls
      [extract(targets=[fname])] of the manager, one for each name,
      whatever the library makes of them *)
  read_7z : data -> option string -> outcome;
  (** [rarfile.RarFile(path, 'r', pwd=...)] and [extract] on every
      member *)
  read_rar : data -> option string -> outcome;
  (** the image written by an opener that accepted its arguments, with
      the password set and the members written *)
  write_zip : zip_opener -> option string -> list member -> data;
  (** [tarfile.open(path, mode)] and [add] on every file *)
  write_tar : string -> list member -> data;
  (** [py7zr.SevenZipFile(path, 'w', password=...)] and [write] *)
  write_7z : option string -> list member -> data;
  (** what [zipfile], [pyzipper] and [py7zr] find in the archive they
      are writing when they are asked to add that very file: what they
      have put there for the members written before it *)
  own_zip : zip_opener -> option string -> list member -> data;
  own_7z : option string -> list member -> data
}.

(** The keyword parameters of [zipfile.ZipFile.__init__] (CPython:
    [file, mode, compression, allowZip64, compresslevel, *,
    strict_timestamps, metadata_encoding]); [pyzipper.AESZipFile] takes
    [encryption] and [encryption_kwargs] besides. *)
Definition opener_keywords (o : zip_opener) : list string :=
  let std := ["file"; "mode"; "compression"; "allowZip64"; "compresslevel";
              "strict_timestamps"; "metadata_encoding"] in
  match o with
  | ZipFile => std
  | AESZipFile => std ++ ["encryption"; "encryption_kwargs"]
  end.

Definition opener_name (o : zip_opener) : string :=
  match o with ZipFile => "ZipFile" | AESZipFile => "AESZipFile" end.

(** Calling a constructor with keyword arguments: an unexpected keyword
    is a [TypeError], raised before the file is touched. *)
Definition call_opener (o : zip_opener) (keywords : list string) : M unit :=
  match List.find (fun k => negb (bool_decide (k ∈ opener_keywords o))) keywords with
  | Some k =>
      raise (Exn TypeError (opener_name o +:+
               ".__init__() got an unexpected keyword argument '" +:+ k +:+ "'"))
  | None => ret tt
  end.

(** ** The manager *)

(** [ArchiveManager._resolve_path]: the containment test is computed
    and both of its branches return the path. *)
Definition _resolve_path (td : list string) (path_in_archive : string)
  : result PurePath.t :=
  let safe_path := Str.lstrip_seps (OsPath.normpath path_in_archive) in
  let full_path := PurePath.join (PurePath.mk true td) safe_path in
  let resolve p := PurePath.mk true (PurePath.collapse [] (PurePath.parts p)) in
  if negb (Str.startswith (PurePath.to_string (resolve full_path))
                          (PurePath.to_string (resolve (PurePath.mk true td))))
  then (* pass *) Ok full_path
  else Ok full_path.

(** [ArchiveManager.__init__], with [td] the directory [mkdtemp] made. *)
Definition init (td : list string) (w : world) : state :=
  State (Session td None None false)
        (World (<[td := Dir]> (files w)) (cwd w)
               (logged w ++ [("INFO", "ArchiveManager initialized. Temp directory: "
                                      +:+ Fs.show td)])).

(** [shutil.copy(src, dst)] *)
Definition shutil_copy (fs : fsmap) (wd : list string) (source dst : PurePath.t)
  : result fsmap :=
  let dst := if Fs.is_dir fs (canon wd dst)
             then PurePath.child dst (PurePath.name source) else dst in
  if bool_decide (canon wd source = canon wd dst)
  then Raise (Exn SameFileError (Fs.show (canon wd source) +:+ " and "
                +:+ Fs.show (canon wd dst) +:+ " are the same file"))
  else match read_file fs (canon wd source) with
       | Raise e => Raise e
       | Ok d => Fs.write_file fs (canon wd dst) d
       end.

(** Whether a copy of [src] to [dst] meets its own output: [dst] lies
    inside a directory that [src] holds already. *)
Definition meets_itself (fs : fsmap) (src dst : list string) : bool :=
  match PurePath.strip_prefix src dst with
  | Some (n :: _ :: _) => Fs.is_dir fs (src ++ [n])
  | _ => false
  end.

(** [shutil.copytree(src, dst)].  The entries of [src] are listed
    before [dst] is made, and those of a directory below [src] when
    the copy reaches it.  A copy that meets its own output there
    copies it into itself, level after level, until the interpreter
    raises [RecursionError]; the directories it has made by then are
    not part of the model. *)
Definition shutil_copytree (fs : fsmap) (src dst : list string) : result fsmap :=
  if Fs.exists_ fs dst
  then Raise (Fs.os_error FileExistsError "[Errno 17] File exists" dst)
  else match Fs.makedirs fs dst with
       | Raise e => Raise e
       | Ok fs1 =>
           if meets_itself fs src dst
           then Raise (Exn RecursionError
                         "maximum recursion depth exceeded while calling a Python object")
           else Ok (foldr (fun qn acc => <[dst ++ qn.1 := qn.2]> acc) fs1
                          (Fs.descendants fs src))
       end.

(** The directories the operating system walks through to reach [p]:
    what the proper prefixes of [p] denote. *)
Definition passes_through (wd : list string) (p : PurePath.t) : list (list string) :=
  map (fun k => canon wd (PurePath.mk (PurePath.absolute p) (take k (PurePath.parts p))))
      (seq 1 (length (PurePath.parts p) - 1)).

(** [shutil.rmtree(p)] on a directory given by a path that may climb
    with [..]: everything below the directory is removed through the
    open directory; the directory itself is then removed by its path,
    and that raises [FileNotFoundError] when the path leads through a
    directory that has just been removed. *)
Definition shutil_rmtree (fs : fsmap) (wd : list string) (p : PurePath.t)
  : fsmap * option exn :=
  let target := canon wd p in
  if existsb (Fs.below target) (passes_through wd p)
  then (filter (fun kv => Fs.below target kv.1 = false) fs,
        Some (Exn FileNotFoundError
                ("[Errno 2] No such file or directory: '" +:+ PurePath.to_string p +:+ "'")))
  else (Fs.remove_tree fs target, None).

(** The contents of the listed files, as members named relative to
    [td]: what [gather_members] gives when the archive is not among
    them. *)
Fixpoint read_members (fs : fsmap) (td : list string) (file_list : list (list string))
  : result (list member) :=
  match file_list with
  | [] => Ok []
  | q :: rest =>
      match read_file fs (td ++ q) with
      | Raise e => Raise e
      | Ok d => match read_members fs td rest with
                | Raise e => Raise e
                | Ok ms => Ok ((q, Some d) :: ms)
                end
      end
  end.

(** The members a writing library is given for the listed files.  The
    archive being written, when it is one of the listed files, is
    skipped by [tarfile] ([own = None]: [TarFile.add] returns at once
    on its own name) and read by the other libraries as far as it
    has been written ([own = Some so_far]). *)
Fixpoint gather_members (fs : fsmap) (td out : list string)
  (own : option (list member -> data)) (file_list : list (list string))
  (done : list member) : result (list member) :=
  match file_list with
  | [] => Ok done
  | q :: rest =>
      if bool_decide (td ++ q = out) then
        gather_members fs td out own rest
          (match own with
           | None => done
           | Some so_far => done ++ [(q, Some (so_far done))]
           end)
      else match read_file fs (td ++ q) with
           | Raise e => Raise e
           | Ok d => gather_members fs td out own rest (done ++ [(q, Some d)])
           end
  end.

(** [sorted(paths)] on strings *)
Definition sorted (l : list string) : list string := merge_sort String.le l.

(** [except RuntimeError as e: h e] *)
Definition try_except_RuntimeError {A} (m : M A) (h : exn -> M A) : M A :=
  fun st => match m st with
            | (Ok a, st') => (Ok a, st')
            | (Raise e, st') =>
                if isinstance_RuntimeError e then h e st' else (Raise e, st')
            end.

Section Manager.

(** The optional modules of the process. *)
Variable PYZIPPER_AVAILABLE : bool.
Variable py7zr : bool.
Variable rarfile : bool.
Variable lib : codecs.

(** [close] *)
Definition close : M unit :=
  s <- get_self; fs <- get_fs;
  if negb (Fs.exists_ fs (temp_dir s))
  then raise (Fs.os_error FileNotFoundError "[Errno 2] No such file or directory"
                          (temp_dir s))
  else if negb (Fs.is_dir fs (temp_dir s))
  then raise (Fs.os_error NotADirectoryError "[Errno 20] Not a directory" (temp_dir s))
  else
    put_fs (Fs.remove_tree fs (temp_dir s)) ;;
    logger_log ("Temporary directory " +:+ Fs.show (temp_dir s) +:+ " removed.") "INFO".

(** One [extract(member, self.temp_dir)]. *)
Definition extract_one (m : member) : M unit :=
  s <- get_self; fs_step (fun fs => Fs.extract_member fs (temp_dir s) m).

(** The loop over the members, and the exception the library raises
    after them, if any. *)
Fixpoint extract_members (ms : list member) (err : option exn) : M unit :=
  match ms with
  | [] => match err with None => ret tt | Some e => raise e end
  | m :: ms' => extract_one m ;; extract_members ms' err
  end.

Definition run_outcome (o : outcome) : M unit :=
  match o with
  | OpenFails e => raise e
  | Extracts ms err => extract_members ms err
  end.

Definition open_archive (archive_path : string) : M data :=
  p <- os_path archive_path; fs <- get_fs; lift (read_file fs p).

Definition zip_handler (password : option string) (e : exn) : M unit :=
  (if Str.contains "password" (Str.lower (exn_msg e)) then
     if negb (truthy password) then
       logger_log "ZIP is encrypted. Use password." "WARN" ;;
       set_is_encrypted_import true
     else ret tt
   else ret tt) ;;
  raise e.

Fixpoint zip_extract_members (password : option string) (ms : list member)
  (err : option exn) : M unit :=
  match ms with
  | [] => match err with
          | None => ret tt
          | Some e => try_except_RuntimeError (raise e) (zip_handler password)
          end
  | m :: ms' =>
      try_except_RuntimeError (extract_one m) (zip_handler password) ;;
      zip_extract_members password ms' err
  end.

(** [_import_zip_with_progress] *)
Definition _import_zip_with_progress (archive_path : string)
  (password : option string) : M unit :=
  p <- os_path archive_path; fs <- get_fs;
  let opener :=
    if PYZIPPER_AVAILABLE
       && match read_file fs p with
          | Ok d => probe_aes lib d
          | Raise _ => false
          end
    then AESZipFile else ZipFile in
  d <- lift (read_file fs p);
  match read_zip lib opener d (if truthy password then password else None) with
  | OpenFails e => raise e
  | Extracts ms err => zip_extract_members password ms err
  end.

(** [_import_tar_with_progress] *)
Definition _import_tar_with_progress (archive_path fmt : string) : M unit :=
  d <- open_archive archive_path; run_outcome (read_tar lib d).

(** The test of the handler of [import_archive]. *)
Definition likely_encryption (e : exn) : bool :=
  Str.contains "password" (Str.lower (exn_msg e))
  || Str.contains "encrypted" (Str.lower (exn_msg e))
  || isinstance_RuntimeError e.

(** The [try] block of [import_archive]. *)
Definition import_decode (archive_path : string) (password : option string)
  (fmt : string) : M unit :=
  (if String.eqb fmt "zip" then _import_zip_with_progress archive_path password
   else if bool_decide (fmt ∈ ["tar"; "tar.gz"; "gz"; "tar.xz"; "xz"])
   then _import_tar_with_progress archive_path fmt
   else if String.eqb fmt "7z" then
     if negb py7zr then raise (Exn ImportError "py7zr is not installed.")
     else d <- open_archive archive_path; run_outcome (read_7z lib d password)
   else if String.eqb fmt "rar" then
     if negb rarfile then raise (Exn ImportError "rarfile is not installed.")
     else d <- open_archive archive_path; run_outcome (read_rar lib d password)
   else raise (Exn ValueError ("Unsupported import format: " +:+ fmt))) ;;
  logger_log "Import successful." "INFO".

(** The [except Exception as e] block of [import_archive]. *)
Definition import_handler (e : exn) : M unit :=
  (if likely_encryption e then
     set_is_encrypted_import true ;;
     logger_log ("Import failed (likely encryption): " +:+ exn_msg e) "WARN"
   else logger_log ("Failed to import archive: " +:+ exn_msg e) "ERROR") ;;
  raise e.

(** [import_archive] *)
Definition import_archive (archive_path : string) (password : option string)
  : M unit :=
  p <- os_path archive_path; fs <- get_fs;
  if negb (Fs.exists_ fs p)
  then raise (Exn FileNotFoundError ("Archive not found: " +:+ archive_path))
  else
    set_imported_archive_path (Some archive_path) ;;
    let fmt := _get_format archive_path in
    logger_log ("Importing '" +:+ archive_path +:+ "' (format: " +:+ fmt +:+ ")") "INFO" ;;
    try_except (import_decode archive_path password fmt) import_handler.

(** The library opens [output_path] for writing, which truncates it,
    reads the listed files and leaves the image [image] made of them;
    [own] says what it does with its own archive among them. *)
Definition write_archive (output_path : string) (image : list member -> data)
  (own : option (list member -> data)) (file_list : list (list string)) : M unit :=
  out <- os_path output_path;
  fs_step (fun fs => Fs.write_file fs out (Bytes [])) ;;
  s <- get_self; fs <- get_fs;
  ms <- lift (gather_members fs (temp_dir s) out own file_list []);
  fs_step (fun fs => Fs.write_file fs out (image ms)).

(** [_export_zip_with_progress] *)
Definition _export_zip_with_progress (output_path : string)
  (file_list : list (list string)) (total_files : nat) : M unit :=
  s <- get_self;
  let pw := _password_for_export s in
  let opener := if truthy pw && PYZIPPER_AVAILABLE then AESZipFile else ZipFile in
  (if truthy pw && PYZIPPER_AVAILABLE then ret tt
   else if truthy pw
        then logger_log "pyzipper not installed. Creating normal zip." "WARN"
        else ret tt) ;;
  call_opener opener ["file"; "mode"; "compression"; "encryption"] ;;
  write_archive output_path
    (write_zip lib opener (if truthy pw then pw else None))
    (Some (own_zip lib opener (if truthy pw then pw else None))) file_list.

(** [_export_tar_with_progress] *)
Definition _export_tar_with_progress (output_path fmt : string)
  (file_list : list (list string)) (total_files : nat) : M unit :=
  let mode := if Str.contains "gz" fmt then "w:gz"
              else if Str.contains "xz" fmt then "w:xz" else "w" in
  write_archive output_path (write_tar lib mode) None file_list.

(** The [if]/[elif] chain of [export] over the format. *)
Definition export_dispatch (output_path fmt : string)
  (file_list : list (list string)) (total_files : nat) : M unit :=
  s <- get_self;
  if String.eqb fmt "zip"
  then _export_zip_with_progress output_path file_list total_files
  else if bool_decide (fmt ∈ ["tar"; "tar.gz"; "tar.xz"])
  then _export_tar_with_progress output_path fmt file_list total_files
  else if String.eqb fmt "7z" then
    if negb py7zr then raise (Exn ImportError "py7zr is not installed.")
    else write_archive output_path (write_7z lib (_password_for_export s))
           (Some (own_7z lib (_password_for_export s))) file_list
  else raise (Exn ValueError ("Unsupported export format: " +:+ fmt
                              +:+ " or implementation pending.")).

(** [export] *)
Definition export (output_path : string) (compression_format : option string)
  : M unit :=
  let fmt := if truthy compression_format
             then default "" compression_format
             else _get_format output_path in
  logger_log ("Exporting content to '" +:+ output_path +:+ "' (format: " +:+ fmt +:+ ")")
             "INFO" ;;
  s <- get_self; fs <- get_fs;
  let file_list := Fs.walk_files fs (temp_dir s) in
  let total_files := length file_list in
  export_dispatch output_path fmt file_list total_files ;;
  logger_log "Export successful." "INFO".

(** [encrypt]; the argument is a [str]. *)
Definition encrypt (password : string) : M unit :=
  if String.eqb password ""
  then raise (Exn ValueError "Password must be a non-empty string.")
  else set_password_for_export (Some password) ;;
       logger_log "Encryption for export has been enabled." "INFO".

(** The body of the loop of [decrypt] over the items of
    [os.listdir(self.temp_dir)], and the whole loop once the listing
    has returned. *)
Definition wipe_item (td : list string) (fs : fsmap) (item : string) : fsmap :=
  let item_path := td ++ [item] in
  if Fs.is_file fs item_path then delete item_path fs
  else if Fs.is_dir fs item_path then Fs.remove_tree fs item_path
  else fs.

Definition wipe (td : list string) (fs : fsmap) : fsmap :=
  foldl (wipe_item td) fs (Fs.listdir fs td).

(** [os.listdir(p)], for the loop of [decrypt]. *)
Definition os_listdir (p : list string) : M (list string) :=
  fs <- get_fs;
  if negb (Fs.exists_ fs p)
  then raise (Fs.os_error FileNotFoundError "[Errno 2] No such file or directory" p)
  else if negb (Fs.is_dir fs p)
  then raise (Fs.os_error NotADirectoryError "[Errno 20] Not a directory" p)
  else ret (Fs.listdir fs p).

(** [decrypt] *)
Definition decrypt (password : option string) : M unit :=
  if truthy password then
    s <- get_self;
    if negb (truthy (_imported_archive_path s)) || negb (_is_encrypted_import s)
    then raise (Exn RuntimeError
      "Decrypt with password can only be used after a failed import of an encrypted archive.")
    else
      logger_log ("Attempting to decrypt '" +:+ default "" (_imported_archive_path s)
                  +:+ "' with the new password.") "INFO" ;;
      items <- os_listdir (temp_dir s);
      fs <- get_fs;
      put_fs (foldl (wipe_item (temp_dir s)) fs items) ;;
      import_archive (default "" (_imported_archive_path s)) password ;;
      set_is_encrypted_import false
  else
    s <- get_self;
    if truthy (_password_for_export s) then
      set_password_for_export None ;;
      logger_log "Encryption for export has been disabled." "INFO"
    else logger_log "Encryption for export was not enabled." "INFO".

(** [add] *)
Definition add (source_path dest_path_in_archive : string) : M unit :=
  wd <- get_cwd; fs <- get_fs; s <- get_self;
  let source := PurePath.of_string source_path in
  if negb (Fs.exists_ fs (canon wd source))
  then raise (Exn FileNotFoundError ("Source not found: " +:+ source_path))
  else
    dest_path <- lift (_resolve_path (temp_dir s) dest_path_in_archive);
    (if Fs.is_dir fs (canon wd source) then
       let final_dest := PurePath.child dest_path (PurePath.name source) in
       fs_step (fun fs => shutil_copytree fs (canon wd source) (canon wd final_dest))
     else
       let final_dest :=
         if Fs.is_dir fs (canon wd dest_path) || Str.endswith dest_path_in_archive "/"
         then dest_path else PurePath.parent dest_path in
       fs_step (fun fs => Fs.makedirs fs (canon wd final_dest)) ;;
       fs1 <- get_fs;
       fs_step (fun fs => shutil_copy fs wd source
                  (if Fs.is_dir fs1 (canon wd final_dest)
                   then PurePath.child final_dest (PurePath.name source)
                   else final_dest))) ;;
    logger_log ("Added '" +:+ source_path +:+ "' to archive.") "INFO".

(** [remove] *)
Definition remove (path_in_archive : string) : M unit :=
  wd <- get_cwd; fs <- get_fs; s <- get_self;
  target_path <- lift (_resolve_path (temp_dir s) path_in_archive);
  if negb (Fs.exists_ fs (canon wd target_path))
  then raise (Exn FileNotFoundError ("Path not found: '" +:+ path_in_archive +:+ "'"))
  else
    (if Fs.is_dir fs (canon wd target_path)
     then let r := shutil_rmtree fs wd target_path in
          put_fs r.1 ;;
          match r.2 with Some e => raise e | None => ret tt end
     else put_fs (delete (canon wd target_path) fs)) ;;
    logger_log ("Removed '" +:+ path_in_archive +:+ "'.") "INFO".

(** The body of the loop of [list_files]:
    [str(p.relative_to(self.temp_dir))] for [p = target_path / q]. *)
Definition relative_name (td : list string) (target_path : PurePath.t)
  (q : list string) : result string :=
  match PurePath.relative_to
          (PurePath.mk (PurePath.absolute target_path) (PurePath.parts target_path ++ q))
          (PurePath.mk true td) with
  | Some r => Ok (PurePath.to_string r)
  | None => Raise (Exn ValueError "path is not in the subpath of the temporary directory")
  end.

Fixpoint relative_names (td : list string) (target_path : PurePath.t)
  (qs : list (list string)) : result (list string) :=
  match qs with
  | [] => Ok []
  | q :: rest =>
      match relative_name td target_path q with
      | Raise e => Raise e
      | Ok n => match relative_names td target_path rest with
                | Raise e => Raise e
                | Ok ns => Ok (n :: ns)
                end
      end
  end.

(** [list_files] *)
Definition list_files (path_in_archive : string) : M (list string) :=
  wd <- get_cwd; fs <- get_fs; s <- get_self;
  target_path <- lift (_resolve_path (temp_dir s) path_in_archive);
  paths <- (if Fs.exists_ fs (canon wd target_path) then
              lift (relative_names (temp_dir s) target_path
                      (if Fs.is_dir fs (canon wd target_path)
                       then (Fs.descendants fs (canon wd target_path)).*1
                       else []))
            else ret []);
  ret (sorted paths).

End Manager.

(** ** The command line *)

(** The arguments of the commands of [__main__.py] that work on the
    staging area through the manager alone, as [argparse] leaves them;
    [extract], which copies the staging area out with
    [shutil.copytree], and the interactive mode are not embedded. *)
Inductive command :=
  | Ls (archive : string) (password : option string)
  | Create (archive source dest_path : string) (password format : option string)
  | AddTo (archive source dest_path : string) (password out format : option string)
  | Rm (archive target : string) (password out format : option string).

Section CommandLine.

Variable PYZIPPER_AVAILABLE : bool.
Variable py7zr : bool.
Variable rarfile : bool.
Variable lib : codecs.

(** [ModernColor.color('green')] and [ModernColor.RESET] *)
Variable green : string.
Variable reset : string.

(** [for f in files: logger.log(f" - {f}")] *)
Fixpoint log_each (files : list string) : M unit :=
  match files with
  | [] => ret tt
  | f :: rest => logger_log (" - " +:+ f) "INFO" ;; log_each rest
  end.

(** [if args.password: mgr.encrypt(args.password)] *)
Definition encrypt_if (password : option string) : M unit :=
  if truthy password then encrypt (default "" password) else ret tt.

(** The [try] block of [main]. *)
Definition main_body (c : command) : M unit :=
  match c with
  | Ls archive password =>
      import_archive PYZIPPER_AVAILABLE py7zr rarfile lib archive password ;;
      files <- list_files ".";
      logger_log (green +:+ "Files in " +:+ archive +:+ ":" +:+ reset) "INFO" ;;
      (match files with
       | [] => logger_log " (Empty) " "INFO"
       | _ => ret tt
       end) ;;
      log_each files
  | Create archive source dest_path password format =>
      add source dest_path ;;
      encrypt_if password ;;
      export PYZIPPER_AVAILABLE py7zr lib archive format
  | AddTo archive source dest_path password out format =>
      import_archive PYZIPPER_AVAILABLE py7zr rarfile lib archive password ;;
      add source dest_path ;;
      encrypt_if password ;;
      export PYZIPPER_AVAILABLE py7zr lib
             (if truthy out then default "" out else archive) format
  | Rm archive target password out format =>
      import_archive PYZIPPER_AVAILABLE py7zr rarfile lib archive password ;;
      remove target ;;
      encrypt_if password ;;
      export PYZIPPER_AVAILABLE py7zr lib
             (if truthy out then default "" out else archive) format
  end.

(** [main] once the arguments are parsed, with [td] the directory
    [mkdtemp] makes for the manager.  The result is the exit status of
    the process, 1 for [sys.exit(1)], or the exception that [close]
    raises in the [finally] block. *)
Definition main (td : list string) (c : command) (w : world) : result nat * world :=
  let attempt :=
    try_except (main_body c ;; ret 0%nat)
               (fun e => logger_log (exn_msg e) "ERROR" ;; ret 1%nat)
               (init td w) in
  match close attempt.2 with
  | (Ok _, st) => (attempt.1, env st)
  | (Raise e, st) => (Raise e, env st)
  end.

End CommandLine.

(** ** Notions used by the statements *)

(** The tree invariant of a file system: the root is not stored and
    every stored node sits in a directory. *)
Definition closed (fs : fsmap) : Prop :=
  map_Forall (fun p _ => p <> [] /\ Fs.is_dir fs (removelast p) = true) fs.

(** [m] never changes what [f] observes of the state. *)
Definition keeps {A X} (f : state -> X) (m : M A) : Prop :=
  forall st, f (m st).2 = f st.

Definition the_path (st : state) : option string := _imported_archive_path (self st).
Definition the_flag (st : state) : bool := _is_encrypted_import (self st).
Definition the_temp_dir (st : state) : list string := temp_dir (self st).
Definition the_password (st : state) : option string := _password_for_export (self st).

(** [m] sets the "encrypted import" flag only when it raises a
    [RuntimeError], and never clears it. *)
Definition flags_runtime {A} (m : M A) : Prop :=
  forall st,
    the_flag (m st).2 = the_flag st
    \/ (the_flag (m st).2 = true
        /\ exists e, (m st).1 = Raise e /\ isinstance_RuntimeError e = true).

(** The state in which the decoding of [import_archive] starts: the
    path is recorded and the import is announced. *)
Definition recorded (archive_path : string) (st : state) : state :=
  let s := self st in
  let w := env st in
  State (Session (temp_dir s) (_password_for_export s) (Some archive_path)
                 (_is_encrypted_import s))
        (World (files w) (cwd w)
           (logged w ++ [("INFO", "Importing '" +:+ archive_path +:+ "' (format: "
                                  +:+ _get_format archive_path +:+ ")")])).

(** Whether wiping the item [n] of [td] removes the path [p]. *)
Definition wiped_by (fs : fsmap) (td : list string) (n : string) (p : list string)
  : bool :=
  bool_decide (p = td ++ [n]) || (Fs.is_dir fs (td ++ [n]) && Fs.below (td ++ [n]) p).

(** The state in which [decrypt] imports again: the retry is announced
    and the staging area wiped. *)
Definition wiped_state (st : state) : state :=
  let s := self st in
  let w := env st in
  State s (World (wipe (temp_dir s) (files w)) (cwd w)
             (logged w ++ [("INFO", "Attempting to decrypt '"
                                    +:+ default "" (_imported_archive_path s)
                                    +:+ "' with the new password.")])).

(** The images the libraries make of a list of members. *)
Definition library_image (lib : codecs) (image : list member -> data) : Prop :=
  (exists o pw, image = write_zip lib o pw)
  \/ (exists mode, image = write_tar lib mode)
  \/ (exists pw, image = write_7z lib pw).

(** The state in which the dispatch of [export] starts. *)
Definition announced (output_path fmt : string) (st : state) : state :=
  let w := env st in
  State (self st)
        (World (files w) (cwd w)
           (logged w ++ [("INFO", "Exporting content to '" +:+ output_path
                                  +:+ "' (format: " +:+ fmt +:+ ")")])).

(** The loop of a reading library over the members, on the file
    system alone. *)
Fixpoint extract_all (fs : fsmap) (td : list string) (ms : list member)
  : result fsmap :=
  match ms with
  | [] => Ok fs
  | m :: ms' =>
      match Fs.extract_member fs td m with
      | Ok fs' => extract_all fs' td ms'
      | Raise e => Raise e
      end
  end.

(** The directories [makedirs_from fs cur rest] visits. *)
Definition created (cur rest x : list string) : Prop :=
  exists r1 r2, r1 <> [] /\ rest = r1 ++ r2 /\ x = cur ++ r1.

(** Every directory on the way to [td], and [td] itself, is there. *)
Definition dirs_to (fs : fsmap) (td : list string) : Prop :=
  forall a1 a2, td = a1 ++ a2 -> a1 <> [] -> fs !! a1 = Some Dir.

(** What the file system holds below [td] once the members [done] have
    been extracted there, and that nothing else has changed. *)
Definition extracted (fs0 : fsmap) (td : list string) (done : list member)
  (fs : fsmap) : Prop :=
  (forall x, Fs.below td x = false -> fs !! x = fs0 !! x)
  /\ (forall q d, q <> [] ->
        fs !! (td ++ q) = Some (File d) <-> (q, Some d) ∈ done)
  /\ (forall q, q <> [] ->
        fs !! (td ++ q) = Some Dir <-> exists m, m ∈ done /\ Fs.below q m.1 = true).

(** Members as [export] writes them: regular files with distinct
    names, none of which lies below another. *)
Definition plain_files (ms : list member) : Prop :=
  NoDup ms.*1
  /\ (forall m, m ∈ ms -> m.1 <> [] /\ is_Some m.2)
  /\ (forall m m', m ∈ ms -> m' ∈ ms -> Fs.below m.1 m'.1 = false).

(** [fmt] is a tar format, and [tarfile] gives back the regular files
    it was given: what it reads in an archive it wrote are the members
    written, in their order. *)
Definition faithful (lib : codecs) (fmt : string) : Prop :=
  fmt ∈ ["tar"; "tar.gz"; "tar.xz"]
  /\ forall mode ms, read_tar lib (write_tar lib mode ms) = Extracts ms None.

(** The state a refused import leaves: the path recorded, the import
    announced and the failure logged, with the flag set when the
    message is taken for an encryption failure. *)
Definition refused (archive_path : string) (e : exn) (st : state) : state :=
  (import_handler e (recorded archive_path st)).2.

(** The format [export] resolves for the archive a command writes;
    [Ls] writes none. *)
Definition output_format (c : command) : option string :=
  let resolve (path : string) (format : option string) :=
    if truthy format then default "" format else _get_format path in
  match c with
  | Ls _ _ => None
  | Create archive _ _ _ format => Some (resolve archive format)
  | AddTo archive _ _ _ out format | Rm archive _ _ out format =>
      Some (resolve (if truthy out then default "" out else archive) format)
  end.

(** The password given on the command line. *)
Definition command_password (c : command) : option string :=
  match c with
  | Ls _ password | Create _ _ _ password _
  | AddTo _ _ _ password _ _ | Rm _ _ password _ _ => password
  end.

(** The archive a command reads first; [Create] reads none. *)
Definition command_archive (c : command) : option string :=
  match c with
  | Ls archive _ | AddTo archive _ _ _ _ _ | Rm archive _ _ _ _ => Some archive
  | Create _ _ _ _ _ => None
  end.

(** The standard opener is used by an export to ZIP: there is no
    export password, or no pyzipper. *)
Definition uses_stdlib_opener (PYZIPPER_AVAILABLE : bool) (st : state) : Prop :=
  truthy (_password_for_export (self st)) && PYZIPPER_AVAILABLE = false.

(** A test for [closed]. *)
Definition closedb (fs : fsmap) : bool :=
  forallb (fun kv => negb (bool_decide (kv.1 = [])) && Fs.is_dir fs (removelast kv.1))
          (map_to_list fs).

(** The regular files below [p] are those of [fs], with their data. *)
Definition file_below (fs : fsmap) (p q : list string) : Prop :=
  exists r d, r <> [] /\ fs !! (p ++ q ++ r) = Some (File d).

(** ** A reference implementation of the codec libraries

    Container images are kept as [Packed] values, so that reading an
    image returns the members it was written with.  A locked image
    needs its password; the standard [zipfile] reader cannot read AES. *)

Module Reference.

Definition unlocks (lock password : option string) : bool :=
  match lock with
  | None => true
  | Some l => bool_decide (password = Some l)
  end.

Definition zip_reader (o : zip_opener) (d : data) (password : option string) : outcome :=
  match d with
  | Packed ZipBox lock ms =>
      match lock, ms, o with
      | None, _, _ | _, [], _ => Extracts ms None
      | Some _, _, ZipFile =>
          Extracts [] (Some (Exn NotImplementedError
                               "That compression method is not supported"))
      | Some l, _, AESZipFile =>
          if unlocks lock password then Extracts ms None
          else Extracts [] (Some (Exn RuntimeError
                 (match password with
                  | None => "File is encrypted, password required for extraction"
                  | Some _ => "Bad password for file"
                  end)))
      end
  | _ => OpenFails (Exn (LibraryError "BadZipFile" false) "File is not a zip file")
  end.

Definition tar_reader (d : data) : outcome :=
  match d with
  | Packed TarBox _ ms => Extracts ms None
  | _ => OpenFails (Exn (LibraryError "ReadError" false)
                        "file could not be opened successfully")
  end.

Definition locked_reader (box : container) (d : data) (password : option string)
  : outcome :=
  match d with
  | Packed b lock ms =>
      if bool_decide (b = box) then
        if unlocks lock password then Extracts ms None
        else OpenFails (Exn (LibraryError "PasswordRequired" false)
                            "Password is required for extracting given archive.")
      else OpenFails (Exn (LibraryError "BadArchive" false) "not an archive")
  | Bytes _ => OpenFails (Exn (LibraryError "BadArchive" false) "not an archive")
  end.

Definition lib : codecs := {|
  probe_aes d := match d with Packed ZipBox (Some _) _ => true | _ => false end;
  read_zip := zip_reader;
  read_tar := tar_reader;
  read_7z := locked_reader SevenZBox;
  read_rar := locked_reader RarBox;
  write_zip o pw ms := Packed ZipBox (match o with AESZipFile => pw | ZipFile => None end) ms;
  write_tar mode ms := Packed TarBox None ms;
  write_7z pw ms := Packed SevenZBox (if truthy pw then pw else None) ms;
  own_zip o pw ms := Bytes [];
  own_7z pw ms := Bytes []
|}.

End Reference.

(** ** Sample worlds *)

Module Sample.

Definition notes : data := Bytes [Byte.x68; Byte.x69].
Definition photo : data := Bytes [Byte.xff; Byte.xd8].

(** A staging area [/tmp/t1] holding [notes.txt], [docs/img/p.jpg] and
    the empty directory [empty], and a home directory beside it. *)
Definition fs0 : fsmap :=
  list_to_map
    [ (["tmp"], Dir);
      (["tmp"; "t1"], Dir);
      (["tmp"; "t1"; "notes.txt"], File notes);
      (["tmp"; "t1"; "docs"], Dir);
      (["tmp"; "t1"; "docs"; "img"], Dir);
      (["tmp"; "t1"; "docs"; "img"; "p.jpg"], File photo);
      (["tmp"; "t1"; "empty"], Dir);
      (["home"], Dir);
      (["home"; "u"], Dir);
      (["home"; "u"; "notes.txt"], File notes);
      (["home"; "u"; "secret.zip"],
         File (Packed ZipBox (Some "pw") [(["a.txt"], Some notes)])) ].

Definition w0 : world := World fs0 ["home"; "u"] [].

Definition s0 : session := Session ["tmp"; "t1"] None None false.

Definition st0 : state := State s0 w0.

End Sample.

(** * Properties *)

Example get_format_samples :
  map _get_format
      ["a.zip"; "dir/B.TAR.GZ"; "x.tgz"; "/tmp/y.Tar.Xz"; "z.7z"; "notes.txt";
       "README"; ".bashrc"; "a.tar.gz/"; "a.zip/."; "odd."]
  = ["zip"; "tar.gz"; "tar.gz"; "tar.xz"; "7z"; "txt"; ""; ""; "gz"; "zip"; ""].
Proof. reflexivity. Qed.

Example normpath_samples :
  map OsPath.normpath
      [""; "."; "a/./b//c"; "a/../b"; "../../etc/passwd"; "/../x"; "//x"; "///x";
       "a/b/../../.."; "/"]
  = ["."; "."; "a/b/c"; "b"; "../../etc/passwd"; "/x"; "//x"; "/x"; ".."; "/"].
Proof. reflexivity. Qed.

(** ** Strings and paths *)

Section StringFacts.






Lemma lower_eq_empty s : Str.lower s = "" <-> s = "".
Proof. destruct s; simpl; split; intros; congruence. Qed.












Lemma split_slash_plain s : Str.mem "/" s = false -> Str.split_slash s = [s].
Proof.
  induction s as [|c s IH]; simpl; [done|].
  destruct (Ascii.eqb c "/"); simpl; [done|]. intros H. by rewrite IH.
Qed.


Lemma split_slash_parts s : Forall (fun x => Str.mem "/" x = false) (Str.split_slash s).
Proof.
  induction s as [|c s IH]; simpl; [by repeat constructor|].
  destruct (Ascii.eqb c "/") eqn:Hc; [by constructor|].
  destruct (Str.split_slash s) as [|h t]; [by repeat constructor; simpl; rewrite Hc|].
  inversion IH; subst. constructor; [|done]. simpl. by rewrite Hc.
Qed.



End StringFacts.

(** ** The format resolver *)

Section FormatResolver.


















End FormatResolver.

(** ** Path resolution *)

Section PathResolution.

(** [_resolve_path] never rejects: it returns the joined path whatever
    the containment test says. *)
Lemma resolve_path_returns td p :
  _resolve_path td p
  = Ok (PurePath.join (PurePath.mk true td) (Str.lstrip_seps (OsPath.normpath p))).
Proof. unfold _resolve_path. by destruct (negb _). Qed.

Lemma startswith_slash c s : Str.startswith (String c s) "/" = Ascii.eqb c "/".
Proof. destruct c as [[] [] [] [] [] [] [] []]; reflexivity. Qed.

Lemma lstrip_seps_relative s : Str.startswith (Str.lstrip_seps s) "/" = false.
Proof.
  induction s as [|c s IH]; [done|].
  change (Str.lstrip_seps (String c s))
    with (if Ascii.eqb c "/" || Ascii.eqb c "\" then Str.lstrip_seps s else String c s).
  destruct (Ascii.eqb c "/") eqn:Hc; [done|].
  destruct (Ascii.eqb c "\"); [done|]. simpl orb. cbv iota.
  by rewrite startswith_slash.
Qed.

(** The parts of a resolved path are those of the temporary directory
    followed by the parts of the normalised argument. *)
Lemma resolve_path_parts td p :
  _resolve_path td p
  = Ok (PurePath.mk true
          (td ++ PurePath.parse_parts (Str.lstrip_seps (OsPath.normpath p)))).
Proof.
  rewrite resolve_path_returns. unfold PurePath.join.
  by rewrite lstrip_seps_relative.
Qed.

(** C3: on [../../etc/passwd] the code returns a path instead of
    rejecting it; the path denotes [/etc/passwd], outside the staging
    area [/tmp/t1], and [remove] then deletes a file of the home
    directory through such a path. *)
Theorem resolve_path_escapes :
  _resolve_path ["tmp"; "t1"] "../../etc/passwd"
    = Ok (PurePath.mk true ["tmp"; "t1"; ".."; ".."; "etc"; "passwd"])
  /\ canon [] (PurePath.mk true ["tmp"; "t1"; ".."; ".."; "etc"; "passwd"])
     = ["etc"; "passwd"]
  /\ Fs.below ["tmp"; "t1"] ["etc"; "passwd"] = false
  /\ files (env Sample.st0) !! ["home"; "u"; "notes.txt"] = Some (File Sample.notes)
  /\ (remove "../../home/u/notes.txt" Sample.st0).1 = Ok tt
  /\ files (env (remove "../../home/u/notes.txt" Sample.st0).2)
       !! ["home"; "u"; "notes.txt"] = None.
Proof. repeat split; vm_compute; reflexivity. Qed.

End PathResolution.

(** ** Export to ZIP *)

Section ZipExport.

Variables (py7zr : bool) (lib : codecs).

(** The standard opener is called with the keyword [encryption], which
    [zipfile.ZipFile] does not take. *)
Lemma call_opener_stdlib st :
  call_opener ZipFile ["file"; "mode"; "compression"; "encryption"] st
  = (Raise (Exn TypeError
       "ZipFile.__init__() got an unexpected keyword argument 'encryption'"), st).
Proof. reflexivity. Qed.

Lemma call_opener_aes st :
  call_opener AESZipFile ["file"; "mode"; "compression"; "encryption"] st = (Ok tt, st).
Proof. reflexivity. Qed.

(** C2: with an export password and without pyzipper, an export to ZIP
    logs the warning and then raises [TypeError] from the constructor
    of the standard opener; no archive is written. *)
Theorem export_zip_without_pyzipper
  (output_path : string) (compression_format : option string) (st : state) :
  truthy (_password_for_export (self st)) = true ->
  (if truthy compression_format then default "" compression_format
   else _get_format output_path) = "zip" ->
  exists st',
    export false py7zr lib output_path compression_format st
    = (Raise (Exn TypeError
         "ZipFile.__init__() got an unexpected keyword argument 'encryption'"), st')
    /\ files (env st') = files (env st)
    /\ self st' = self st
    /\ logged (env st')
       = logged (env st)
         ++ [("INFO", "Exporting content to '" +:+ output_path +:+ "' (format: zip)");
             ("WARN", "pyzipper not installed. Creating normal zip.")].
Proof.
  intros Hpw Hfmt. unfold export. rewrite Hfmt. cbv zeta.
  unfold export_dispatch, _export_zip_with_progress, bind, logger_log, get_self, get_fs.
  simpl. rewrite Hpw. simpl. eexists. split; [reflexivity|]. simpl.
  repeat split. by rewrite <- app_assoc.
Qed.

End ZipExport.

Lemma export_zip_without_pyzipper_witness :
  exists st',
    export false false Reference.lib "/home/u/out.zip" None
      (State (Session ["tmp"; "t1"] (Some "x") None false) Sample.w0)
    = (Raise (Exn TypeError
         "ZipFile.__init__() got an unexpected keyword argument 'encryption'"), st')
    /\ files (env st') !! ["home"; "u"; "out.zip"] = None.
Proof.
  destruct (export_zip_without_pyzipper false Reference.lib "/home/u/out.zip" None
              (State (Session ["tmp"; "t1"] (Some "x") None false) Sample.w0)
              eq_refl eq_refl) as (st' & Hrun & Hfs & _).
  exists st'. split; [exact Hrun|]. rewrite Hfs. reflexivity.
Defined.

(** ** Adding a single file *)

Section AddFile.

(** C7: [add("/home/u/notes.txt", "docs/renamed.txt")] and the same with
    a destination whose parent does not exist yet.  The destination is
    not a directory and does not end with a separator; the parent
    directory is there afterwards, but the file arrives under its own
    name [notes.txt], and nothing is placed at the destination path. *)
Theorem add_file_keeps_source_name :
  let td := ["tmp"; "t1"] in
  let st1 := (add "/home/u/notes.txt" "docs/renamed.txt" Sample.st0) in
  let st2 := (add "/home/u/notes.txt" "new/sub/renamed.txt" Sample.st0) in
  _resolve_path td "docs/renamed.txt" = Ok (PurePath.mk true (td ++ ["docs"; "renamed.txt"]))
  /\ Fs.is_dir (files (env Sample.st0)) (td ++ ["docs"; "renamed.txt"]) = false
  /\ Str.endswith "docs/renamed.txt" "/" = false
  /\ st1.1 = Ok tt
  /\ files (env st1.2) !! (td ++ ["docs"; "notes.txt"]) = Some (File Sample.notes)
  /\ files (env st1.2) !! (td ++ ["docs"; "renamed.txt"]) = None
  /\ st2.1 = Ok tt
  /\ files (env st2.2) !! (td ++ ["new"; "sub"]) = Some Dir
  /\ files (env st2.2) !! (td ++ ["new"; "sub"; "notes.txt"]) = Some (File Sample.notes)
  /\ files (env st2.2) !! (td ++ ["new"; "sub"; "renamed.txt"]) = None.
Proof. repeat split; vm_compute; reflexivity. Qed.

End AddFile.

(** ** The file system *)

Section FileSystem.

Implicit Types (fs : fsmap) (p q td : list string).

Lemma strip_prefix_app p q : PurePath.strip_prefix p (p ++ q) = Some q.
Proof. induction p as [|a p IH]; simpl; [done|]. by rewrite String.eqb_refl. Qed.

Lemma strip_prefix_Some p x q : PurePath.strip_prefix p x = Some q -> x = p ++ q.
Proof.
  revert x. induction p as [|a p IH]; intros x; simpl; [congruence|].
  destruct x as [|b x]; [done|].
  destruct (String.eqb a b) eqn:E; [|done].
  apply String.eqb_eq in E as ->. intros H. by rewrite (IH _ H).
Qed.

Lemma below_spec p x : Fs.below p x = true <-> exists n q, x = p ++ n :: q.
Proof.
  unfold Fs.below. split.
  - destruct (PurePath.strip_prefix p x) as [[|n q]|] eqn:E; try done.
    intros _. exists n, q. by apply strip_prefix_Some.
  - intros (n & q & ->). by rewrite strip_prefix_app.
Qed.

Lemma below_app p n q : Fs.below p (p ++ n :: q) = true.
Proof. apply below_spec. eauto. Qed.

Lemma below_irrefl p : Fs.below p p = false.
Proof.
  destruct (Fs.below p p) eqn:E; [|done].
  apply below_spec in E as (n & q & E).
  apply (f_equal length) in E. rewrite length_app in E. simpl in E. lia.
Qed.

Lemma below_trans p q x : Fs.below p q = true -> Fs.below q x = true -> Fs.below p x = true.
Proof.
  rewrite !below_spec. intros (n & r & ->) (m & r' & ->).
  exists n, (r ++ m :: r'). by rewrite <- !app_assoc.
Qed.

Lemma is_dir_lookup fs p : p <> [] -> Fs.is_dir fs p = true <-> fs !! p = Some Dir.
Proof.
  intros Hp. unfold Fs.is_dir. destruct p; [done|].
  destruct (fs !! _) as [[|d]|]; split; congruence.
Qed.

Lemma closed_lookup fs p x :
  closed fs -> fs !! p = Some x -> p <> [] /\ Fs.is_dir fs (removelast p) = true.
Proof. intros Hc Hp. exact (Hc p x Hp). Qed.

(** In a closed file system every proper ancestor of a stored node is
    a directory. *)
Lemma closed_ancestor fs p q :
  closed fs -> is_Some (fs !! (p ++ q)) -> q <> [] -> Fs.is_dir fs p = true.
Proof.
  intros Hc. induction q as [|n q IH] using rev_ind; [done|].
  intros [x Hx] _. destruct (closed_lookup _ _ _ Hc Hx) as [_ Hd].
  rewrite app_assoc, removelast_last in Hd.
  destruct q as [|m q]; [by rewrite app_nil_r in Hd|].
  apply IH; [|done]. apply is_dir_lookup in Hd.
  - rewrite Hd. by eexists.
  - clear. by destruct p.
Qed.

Lemma closed_no_root fs : closed fs -> fs !! [] = None.
Proof.
  intros Hc. destruct (fs !! []) as [x|] eqn:E; [|done].
  by destruct (closed_lookup _ _ _ Hc E).
Qed.

(** Nothing lies below a regular file. *)
Lemma closed_file_leaf fs p d x :
  closed fs -> fs !! p = Some (File d) -> Fs.below p x = true -> fs !! x = None.
Proof.
  intros Hc Hp Hx. apply below_spec in Hx as (n & q & ->).
  destruct (fs !! (p ++ n :: q)) as [y|] eqn:E; [|done].
  assert (Hd : Fs.is_dir fs p = true).
  { apply (closed_ancestor fs p (n :: q)); [done|rewrite E; by eexists|done]. }
  destruct p as [|a p]; [by rewrite (closed_no_root _ Hc) in Hp|].
  unfold Fs.is_dir in Hd. by rewrite Hp in Hd.
Qed.

Lemma remove_tree_lookup fs c p :
  Fs.remove_tree fs c !! p
  = if bool_decide (p = c) || Fs.below c p then None else fs !! p.
Proof.
  unfold Fs.remove_tree. rewrite map_lookup_filter.
  destruct (fs !! p) as [x|] eqn:E; simpl; [|by destruct (_ || _)].
  case_guard as Hg; simpl in Hg.
  - destruct Hg as [Hne Hb]. rewrite Hb, orb_false_r.
    by rewrite bool_decide_eq_false_2.
  - destruct (bool_decide_reflect (p = c)); simpl; [done|].
    destruct (Fs.below c p); [done|]. by destruct Hg.
Qed.

Lemma listdir_spec fs p n : n ∈ Fs.listdir fs p <-> is_Some (fs !! (p ++ [n])).
Proof.
  unfold Fs.listdir. rewrite list_elem_of_omap. split.
  - intros ([k x] & Hin & Hk). simpl in Hk.
    apply elem_of_map_to_list in Hin.
    destruct (PurePath.strip_prefix p k) as [[|m [|? ?]]|] eqn:E; try done.
    injection Hk as ->. apply strip_prefix_Some in E as ->. by rewrite Hin.
  - intros [x Hx]. exists (p ++ [n], x). split; [by apply elem_of_map_to_list|].
    simpl. by rewrite strip_prefix_app.
Qed.

Lemma descendants_spec fs p q x :
  (q, x) ∈ Fs.descendants fs p <-> q <> [] /\ fs !! (p ++ q) = Some x.
Proof.
  unfold Fs.descendants. rewrite list_elem_of_omap. split.
  - intros ([k y] & Hin & Hk). simpl in Hk.
    apply elem_of_map_to_list in Hin.
    destruct (PurePath.strip_prefix p k) as [[|m r]|] eqn:E; try done.
    injection Hk as <- <-. apply strip_prefix_Some in E as ->. done.
  - intros [Hq Hx]. exists (p ++ q, x). split; [by apply elem_of_map_to_list|].
    simpl. rewrite strip_prefix_app. by destruct q.
Qed.

Lemma walk_files_spec fs p q :
  q ∈ Fs.walk_files fs p <-> q <> [] /\ exists d, fs !! (p ++ q) = Some (File d).
Proof.
  unfold Fs.walk_files. rewrite list_elem_of_omap. split.
  - intros ([k [|d]] & Hin & Hk); simpl in Hk; [done|]. injection Hk as ->.
    apply descendants_spec in Hin as [Hq Hx]. eauto.
  - intros (Hq & d & Hx). exists (q, File d). split; [by apply descendants_spec|done].
Qed.

End FileSystem.

(** ** Wiping the staging area *)

Section Wipe.

Implicit Types (fs : fsmap) (p q td : list string).

Lemma is_dir_item fs td n :
  Fs.is_dir fs (td ++ [n])
  = match fs !! (td ++ [n]) with Some Dir => true | _ => false end.
Proof. unfold Fs.is_dir. by destruct td. Qed.

Lemma same_length_not_below td n m : Fs.below (td ++ [m]) (td ++ [n]) = false.
Proof.
  destruct (Fs.below _ _) eqn:E; [|done].
  apply below_spec in E as (k & r & E).
  apply (f_equal length) in E. rewrite !length_app in E. simpl in E. lia.
Qed.

Lemma wiped_by_item fs td m n :
  wiped_by fs td m (td ++ [n]) = true -> m = n.
Proof.
  unfold wiped_by. rewrite same_length_not_below, andb_false_r, orb_false_r.
  intros H. apply bool_decide_eq_true in H. by simplify_list_eq.
Qed.

(** The loop of [decrypt] over a list of items, path by path. *)
Lemma wipe_items_lookup td fs l :
  forall p, foldl (wipe_item td) fs l !! p
            = if existsb (fun n => wiped_by fs td n p) l then None else fs !! p.
Proof.
  induction l as [|n l IH] using rev_ind; [done|]. intros p.
  rewrite foldl_app, existsb_app. simpl. rewrite orb_false_r.
  set (fs' := foldl (wipe_item td) fs l) in *.
  unfold wipe_item, Fs.is_file. rewrite is_dir_item, (IH (td ++ [n])).
  destruct (existsb (fun m => wiped_by fs td m (td ++ [n])) l) eqn:G.
  - rewrite IH.
    destruct (existsb (fun m => wiped_by fs td m p) l) eqn:Gp; simpl; [done|].
    apply existsb_exists in G as (m & Hm & Hw). apply wiped_by_item in Hw as ->.
    destruct (wiped_by fs td n p) eqn:Hn; [|done].
    assert (existsb (fun n0 => wiped_by fs td n0 p) l = true); [|congruence].
    apply existsb_exists. eauto.
  - unfold wiped_by at 2. rewrite is_dir_item.
    destruct (fs !! (td ++ [n])) as [[|d]|] eqn:E.
    + rewrite remove_tree_lookup, IH. simpl.
      by destruct (existsb (fun m => wiped_by fs td m p) l),
           (bool_decide (p = td ++ [n])), (Fs.below (td ++ [n]) p).
    + rewrite lookup_delete, IH. simpl. rewrite orb_false_r.
      destruct (bool_decide_reflect (p = td ++ [n])) as [->|Hne].
      * rewrite decide_True by done. by rewrite orb_true_r.
      * rewrite decide_False by done. by rewrite orb_false_r.
    + rewrite IH. simpl. rewrite orb_false_r.
      destruct (bool_decide_reflect (p = td ++ [n])) as [->|Hne].
      * rewrite orb_true_r, E.
        by destruct (existsb (fun m => wiped_by fs td m (td ++ [n])) l).
      * by rewrite orb_false_r.
Qed.

(** In a closed file system the loop removes everything below the
    temporary directory and nothing else. *)
Lemma wipe_lookup td fs p :
  closed fs -> wipe td fs !! p = if Fs.below td p then None else fs !! p.
Proof.
  intros Hc. unfold wipe. rewrite wipe_items_lookup.
  destruct (fs !! p) as [x|] eqn:E; [|by destruct (existsb _ _), (Fs.below _ _)].
  destruct (existsb _ _) eqn:G, (Fs.below td p) eqn:B; try done.
  - apply existsb_exists in G as (n & _ & Hw). unfold wiped_by in Hw.
    apply orb_true_iff in Hw as [Hw|Hw].
    + apply bool_decide_eq_true in Hw as ->. by rewrite below_app in B.
    + apply andb_true_iff in Hw as [_ Hw].
      by rewrite (below_trans td (td ++ [n]) p (below_app _ _ _) Hw) in B.
  - apply below_spec in B as (n & q & ->).
    assert (Hn : is_Some (fs !! (td ++ [n]))).
    { destruct q as [|m q]; [by rewrite E|].
      assert (Hd : Fs.is_dir fs (td ++ [n]) = true).
      { apply (closed_ancestor fs (td ++ [n]) (m :: q)); [done| |done].
        rewrite <- app_assoc. simpl. by rewrite E. }
      rewrite is_dir_item in Hd. destruct (fs !! (td ++ [n])) as [[|?]|]; by eauto. }
    assert (existsb (fun k => wiped_by fs td k (td ++ n :: q)) (Fs.listdir fs td) = true);
      [|congruence].
    apply existsb_exists. exists n. split; [by apply list_elem_of_In, listdir_spec|].
    unfold wiped_by. destruct q as [|m q]; [by rewrite bool_decide_eq_true_2|].
    apply orb_true_iff. right. apply andb_true_iff. split.
    + apply (closed_ancestor fs (td ++ [n]) (m :: q)); [done| |done].
      rewrite <- app_assoc. simpl. by rewrite E.
    + apply below_spec. exists m, q. by rewrite <- app_assoc.
Qed.

End Wipe.

(** ** Frame properties of the monad *)

Section Frames.

Context {X : Type} (f : state -> X).

Lemma keeps_ret {A} (a : A) : keeps f (ret a).
Proof. done. Qed.

Lemma keeps_raise {A} e : keeps f (@raise A e).
Proof. done. Qed.

Lemma keeps_lift {A} (r : result A) : keeps f (lift r).
Proof. done. Qed.

Lemma keeps_bind {A B} (m : M A) (k : A -> M B) :
  keeps f m -> (forall a, keeps f (k a)) -> keeps f (bind m k).
Proof.
  intros Hm Hk st. unfold bind. specialize (Hm st).
  destruct (m st) as [[a|e] st1]; simpl in *; [|done].
  by rewrite Hk.
Qed.

Lemma keeps_try_except {A} (m : M A) h :
  keeps f m -> (forall e, keeps f (h e)) -> keeps f (try_except m h).
Proof.
  intros Hm Hh st. unfold try_except. specialize (Hm st).
  destruct (m st) as [[a|e] st1]; simpl in *; [done|].
  by rewrite Hh.
Qed.

Lemma keeps_try_except_RuntimeError {A} (m : M A) h :
  keeps f m -> (forall e, keeps f (h e)) -> keeps f (try_except_RuntimeError m h).
Proof.
  intros Hm Hh st. unfold try_except_RuntimeError. specialize (Hm st).
  destruct (m st) as [[a|e] st1]; simpl in *; [done|].
  destruct (isinstance_RuntimeError e); [|done]. by rewrite Hh.
Qed.

Lemma keeps_get_self : keeps f get_self.
Proof. done. Qed.

Lemma keeps_get_fs : keeps f get_fs.
Proof. done. Qed.

Lemma keeps_get_cwd : keeps f get_cwd.
Proof. done. Qed.

Lemma keeps_if {A} (b : bool) (m1 m2 : M A) :
  keeps f m1 -> keeps f m2 -> keeps f (if b then m1 else m2).
Proof. by destruct b. Qed.

End Frames.

(** What the primitives change: [put_fs] and [logger_log] touch the
    world only, the setters one attribute each. *)
Section Primitives.

Context {X : Type} (g : session -> X).

Lemma keeps_put_fs fs : keeps (fun st => g (self st)) (put_fs fs).
Proof. done. Qed.

Lemma keeps_logger_log msg lvl : keeps (fun st => g (self st)) (logger_log msg lvl).
Proof. done. Qed.

Lemma keeps_fs_step step : keeps (fun st => g (self st)) (fs_step step).
Proof.
  unfold fs_step. apply keeps_bind; [apply keeps_get_fs|]. intros fs.
  apply keeps_bind; [apply keeps_lift|]. intros fs'. apply keeps_put_fs.
Qed.

Lemma keeps_os_path s : keeps (fun st => g (self st)) (os_path s).
Proof. unfold os_path. apply keeps_bind; [apply keeps_get_cwd|]. intros. apply keeps_ret. Qed.

End Primitives.

Create HintDb frame discriminated.

#[local] Hint Resolve keeps_ret keeps_raise keeps_lift keeps_get_self keeps_get_fs
  keeps_get_cwd : frame.
#[local] Hint Resolve keeps_bind keeps_try_except keeps_try_except_RuntimeError
  keeps_if | 5 : frame.

Lemma keeps_path_set_flag b : keeps the_path (set_is_encrypted_import b).
Proof. done. Qed.

Lemma keeps_temp_dir_set_flag b : keeps the_temp_dir (set_is_encrypted_import b).
Proof. done. Qed.

Lemma keeps_temp_dir_set_path v : keeps the_temp_dir (set_imported_archive_path v).
Proof. done. Qed.

Lemma keeps_flag_set_path v : keeps the_flag (set_imported_archive_path v).
Proof. done. Qed.

Lemma keeps_password_set_flag b : keeps the_password (set_is_encrypted_import b).
Proof. done. Qed.

Lemma keeps_password_set_path v : keeps the_password (set_imported_archive_path v).
Proof. done. Qed.

#[local] Hint Resolve keeps_path_set_flag keeps_temp_dir_set_flag keeps_temp_dir_set_path
  keeps_flag_set_path keeps_password_set_flag keeps_password_set_path : frame.
#[local] Hint Extern 1 (keeps _ (put_fs _)) => apply (keeps_put_fs _) : frame.
#[local] Hint Extern 1 (keeps _ (logger_log _ _)) => apply (keeps_logger_log _) : frame.
#[local] Hint Extern 1 (keeps _ (fs_step _)) => apply (keeps_fs_step _) : frame.
#[local] Hint Extern 1 (keeps _ (os_path _)) => apply (keeps_os_path _) : frame.

(** Destructuring matches and conditionals met while framing. *)
Ltac frame :=
  repeat first
    [ progress (intros)
    | apply keeps_bind
    | apply keeps_try_except
    | apply keeps_try_except_RuntimeError
    | match goal with
      | |- keeps _ (if ?b then _ else _) => destruct b
      | |- keeps _ (match ?x with _ => _ end) => destruct x
      end
    | solve [auto with frame] ].

(** ** Import *)

Section ImportFacts.

Variables (PYZIPPER_AVAILABLE py7zr rarfile : bool) (lib : codecs).

Local Abbreviation run_import := (import_archive PYZIPPER_AVAILABLE py7zr rarfile lib).

Lemma extract_one_keeps {X} (g : session -> X) m :
  keeps (fun st => g (self st)) (extract_one m).
Proof. unfold extract_one. frame. Qed.

Lemma extract_members_keeps {X} (g : session -> X) ms err :
  keeps (fun st => g (self st)) (extract_members ms err).
Proof.
  induction ms as [|m ms IH]; simpl.
  - destruct err; auto with frame.
  - apply keeps_bind; [apply extract_one_keeps|done].
Qed.

Lemma run_outcome_keeps {X} (g : session -> X) o :
  keeps (fun st => g (self st)) (run_outcome o).
Proof. destruct o; simpl; [apply keeps_raise|apply extract_members_keeps]. Qed.

Lemma open_archive_keeps {X} (g : session -> X) ap :
  keeps (fun st => g (self st)) (open_archive ap).
Proof. unfold open_archive. frame. Qed.

Lemma zip_handler_keeps {X} (g : session -> X) pw e :
  (forall s b, g (Session (temp_dir s) (_password_for_export s)
                          (_imported_archive_path s) b) = g s) ->
  keeps (fun st => g (self st)) (zip_handler pw e).
Proof.
  intros Hg. unfold zip_handler.
  assert (Hset : forall b, keeps (fun st => g (self st)) (set_is_encrypted_import b)).
  { intros b st. simpl. apply Hg. }
  frame.
Qed.

Lemma zip_extract_members_keeps {X} (g : session -> X) pw ms err :
  (forall s b, g (Session (temp_dir s) (_password_for_export s)
                          (_imported_archive_path s) b) = g s) ->
  keeps (fun st => g (self st)) (zip_extract_members pw ms err).
Proof.
  intros Hg. induction ms as [|m ms IH]; simpl.
  - destruct err; [|apply keeps_ret].
    apply keeps_try_except_RuntimeError; [apply keeps_raise|].
    intros e'. by apply zip_handler_keeps.
  - apply keeps_bind; [|done].
    apply keeps_try_except_RuntimeError; [apply extract_one_keeps|].
    intros e'. by apply zip_handler_keeps.
Qed.

Lemma import_zip_keeps {X} (g : session -> X) ap pw :
  (forall s b, g (Session (temp_dir s) (_password_for_export s)
                          (_imported_archive_path s) b) = g s) ->
  keeps (fun st => g (self st))
        (_import_zip_with_progress PYZIPPER_AVAILABLE lib ap pw).
Proof.
  intros Hg. unfold _import_zip_with_progress.
  pose proof (fun ms err => zip_extract_members_keeps g pw ms err Hg).
  frame.
Qed.

Local Abbreviation run_decode := (import_decode PYZIPPER_AVAILABLE py7zr rarfile lib).

(** The decoding step of [import_archive] and its handler change no
    attribute of the session but the flag. *)
Lemma import_attempt_keeps {X} (g : session -> X) ap pw fmt :
  (forall s b, g (Session (temp_dir s) (_password_for_export s)
                          (_imported_archive_path s) b) = g s) ->
  keeps (fun st => g (self st)) (try_except (run_decode ap pw fmt) import_handler).
Proof.
  intros Hg.
  assert (Hset : forall b, keeps (fun st => g (self st)) (set_is_encrypted_import b)).
  { intros b st. simpl. apply Hg. }
  pose proof (import_zip_keeps g ap pw Hg).
  pose proof (fun ms err => zip_extract_members_keeps g pw ms err Hg).
  pose proof (open_archive_keeps g ap).
  pose proof (run_outcome_keeps g).
  unfold import_decode, import_handler, _import_tar_with_progress. frame.
Qed.

(** [import_archive] on a missing archive, and on one that is there. *)
Lemma import_archive_missing ap pw st :
  Fs.exists_ (files (env st)) (canon (cwd (env st)) (PurePath.of_string ap)) = false ->
  run_import ap pw st
  = (Raise (Exn FileNotFoundError ("Archive not found: " +:+ ap)), st).
Proof.
  intros Hex. unfold import_archive, bind, os_path, get_cwd, get_fs, ret.
  simpl. by rewrite Hex.
Qed.

Lemma import_archive_found ap pw st :
  Fs.exists_ (files (env st)) (canon (cwd (env st)) (PurePath.of_string ap)) = true ->
  run_import ap pw st
  = try_except (run_decode ap pw (_get_format ap)) import_handler (recorded ap st).
Proof.
  intros Hex. unfold import_archive, bind, os_path, get_cwd, get_fs, ret.
  simpl. by rewrite Hex.
Qed.

Lemma flags_runtime_keeps {A} (m : M A) : keeps the_flag m -> flags_runtime m.
Proof. intros H st. left. apply H. Qed.

Lemma flags_runtime_bind {A B} (m : M A) (k : A -> M B) :
  flags_runtime m -> (forall a, flags_runtime (k a)) -> flags_runtime (bind m k).
Proof.
  intros Hm Hk st. unfold bind. specialize (Hm st).
  destruct (m st) as [[a|e] st1]; simpl in *.
  - destruct Hm as [Hm|(_ & e & He & _)]; [|done].
    rewrite <- Hm. apply Hk.
  - destruct Hm as [Hm|(Hm & e' & [= <-] & Hrt)]; [by left|].
    right. split; [done|]. by exists e.
Qed.

(** The handler of the ZIP loop runs on [RuntimeError] only, may set
    the flag, and raises the exception again. *)
Lemma zip_handler_flags pw (m : M unit) :
  keeps the_flag m ->
  flags_runtime (try_except_RuntimeError m (zip_handler pw)).
Proof.
  intros Hm st. unfold try_except_RuntimeError. specialize (Hm st).
  destruct (m st) as [[a|e] st1]; simpl in *; [by left|].
  destruct (isinstance_RuntimeError e) eqn:He; simpl; [|by left].
  unfold zip_handler, bind, the_flag in *.
  destruct (Str.contains _ _); simpl; [|by left].
  destruct (negb (truthy pw)); simpl; [|by left].
  right. split; [done|]. by exists e.
Qed.

Lemma zip_extract_members_flags pw ms err :
  flags_runtime (zip_extract_members pw ms err).
Proof.
  induction ms as [|m ms IH]; simpl.
  - destruct err; [|by apply flags_runtime_keeps].
    by apply zip_handler_flags.
  - apply flags_runtime_bind; [|done].
    apply zip_handler_flags, (extract_one_keeps (fun s => _is_encrypted_import s)).
Qed.

Lemma import_zip_flags ap pw :
  flags_runtime (_import_zip_with_progress PYZIPPER_AVAILABLE lib ap pw).
Proof.
  unfold _import_zip_with_progress.
  apply flags_runtime_bind; [apply flags_runtime_keeps; frame|]. intros p.
  apply flags_runtime_bind; [apply flags_runtime_keeps; frame|]. intros fs.
  apply flags_runtime_bind; [apply flags_runtime_keeps; frame|]. intros d.
  destruct (read_zip _ _ _ _); [apply flags_runtime_keeps; frame|].
  apply zip_extract_members_flags.
Qed.

Lemma import_decode_flags ap pw fmt : flags_runtime (run_decode ap pw fmt).
Proof.
  pose proof (open_archive_keeps (fun s => _is_encrypted_import s) ap).
  pose proof (run_outcome_keeps (fun s => _is_encrypted_import s)).
  unfold import_decode.
  apply flags_runtime_bind; [|intros; apply flags_runtime_keeps; frame].
  destruct (String.eqb fmt "zip"); [apply import_zip_flags|].
  apply flags_runtime_keeps. unfold _import_tar_with_progress. frame.
Qed.

(** The handler raises the exception again, and sets the flag when it
    takes the exception for an encryption failure. *)
Lemma import_handler_spec e st :
  (import_handler e st).1 = Raise e
  /\ the_flag (import_handler e st).2 = the_flag st || likely_encryption e.
Proof.
  unfold import_handler, bind, the_flag.
  destruct (likely_encryption e); simpl; [by rewrite orb_true_r|by rewrite orb_false_r].
Qed.

(** The flag after the decoding and its handler: what it was, or set
    when the attempt raised an exception that the handler takes for an
    encryption failure. *)
Lemma import_attempt_flag ap pw fmt st :
  let r := try_except (run_decode ap pw fmt) import_handler st in
  the_flag r.2
  = the_flag st || match r.1 with
                   | Raise e => likely_encryption e
                   | Ok _ => false
                   end.
Proof.
  cbv zeta. unfold try_except.
  pose proof (import_decode_flags ap pw fmt st) as Hf.
  destruct (run_decode ap pw fmt st) as [[a|e] st1]; simpl in *.
  - destruct Hf as [Hf|(_ & e & He & _)]; [|done]. by rewrite Hf, orb_false_r.
  - destruct (import_handler_spec e st1) as [-> ->].
    destruct Hf as [->|(-> & e' & [= <-] & Hrt)]; [done|].
    unfold likely_encryption. by rewrite Hrt, !orb_true_r.
Qed.

(** C9: once the archive is found to exist, its path is recorded
    before any decoding, and it is still the recorded path when
    [import_archive] returns, whether it succeeded or raised. *)
Theorem import_records_path (archive_path : string) (password : option string)
  (st : state) :
  Fs.exists_ (files (env st)) (canon (cwd (env st)) (PurePath.of_string archive_path))
    = true ->
  _imported_archive_path (self (run_import archive_path password st).2)
    = Some archive_path.
Proof.
  intros Hex. rewrite (import_archive_found _ _ _ Hex).
  apply (import_attempt_keeps (fun s => _imported_archive_path s)
           archive_path password (_get_format archive_path) (fun _ _ => eq_refl)
           (recorded archive_path st)).
Qed.

(** C5, amended: a failed attempt on a missing archive leaves the
    session as it is; any other failed attempt leaves the flag set
    exactly when it was set before or the handler takes the exception
    for an encryption failure (its message holds "password" or
    "encrypted", or it is a [RuntimeError]).  On a session whose flag
    is unset, the flag after such a failure is set if and only if the
    error is classified so. *)
Theorem import_failure_flag (archive_path : string) (password : option string)
  (st st' : state) (e : exn) :
  run_import archive_path password st = (Raise e, st') ->
  let found := Fs.exists_ (files (env st))
                 (canon (cwd (env st)) (PurePath.of_string archive_path)) in
  (found = false -> st' = st)
  /\ (found = true ->
      _is_encrypted_import (self st')
      = _is_encrypted_import (self st) || likely_encryption e)
  /\ (found = true -> _is_encrypted_import (self st) = false ->
      (_is_encrypted_import (self st') = true <-> likely_encryption e = true)).
Proof.
  intros Hrun found. subst found.
  assert (Hflag : Fs.exists_ (files (env st))
                    (canon (cwd (env st)) (PurePath.of_string archive_path)) = true ->
                  the_flag st' = the_flag st || likely_encryption e).
  { intros Hex. rewrite (import_archive_found _ _ _ Hex) in Hrun.
    pose proof (import_attempt_flag archive_path password
                  (_get_format archive_path) (recorded archive_path st)) as Hf.
    cbv zeta in Hf. by rewrite Hrun in Hf. }
  split; [|split].
  - intros Hex. rewrite (import_archive_missing _ _ _ Hex) in Hrun. congruence.
  - exact Hflag.
  - intros Hex Hunset. fold (the_flag st'). rewrite (Hflag Hex).
    unfold the_flag. by rewrite Hunset.
Qed.

End ImportFacts.

Lemma import_records_path_witness :
  _imported_archive_path
    (self (import_archive true false false Reference.lib "secret.zip" None Sample.st0).2)
  = Some "secret.zip"
  /\ is_ok (import_archive true false false Reference.lib "secret.zip" None Sample.st0).1
     = false.
Proof.
  split; [|reflexivity].
  apply (import_records_path true false false Reference.lib "secret.zip" None Sample.st0).
  reflexivity.
Defined.

(** C5, the claim as stated fails: a session whose flag was set by a
    failed import of [secret.zip] then fails to import [notes.txt] with
    an error that is not classified as an encryption failure, and the
    flag is still set. *)
Lemma import_failure_flag_stays_set :
  let st1 := (import_archive true false false Reference.lib "secret.zip" None
                Sample.st0).2 in
  let r := import_archive true false false Reference.lib "notes.txt" None st1 in
  r.1 = Raise (Exn ValueError "Unsupported import format: txt")
  /\ likely_encryption (Exn ValueError "Unsupported import format: txt") = false
  /\ _is_encrypted_import (self r.2) = true.
Proof. repeat split; vm_compute; reflexivity. Qed.

Lemma import_failure_flag_witness :
  likely_encryption
    (Exn RuntimeError "File is encrypted, password required for extraction") = true
  /\ _is_encrypted_import
       (self (import_archive true false false Reference.lib "secret.zip" None
                Sample.st0).2) = true.
Proof.
  split; [reflexivity|].
  destruct (import_failure_flag true false false Reference.lib "secret.zip" None
              Sample.st0
              (import_archive true false false Reference.lib "secret.zip" None
                 Sample.st0).2
              (Exn RuntimeError "File is encrypted, password required for extraction")
              ltac:(vm_compute; reflexivity)) as (_ & _ & Hiff).
  apply Hiff; vm_compute; reflexivity.
Defined.

(** ** Retrying an import with a password *)

Section Decrypt.

Variables (PYZIPPER_AVAILABLE py7zr rarfile : bool) (lib : codecs).

Local Abbreviation run_import := (import_archive PYZIPPER_AVAILABLE py7zr rarfile lib).
Local Abbreviation run_decrypt := (decrypt PYZIPPER_AVAILABLE py7zr rarfile lib).

(** The guard of [decrypt]. *)
Lemma decrypt_guard password st :
  truthy password = true ->
  truthy (_imported_archive_path (self st)) = false
  \/ _is_encrypted_import (self st) = false ->
  run_decrypt password st
  = (Raise (Exn RuntimeError
      "Decrypt with password can only be used after a failed import of an encrypted archive."),
     st).
Proof.
  intros Hpw Hguard. unfold decrypt. rewrite Hpw.
  unfold bind, get_self. simpl.
  destruct Hguard as [-> | ->]; [done|]. by rewrite orb_true_r.
Qed.

Lemma is_dir_exists fs p : Fs.is_dir fs p = true -> Fs.exists_ fs p = true.
Proof.
  destruct p as [|a p]; [done|]. simpl.
  destruct (fs !! (a :: p)) as [[|d]|] eqn:E; try done.
Qed.

(** Past the guard, with the staging directory in place, [decrypt] is
    the import on the wiped state, followed by the clearing of the
    flag when the import returns. *)
Lemma decrypt_run password st :
  truthy password = true ->
  truthy (_imported_archive_path (self st)) = true ->
  _is_encrypted_import (self st) = true ->
  Fs.is_dir (files (env st)) (temp_dir (self st)) = true ->
  run_decrypt password st
  = bind (run_import (default "" (_imported_archive_path (self st))) password)
         (fun _ => set_is_encrypted_import false) (wiped_state st).
Proof.
  intros Hpw Hpath Hflag Hdir. unfold decrypt. rewrite Hpw.
  unfold bind at 1, get_self. simpl. rewrite Hpath, Hflag. simpl.
  unfold bind at 1, logger_log. unfold bind at 1, os_listdir.
  unfold bind at 1, get_fs. simpl.
  rewrite (is_dir_exists _ _ Hdir), Hdir. simpl.
  unfold bind at 1, get_fs. simpl. unfold bind at 1, put_fs. reflexivity.
Qed.

(** Past the guard, without the staging directory, [decrypt] announces
    the retry and raises the error of [os.listdir]: no import is
    attempted. *)
Lemma decrypt_stops password st :
  truthy password = true ->
  truthy (_imported_archive_path (self st)) = true ->
  _is_encrypted_import (self st) = true ->
  Fs.exists_ (files (env st)) (temp_dir (self st)) = false ->
  run_decrypt password st
  = (Raise (Fs.os_error FileNotFoundError "[Errno 2] No such file or directory"
              (temp_dir (self st))),
     State (self st)
       (World (files (env st)) (cwd (env st))
          (logged (env st)
           ++ [("INFO", "Attempting to decrypt '"
                        +:+ default "" (_imported_archive_path (self st))
                        +:+ "' with the new password.")]))).
Proof.
  intros Hpw Hpath Hflag Hgone. unfold decrypt. rewrite Hpw.
  unfold bind at 1, get_self. simpl. rewrite Hpath, Hflag. simpl.
  unfold bind at 1, logger_log. unfold bind at 1, os_listdir.
  unfold bind at 1, get_fs. simpl. by rewrite Hgone.
Qed.

(** An import leaves a set flag set. *)
Lemma import_keeps_flag_set ap pw st :
  the_flag st = true -> the_flag (run_import ap pw st).2 = true.
Proof.
  intros Hf.
  destruct (Fs.exists_ (files (env st)) (canon (cwd (env st)) (PurePath.of_string ap)))
    eqn:Hex.
  - rewrite (import_archive_found _ _ _ _ _ _ _ Hex).
    pose proof (import_attempt_flag PYZIPPER_AVAILABLE py7zr rarfile lib ap pw
                  (_get_format ap) (recorded ap st)) as H.
    cbv zeta in H. rewrite H. unfold the_flag in *. simpl. by rewrite Hf.
  - by rewrite (import_archive_missing _ _ _ _ _ _ _ Hex).
Qed.

(** C4, amended: with a password, [decrypt] raises the [RuntimeError]
    of its guard, changing nothing, whenever the flag is unset or no
    archive path is recorded.  Otherwise, when the staging directory is
    in place, it wipes the staging area completely (and nothing
    outside it), imports the recorded archive again with the given
    password, returns what that import returns, and leaves the flag
    cleared if and only if the import succeeded; when the staging
    directory is gone, it raises the [FileNotFoundError] of
    [os.listdir] before any import, and the flag stays set. *)
Theorem decrypt_retries (password : option string) (st : state) :
  truthy password = true ->
  (truthy (_imported_archive_path (self st)) = false
   \/ _is_encrypted_import (self st) = false ->
   exists msg, run_decrypt password st = (Raise (Exn RuntimeError msg), st))
  /\ (forall archive_path,
      _imported_archive_path (self st) = Some archive_path ->
      archive_path <> "" ->
      _is_encrypted_import (self st) = true ->
      Fs.exists_ (files (env st)) (temp_dir (self st)) = false ->
      exists msg,
        (run_decrypt password st).1 = Raise (Exn FileNotFoundError msg)
        /\ self (run_decrypt password st).2 = self st
        /\ files (env (run_decrypt password st).2) = files (env st))
  /\ (forall archive_path,
      _imported_archive_path (self st) = Some archive_path ->
      archive_path <> "" ->
      _is_encrypted_import (self st) = true ->
      Fs.is_dir (files (env st)) (temp_dir (self st)) = true ->
      closed (files (env st)) ->
      let retry := run_import archive_path password (wiped_state st) in
      self (wiped_state st) = self st
      /\ (forall p, files (env (wiped_state st)) !! p
                    = if Fs.below (temp_dir (self st)) p then None
                      else files (env st) !! p)
      /\ (run_decrypt password st).1 = retry.1
      /\ files (env (run_decrypt password st).2) = files (env retry.2)
      /\ _imported_archive_path (self (run_decrypt password st).2)
         = _imported_archive_path (self retry.2)
      /\ (_is_encrypted_import (self (run_decrypt password st).2) = false
          <-> is_ok retry.1 = true)).
Proof.
  intros Hpw. split; [|split].
  - intros Hguard. eexists. by apply decrypt_guard.
  - intros ap Hpath Hne Hflag Hgone.
    assert (Htruthy : truthy (_imported_archive_path (self st)) = true).
    { rewrite Hpath. simpl. apply String.eqb_neq in Hne. by rewrite Hne. }
    rewrite (decrypt_stops _ _ Hpw Htruthy Hflag Hgone). by eexists.
  - intros ap Hpath Hne Hflag Hdir Hclosed retry.
    assert (Htruthy : truthy (_imported_archive_path (self st)) = true).
    { rewrite Hpath. simpl. apply String.eqb_neq in Hne. by rewrite Hne. }
    split; [done|]. split.
    { intros p. simpl. by apply wipe_lookup. }
    rewrite (decrypt_run _ _ Hpw Htruthy Hflag Hdir). rewrite Hpath. simpl.
    pose proof (import_keeps_flag_set ap password (wiped_state st) Hflag) as Hkeep.
    subst retry. unfold bind, the_flag in *.
    destruct (run_import ap password (wiped_state st)) as [[[]|e] st2]; simpl in *.
    + repeat split; done.
    + repeat split; try done. by rewrite Hkeep.
Qed.

End Decrypt.

Lemma closedb_closed fs : closedb fs = true -> closed fs.
Proof.
  unfold closedb, closed. rewrite forallb_forall. intros H.
  apply map_Forall_to_list, Forall_forall. intros [p x] Hin.
  apply list_elem_of_In, H in Hin. simpl in *.
  apply andb_true_iff in Hin as [Hne Hd]. split; [|done].
  apply negb_true_iff, bool_decide_eq_false in Hne. done.
Qed.


Lemma decrypt_retries_witness :
  let st1 := (import_archive true false false Reference.lib "secret.zip" None
                Sample.st0).2 in
  _is_encrypted_import (self st1) = true
  /\ (decrypt true false false Reference.lib (Some "pw") st1).1 = Ok tt
  /\ _is_encrypted_import (self (decrypt true false false Reference.lib (Some "pw") st1).2)
     = false.
Proof.
  cbv zeta. split; [vm_compute; reflexivity|].
  destruct (decrypt_retries true false false Reference.lib (Some "pw")
              (import_archive true false false Reference.lib "secret.zip" None
                 Sample.st0).2 eq_refl) as (_ & _ & Hretry).
  destruct (Hretry "secret.zip" ltac:(vm_compute; reflexivity) ltac:(discriminate)
              ltac:(vm_compute; reflexivity) ltac:(vm_compute; reflexivity)
              ltac:(apply closedb_closed; vm_compute; reflexivity))
    as (_ & _ & Hres & _ & _ & Hiff).
  split.
  - rewrite Hres. vm_compute. reflexivity.
  - apply Hiff. vm_compute. reflexivity.
Defined.

(** C4, the claim as stated fails: after a failed import of the
    encrypted [secret.zip], [remove(".")] deletes the staging
    directory; the flag is set and the path recorded, yet [decrypt]
    with the right password raises [FileNotFoundError] from
    [os.listdir], imports nothing and leaves the flag set. *)
Lemma decrypt_without_staging_directory :
  let st1 := (import_archive true false false Reference.lib "secret.zip" None
                Sample.st0).2 in
  let st2 := (remove "." st1).2 in
  let r := decrypt true false false Reference.lib (Some "pw") st2 in
  (remove "." st1).1 = Ok tt
  /\ _is_encrypted_import (self st2) = true
  /\ _imported_archive_path (self st2) = Some "secret.zip"
  /\ r.1 = Raise (Exn FileNotFoundError "[Errno 2] No such file or directory: '/tmp/t1'")
  /\ _is_encrypted_import (self r.2) = true
  /\ files (env r.2) !! ["tmp"; "t1"; "a.txt"] = None
  /\ files (env (decrypt true false false Reference.lib (Some "pw") st1).2)
       !! ["tmp"; "t1"; "a.txt"] = Some (File Sample.notes).
Proof. repeat split; vm_compute; reflexivity. Qed.

(** ** Listing *)

Section Listing.

Implicit Types (fs : fsmap) (p q td rel : list string).

Lemma relative_name_ok td rel q :
  relative_name td (PurePath.mk true (td ++ rel)) q
  = Ok (PurePath.to_string (PurePath.mk false (rel ++ q))).
Proof.
  unfold relative_name, PurePath.relative_to. simpl.
  by rewrite <- app_assoc, strip_prefix_app.
Qed.

Lemma relative_names_ok td rel qs :
  relative_names td (PurePath.mk true (td ++ rel)) qs
  = Ok (map (fun q => PurePath.to_string (PurePath.mk false (rel ++ q))) qs).
Proof.
  induction qs as [|q qs IH]; [done|].
  cbn [relative_names]. by rewrite relative_name_ok, IH.
Qed.




End Listing.


(** ** Export *)

Section ExportFacts.

Variables (PYZIPPER_AVAILABLE py7zr : bool) (lib : codecs).

Local Abbreviation run_export := (export PYZIPPER_AVAILABLE py7zr lib).
Local Abbreviation run_dispatch := (export_dispatch PYZIPPER_AVAILABLE py7zr lib).

Implicit Types (fs : fsmap) (p q td : list string).

Lemma write_file_ok fs p d fs' :
  Fs.write_file fs p d = Ok fs' ->
  fs' = <[p := File d]> fs /\ Fs.is_dir fs p = false
  /\ Fs.is_dir fs (removelast p) = true.
Proof.
  unfold Fs.write_file. destruct (Fs.is_dir fs p); [done|].
  destruct (Fs.is_dir fs (removelast p)); [by intros [= <-]|].
  by destruct (Fs.exists_ _ _).
Qed.

Lemma write_file_run fs p d :
  Fs.is_dir fs p = false -> Fs.is_dir fs (removelast p) = true ->
  Fs.write_file fs p d = Ok (<[p := File d]> fs).
Proof. intros H1 H2. unfold Fs.write_file. by rewrite H1, H2. Qed.

Lemma read_members_ok fs td fl ms :
  read_members fs td fl = Ok ms ->
  ms.*1 = fl
  /\ Forall (fun m => exists d, m.2 = Some d /\ fs !! (td ++ m.1) = Some (File d)) ms.
Proof.
  revert ms. induction fl as [|q fl IH]; intros ms; simpl.
  - intros [= <-]. by split.
  - unfold read_file. destruct (fs !! (td ++ q)) as [[|d]|] eqn:E; try done.
    + destruct (read_members fs td fl) as [ms'|]; [|done].
      intros [= <-]. destruct (IH ms' eq_refl) as [<- Hall].
      split; [done|]. constructor; [|done]. by exists d.
    + by destruct (td ++ q).
Qed.

Lemma read_members_run fs td fl :
  (forall q, q ∈ fl -> exists d, fs !! (td ++ q) = Some (File d)) ->
  exists ms, read_members fs td fl = Ok ms.
Proof.
  induction fl as [|q fl IH]; intros Hfl; simpl; [by eexists|].
  destruct (Hfl q) as [d Hd]; [by left|].
  unfold read_file. rewrite Hd.
  destruct IH as [ms ->]; [|by eexists].
  intros q' Hq'. apply Hfl. by right.
Qed.

(** With the archive not among the listed files, the members given to
    the library are the contents of these files. *)
Lemma gather_members_plain fs td out own fl done :
  (forall q, q ∈ fl -> td ++ q <> out) ->
  gather_members fs td out own fl done
  = match read_members fs td fl with
    | Ok ms => Ok (done ++ ms)
    | Raise e => Raise e
    end.
Proof.
  revert done. induction fl as [|q fl IH]; intros done Hfl; simpl.
  - by rewrite app_nil_r.
  - rewrite bool_decide_eq_false_2 by (apply Hfl; by left).
    destruct (read_file fs (td ++ q)) as [d|e]; [|done].
    rewrite IH by (intros q' Hq'; apply Hfl; by right).
    destruct (read_members fs td fl) as [ms|e]; [|done].
    by rewrite <- app_assoc.
Qed.

(** The regular files below [td] are not at a path that is not below [td]. *)
Lemma walk_files_not_at fs td out q :
  Fs.below td out = false -> q ∈ Fs.walk_files fs td -> td ++ q <> out.
Proof.
  intros Hout Hq <-. apply walk_files_spec in Hq as [Hq _].
  destruct q as [|n q]; [done|]. by rewrite below_app in Hout.
Qed.

(** A successful [write_archive] leaves the image of the members read
    at the output path, and changes nothing else. *)
Lemma write_archive_ok output image own fl st st' :
  (forall q, q ∈ fl -> temp_dir (self st) ++ q
                       <> canon (cwd (env st)) (PurePath.of_string output)) ->
  write_archive output image own fl st = (Ok tt, st') ->
  let out := canon (cwd (env st)) (PurePath.of_string output) in
  let fs1 := <[out := File (Bytes [])]> (files (env st)) in
  exists ms,
    read_members fs1 (temp_dir (self st)) fl = Ok ms
    /\ Fs.is_dir (files (env st)) out = false
    /\ Fs.is_dir (files (env st)) (removelast out) = true
    /\ st' = State (self st)
               (World (<[out := File (image ms)]> fs1) (cwd (env st)) (logged (env st))).
Proof.
  intros Hfl.
  cbv [write_archive bind os_path fs_step get_cwd get_fs get_self lift ret put_fs].
  simpl.
  destruct (Fs.write_file _ _ (Bytes [])) as [fs1|] eqn:E1; [|done].
  apply write_file_ok in E1 as (-> & Hd & Hp). simpl.
  rewrite (gather_members_plain _ _ _ _ _ _ Hfl).
  destruct (read_members _ _ _) as [ms|] eqn:E2; [|done]. simpl.
  destruct (Fs.write_file _ _ (image ms)) as [fs2|] eqn:E3; [|done].
  apply write_file_ok in E3 as (-> & _ & _).
  intros [= <-]. by exists ms.
Qed.

Lemma write_archive_run output image own fl st ms :
  let out := canon (cwd (env st)) (PurePath.of_string output) in
  let fs1 := <[out := File (Bytes [])]> (files (env st)) in
  (forall q, q ∈ fl -> temp_dir (self st) ++ q <> out) ->
  Fs.is_dir (files (env st)) out = false ->
  Fs.is_dir (files (env st)) (removelast out) = true ->
  out <> [] ->
  read_members fs1 (temp_dir (self st)) fl = Ok ms ->
  write_archive output image own fl st
  = (Ok tt, State (self st)
              (World (<[out := File (image ms)]> fs1) (cwd (env st)) (logged (env st)))).
Proof.
  intros out fs1 Hfl Hd Hp Hne Hms.
  assert (Hfile : forall d, Fs.is_dir (<[out := File d]> (files (env st))) out = false).
  { intros d. unfold Fs.is_dir. rewrite lookup_insert_eq. by destruct out. }
  assert (Hpar : forall d, Fs.is_dir (<[out := File d]> (files (env st)))
                             (removelast out) = true).
  { intros d.
    destruct (decide (removelast out = out)) as [Heq|Hneq]; [rewrite Heq in Hp; congruence|].
    unfold Fs.is_dir in *. destruct (removelast out) eqn:E; [done|].
    rewrite lookup_insert_ne by (intros Heq'; by apply Hneq). exact Hp. }
  cbv [write_archive bind os_path fs_step get_cwd get_fs get_self lift ret put_fs].
  simpl. fold out.
  rewrite (write_file_run _ _ _ Hd Hp). simpl. fold fs1.
  rewrite (gather_members_plain _ _ _ _ _ _ Hfl), Hms. simpl.
  unfold fs1 at 1. by rewrite (write_file_run _ _ _ (Hfile _) (Hpar _)).
Qed.

(** [export], past the announcement. *)
Lemma export_run output cf st :
  let fmt := if truthy cf then default "" cf else _get_format output in
  let fl := Fs.walk_files (files (env st)) (temp_dir (self st)) in
  run_export output cf st
  = bind (run_dispatch output fmt fl (length fl))
         (fun _ => logger_log "Export successful." "INFO")
         (announced output fmt st).
Proof. reflexivity. Qed.

(** A dispatch that returns has written an archive through one of the
    libraries. *)
Lemma export_dispatch_ok output fmt fl n st st' :
  run_dispatch output fmt fl n st = (Ok tt, st') ->
  exists image own, library_image lib image
                    /\ write_archive output image own fl st = (Ok tt, st').
Proof.
  unfold export_dispatch, bind at 1, get_self. simpl.
  destruct (String.eqb fmt "zip").
  - unfold _export_zip_with_progress, bind at 1, get_self. simpl.
    unfold bind at 1.
    match goal with |- context [(if ?c then ret tt else ?m) st] =>
      destruct ((if c then ret tt else m) st) as [[[]|e] st1] eqn:E1 end; [|done].
    assert (st1 = st \/ (truthy (_password_for_export (self st)) && PYZIPPER_AVAILABLE
                         = false /\ self st1 = self st /\ files (env st1) = files (env st)
                         /\ cwd (env st1) = cwd (env st))) as Hst.
    { revert E1. destruct (_ && _); [by intros [= <-]; left|].
      destruct (truthy _); intros [= <-]; [right|left]; done. }
    unfold bind at 1.
    destruct (truthy (_password_for_export (self st)) && PYZIPPER_AVAILABLE) eqn:Eo.
    + destruct Hst as [->|(? & _)]; [|done].
      rewrite call_opener_aes. intros H. eexists _, _. split; [|exact H].
      left. by eexists _, _.
    + by rewrite call_opener_stdlib.
  - destruct (bool_decide _).
    + unfold _export_tar_with_progress. intros H. eexists _, _. split; [|exact H].
      right; left. by eexists.
    + destruct (String.eqb fmt "7z"); [|done].
      destruct (negb py7zr); [done|].
      intros H. eexists _, _. split; [|exact H]. right; right. by eexists.
Qed.

(** Whenever [export] returns and the archive is written outside the
    staging area, the archive left at the output path is the image a
    library made of a list of members; the names of these members are
    the regular files below the temporary directory as [os.walk] lists
    them, every member carries the data of the file of its name, and
    no directory of the staging area is among them. *)
Theorem export_entries_are_files (output_path : string)
  (compression_format : option string) (st st' : state) :
  let td := temp_dir (self st) in
  let fs := files (env st) in
  let out := canon (cwd (env st)) (PurePath.of_string output_path) in
  run_export output_path compression_format st = (Ok tt, st') ->
  Fs.below td out = false ->
  exists image ms,
    library_image lib image
    /\ files (env st') !! out = Some (File (image ms))
    /\ ms.*1 = Fs.walk_files fs td
    /\ (forall q, q ∈ ms.*1 <-> q <> [] /\ exists d, fs !! (td ++ q) = Some (File d))
    /\ Forall (fun m : member =>
                 exists d, m.2 = Some d /\ fs !! (td ++ m.1) = Some (File d)) ms
    /\ (forall q, fs !! (td ++ q) = Some Dir -> q ∉ ms.*1).
Proof.
  intros td fs out Hrun Hout. rewrite export_run in Hrun. cbv zeta in Hrun.
  unfold bind in Hrun.
  destruct (run_dispatch _ _ _ _ _) as [[[]|e] st1] eqn:Ed; [|done].
  apply export_dispatch_ok in Ed as (image & own & Himg & Hw).
  apply write_archive_ok in Hw as (ms & Hms & _ & _ & ->); cycle 1.
  { intros q Hq. by apply (walk_files_not_at fs td). }
  simpl in *. injection Hrun as <-. simpl.
  apply read_members_ok in Hms as [Hnames Hall].
  exists image, ms. split; [done|]. split; [by rewrite lookup_insert_eq|].
  split; [done|]. rewrite Hnames.
  split; [intros q; apply walk_files_spec|].
  split.
  - apply Forall_forall. intros m Hm.
    rewrite Forall_forall in Hall. destruct (Hall m Hm) as (d & Hd & Hlook).
    exists d. split; [done|]. rewrite lookup_insert_ne in Hlook; [done|].
    intros E. apply (walk_files_not_at fs td out m.1 Hout); [|done].
    assert (Hin : m.1 ∈ ms.*1) by (apply list_elem_of_fmap; by exists m).
    by rewrite Hnames in Hin.
  - intros q Hq Hin. apply walk_files_spec in Hin as (_ & d & Hd).
    fold fs td in Hd. congruence.
Qed.

End ExportFacts.

Lemma export_entries_are_files_witness :
  Sample.fs0 !! ["tmp"; "t1"; "empty"] = Some Dir
  /\ exists (image : list member -> data) (ms : list member),
       files (env (export false false Reference.lib "/home/u/out.tar.gz" None
                     Sample.st0).2) !! ["home"; "u"; "out.tar.gz"]
       = Some (File (image ms))
       /\ ms.*1 = [["notes.txt"]; ["docs"; "img"; "p.jpg"]]
       /\ ["empty"] ∉ ms.*1.
Proof.
  split; [reflexivity|].
  destruct (export_entries_are_files false false Reference.lib "/home/u/out.tar.gz" None
              Sample.st0
              (export false false Reference.lib "/home/u/out.tar.gz" None Sample.st0).2
              ltac:(vm_compute; reflexivity) ltac:(vm_compute; reflexivity))
    as (image & ms & _ & Hout & Hnames & _ & _ & Hdirs).
  exists image, ms. split; [exact Hout|]. split.
  - rewrite Hnames. vm_compute. reflexivity.
  - apply (Hdirs ["empty"]). reflexivity.
Defined.

(** ** Extraction into a fresh staging area *)

Section Extraction.

Implicit Types (fs : fsmap) (p q td : list string) (ms : list member).

Lemma removelast_app_nonempty td q : q <> [] -> removelast (td ++ q) = td ++ removelast q.
Proof. intros Hq. by apply removelast_app. Qed.

Lemma created_below td q q' :
  q <> [] -> q' <> [] ->
  created td (removelast q) (td ++ q') <-> Fs.below q' q = true.
Proof.
  intros Hq Hq'. rewrite below_spec. split.
  - intros (r1 & r2 & Hr1 & Hrest & Hx). apply app_inv_head in Hx as ->.
    destruct q as [|a q] using rev_ind; [done|]. clear IHq.
    rewrite removelast_last in Hrest. subst q.
    destruct r2 as [|n r2]; [exists a, []|exists n, (r2 ++ [a])];
      by rewrite <- ?app_assoc.
  - intros (n & r & ->). exists q', (removelast (n :: r)). split; [done|].
    split; [|done]. by apply removelast_app.
Qed.

Lemma created_is_below td rest x : created td rest x -> Fs.below td x = true.
Proof.
  intros (r1 & r2 & Hr1 & _ & ->). destruct r1 as [|n r1]; [done|]. apply below_app.
Qed.

(** [os.makedirs] skips the directories that are there. *)
Lemma makedirs_from_dirs fs cur a b :
  (forall a1 a2, a = a1 ++ a2 -> a1 <> [] -> fs !! (cur ++ a1) = Some Dir) ->
  Fs.makedirs_from fs cur (a ++ b) = Fs.makedirs_from fs (cur ++ a) b.
Proof.
  revert cur. induction a as [|s a IH]; intros cur Hd; simpl.
  - by rewrite app_nil_r.
  - rewrite (Hd [s] a eq_refl ltac:(done)).
    rewrite IH; [by rewrite <- app_assoc|].
    intros a1 a2 -> Ha1. rewrite <- app_assoc. by apply (Hd (s :: a1) a2).
Qed.

(** [os.makedirs] where no regular file is in the way: the visited
    directories are there afterwards and nothing else has changed. *)
Lemma makedirs_from_spec fs cur rest :
  (forall x d, created cur rest x -> fs !! x <> Some (File d)) ->
  exists fs',
    Fs.makedirs_from fs cur rest = Ok fs'
    /\ (forall x, created cur rest x -> fs' !! x = Some Dir)
    /\ (forall x, ~ created cur rest x -> fs' !! x = fs !! x).
Proof.
  revert fs cur. induction rest as [|s rest IH]; intros fs cur Hfree; simpl.
  - exists fs. split; [done|]. split; [|done].
    intros x (r1 & r2 & Hr1 & Hrest & _). by destruct r1.
  - assert (Hstep : forall x, created cur (s :: rest) x
              <-> x = cur ++ [s] \/ created (cur ++ [s]) rest x).
    { intros x. split.
      - intros (r1 & r2 & Hr1 & Hrest & ->). destruct r1 as [|a r1]; [done|].
        injection Hrest as -> ->. destruct r1 as [|b r1]; [by left|].
        right. exists (b :: r1), r2. by rewrite <- app_assoc.
      - intros [->|(r1 & r2 & Hr1 & -> & ->)].
        + by exists [s], rest.
        + exists (s :: r1), r2. by rewrite <- app_assoc. }
    assert (Hself : ~ created (cur ++ [s]) rest (cur ++ [s])).
    { intros (r1 & r2 & Hr1 & _ & Hx).
      apply (f_equal length) in Hx. rewrite !length_app in Hx.
      destruct r1; [done|]. simpl in Hx. lia. }
    destruct (fs !! (cur ++ [s])) as [[|d]|] eqn:E.
    + destruct (IH fs (cur ++ [s])) as (fs' & Hrun & Hdir & Hother).
      { intros x d Hx. apply Hfree, Hstep. by right. }
      exists fs'. split; [done|]. split.
      * intros x [->|Hx]%Hstep; [by rewrite Hother|by apply Hdir].
      * intros x Hx. apply Hother. intros Hc. apply Hx, Hstep. by right.
    + exfalso. apply (Hfree (cur ++ [s]) d); [|done]. apply Hstep. by left.
    + destruct (IH (<[cur ++ [s] := Dir]> fs) (cur ++ [s])) as (fs' & Hrun & Hdir & Hother).
      { intros x d Hx. rewrite lookup_insert_ne by (by intros <-).
        apply Hfree, Hstep. by right. }
      exists fs'. split; [done|]. split.
      * intros x [->|Hx]%Hstep; [|by apply Hdir].
        by rewrite Hother, lookup_insert_eq.
      * intros x Hx. rewrite Hother.
        -- rewrite lookup_insert_ne; [done|]. intros <-. apply Hx, Hstep. by left.
        -- intros Hc. apply Hx, Hstep. by right.
Qed.

Lemma extract_all_app fs td l k :
  extract_all fs td (l ++ k)
  = match extract_all fs td l with
    | Ok fs1 => extract_all fs1 td k
    | Raise e => Raise e
    end.
Proof.
  revert fs. induction l as [|m l IH]; intros fs; simpl; [done|].
  by destruct (Fs.extract_member fs td m).
Qed.

Lemma is_dir_nonroot fs p :
  p <> [] -> Fs.is_dir fs p = match fs !! p with Some Dir => true | _ => false end.
Proof. by destruct p. Qed.

Lemma dirs_to_not_below td a1 a2 : td = a1 ++ a2 -> Fs.below td a1 = false.
Proof.
  intros ->. destruct (Fs.below _ _) eqn:E; [|done].
  apply below_spec in E as (n & r & E).
  apply (f_equal length) in E. rewrite !length_app in E. simpl in E. lia.
Qed.

(** One member more: a regular file whose name is new and unrelated to
    the names extracted so far. *)
Lemma extract_member_step fs0 td done fs q d :
  dirs_to fs0 td -> extracted fs0 td done fs ->
  q <> [] -> q ∉ done.*1 ->
  (forall m, m ∈ done -> Fs.below q m.1 = false /\ Fs.below m.1 q = false) ->
  exists fs',
    Fs.extract_member fs td (q, Some d) = Ok fs'
    /\ extracted fs0 td (done ++ [(q, Some d)]) fs'.
Proof.
  intros Hdirs (Hout & Hfiles & Hsub) Hq Hnew Hfree.
  assert (Hdirs' : forall a1 a2, td = a1 ++ a2 -> a1 <> [] -> fs !! a1 = Some Dir).
  { intros a1 a2 Htd Ha. rewrite Hout by (by apply (dirs_to_not_below td a1 a2)).
    by apply (Hdirs a1 a2). }
  assert (Hnofile : forall x d', created td (removelast q) x -> fs !! x <> Some (File d')).
  { intros x d' Hc Hx. pose proof Hc as (r1 & r2 & Hr1 & _ & ->).
    apply created_below in Hc; [|done|done].
    apply Hfiles in Hx; [|done]. destruct (Hfree _ Hx) as [_ Hb]. simpl in Hb. congruence. }
  destruct (makedirs_from_spec fs td (removelast q) Hnofile) as (fs1 & Hmk & Hdir & Hother).
  assert (Htarget : ~ created td (removelast q) (td ++ q)).
  { intros Hc. apply created_below in Hc; [|done|done]. by rewrite below_irrefl in Hc. }
  assert (Htd : ~ created td (removelast q) td).
  { intros Hc%created_is_below. by rewrite below_irrefl in Hc. }
  unfold Fs.extract_member. cbn [fst snd].
  rewrite (removelast_app_nonempty _ _ Hq). unfold Fs.makedirs.
  rewrite (makedirs_from_dirs fs [] td (removelast q))
    by (intros a1 a2 H1 H2; exact (Hdirs' a1 a2 H1 H2)).
  simpl app at 1. rewrite Hmk.
  assert (Htq : td ++ q <> []) by (by destruct td, q).
  rewrite write_file_run; cycle 1.
  { rewrite (is_dir_nonroot _ _ Htq), (Hother _ Htarget).
    destruct (fs !! (td ++ q)) as [[|?]|] eqn:Et; try done.
    apply Hsub in Et as (m & Hm & Hb); [|done]. destruct (Hfree _ Hm). congruence. }
  { rewrite (removelast_app_nonempty _ _ Hq).
    destruct (removelast q) as [|a r] eqn:Er.
    - rewrite app_nil_r. destruct (decide (td = [])) as [->|Htdne]; [done|].
      rewrite (is_dir_nonroot _ _ Htdne), (Hother _ Htd).
      by rewrite (Hdirs' td [] ltac:(by rewrite app_nil_r) Htdne).
    - rewrite is_dir_nonroot by (by destruct td).
      rewrite Hdir; [done|]. exists (a :: r), []. by rewrite app_nil_r. }
  eexists. split; [reflexivity|].
  split; [|split].
  - intros x Hx.
    rewrite lookup_insert_ne by (intros <-; by rewrite (proj2 (below_spec td (td ++ q))) in Hx;
      [|destruct q as [|n r]; [done|by exists n, r]]).
    rewrite Hother; [by apply Hout|]. intros Hc%created_is_below. congruence.
  - intros q' d' Hq'. rewrite elem_of_app, list_elem_of_singleton.
    destruct (decide (q' = q)) as [->|Hne].
    + rewrite lookup_insert_eq. split.
      * intros [= ->]. by right.
      * intros [Hin|[= ->]]; [|done]. exfalso. apply Hnew.
        apply list_elem_of_fmap. by exists (q, Some d').
    + rewrite lookup_insert_ne by (by intros ?%app_inv_head).
      destruct (Fs.below q' q) eqn:Hb.
      * rewrite Hdir by (by apply created_below). split; [done|].
        intros [Hin|[= -> _]]; [|done]. destruct (Hfree _ Hin) as [_ Hb']. simpl in Hb'.
        congruence.
      * rewrite Hother by (intros Hc%created_below; [congruence|done|done]).
        rewrite Hfiles by done. split; [by left|]. by intros [?|[= -> _]].
  - intros q' Hq'.
    destruct (decide (q' = q)) as [->|Hne].
    + rewrite lookup_insert_eq. split; [done|].
      intros (m & [Hm| ->%list_elem_of_singleton]%elem_of_app & Hb).
      * destruct (Hfree _ Hm). congruence.
      * simpl in Hb. by rewrite below_irrefl in Hb.
    + rewrite lookup_insert_ne by (by intros ?%app_inv_head).
      destruct (Fs.below q' q) eqn:Hb.
      * rewrite Hdir by (by apply created_below). split; [|done]. intros _.
        exists (q, Some d). split; [|done]. apply elem_of_app. right. by left.
      * rewrite Hother by (intros Hc%created_below; [congruence|done|done]).
        rewrite Hsub by done. split.
        -- intros (m & Hm & Hbm). exists m. split; [|done]. apply elem_of_app. by left.
        -- intros (m & [Hm| ->%list_elem_of_singleton]%elem_of_app & Hbm).
           ++ by exists m.
           ++ simpl in Hbm. congruence.
Qed.

Lemma plain_files_snoc ms m :
  plain_files (ms ++ [m]) ->
  plain_files ms
  /\ exists q d, m = (q, Some d) /\ q <> [] /\ (q ∉ ms.*1)
       /\ forall m', m' ∈ ms -> Fs.below q m'.1 = false /\ Fs.below m'.1 q = false.
Proof.
  intros (Hnd & Hfile & Hfree). rewrite fmap_app in Hnd.
  apply NoDup_app in Hnd as (Hnd & Hdisj & _).
  split.
  - split; [done|]. split.
    + intros m' Hm'. apply Hfile, elem_of_app. by left.
    + intros m1 m2 H1 H2. apply Hfree; apply elem_of_app; by left.
  - destruct m as [q o]. destruct (Hfile (q, o)) as [Hq [d Hd]].
    { apply elem_of_app. right. by left. }
    simpl in *. subst o. exists q, d. split; [done|]. split; [done|]. split.
    + intros Hin. apply (Hdisj q Hin). by left.
    + intros m' Hm'. split.
      * apply (Hfree (q, Some d) m'); apply elem_of_app; [right; by left|by left].
      * apply (Hfree m' (q, Some d)); apply elem_of_app; [by left|right; by left].
Qed.

(** The members of an export, extracted into an empty directory. *)
Lemma extract_all_spec fs0 td ms :
  dirs_to fs0 td ->
  (forall x, Fs.below td x = true -> fs0 !! x = None) ->
  plain_files ms ->
  exists fs', extract_all fs0 td ms = Ok fs' /\ extracted fs0 td ms fs'.
Proof.
  intros Hdirs Hempty. induction ms as [|m ms IH] using rev_ind; intros Hplain.
  - exists fs0. split; [done|]. split; [done|]. split.
    + intros q d Hq. rewrite Hempty; [by rewrite elem_of_nil|].
      destruct q as [|n r]; [done|]. apply below_app.
    + intros q Hq. rewrite Hempty; [|destruct q as [|n r]; [done|apply below_app]].
      split; [done|]. intros (m & Hm & _). by apply elem_of_nil in Hm.
  - apply plain_files_snoc in Hplain as (Hplain & q & d & -> & Hq & Hnew & Hfree).
    destruct (IH Hplain) as (fs1 & Hrun & Hinv).
    destruct (extract_member_step fs0 td ms fs1 q d Hdirs Hinv Hq Hnew Hfree)
      as (fs' & Hstep & Hinv').
    exists fs'. split; [|done].
    rewrite extract_all_app, Hrun. simpl. by rewrite Hstep.
Qed.

End Extraction.

(** ** Export, then import into a fresh session *)

Section RoundTrip.

Implicit Types (fs : fsmap) (p q td : list string) (ms : list member).

Lemma extract_members_pure ms st fs' :
  extract_all (files (env st)) (temp_dir (self st)) ms = Ok fs' ->
  extract_members ms None st
  = (Ok tt, State (self st) (World fs' (cwd (env st)) (logged (env st)))).
Proof.
  revert st. induction ms as [|m ms IH]; intros [s [fs wd lg]]; simpl.
  - by intros [= <-].
  - destruct (Fs.extract_member fs (temp_dir s) m) as [fs1|] eqn:E; [|done].
    intros Hrest. cbv [bind extract_one fs_step get_self get_fs lift put_fs].
    simpl. rewrite E. simpl.
    by rewrite (IH (State s (World fs1 wd lg)) Hrest).
Qed.

Lemma NoDup_omap_inj {A B} (f : A -> option B) (l : list A) :
  NoDup l ->
  (forall x y z, x ∈ l -> y ∈ l -> f x = Some z -> f y = Some z -> x = y) ->
  NoDup (omap f l).
Proof.
  induction 1 as [|x l Hx Hnd IH]; intros Hinj; simpl; [constructor|].
  assert (Hrest : NoDup (omap f l)).
  { apply IH. intros a b z Ha Hb. apply Hinj; by right. }
  destruct (f x) as [z|] eqn:E; [|done].
  constructor; [|done]. intros (y & Hy & Hfy)%list_elem_of_omap.
  apply Hx. rewrite (Hinj x y z); [done|by left|by right|done|done].
Qed.

Lemma walk_files_NoDup fs p : NoDup (Fs.walk_files fs p).
Proof.
  unfold Fs.walk_files. apply NoDup_omap_inj.
  - unfold Fs.descendants. apply NoDup_omap_inj; [apply NoDup_map_to_list|].
    intros [k1 x1] [k2 x2] [q x] _ _ H1 H2. simpl in *.
    destruct (PurePath.strip_prefix p k1) as [[|n1 r1]|] eqn:E1; try done.
    destruct (PurePath.strip_prefix p k2) as [[|n2 r2]|] eqn:E2; try done.
    apply strip_prefix_Some in E1, E2. congruence.
  - intros [q1 x1] [q2 x2] q H1 H2 Hf1 Hf2. simpl in *.
    destruct x1 as [|d1], x2 as [|d2]; try done.
    injection Hf1 as ->. injection Hf2 as ->.
    apply descendants_spec in H1 as [_ H1], H2 as [_ H2]. congruence.
Qed.

(** The members [export] reads in a closed file system. *)
Lemma exported_members fs fs1 td ms :
  closed fs ->
  (forall q, q <> [] -> fs1 !! (td ++ q) = fs !! (td ++ q)) ->
  read_members fs1 td (Fs.walk_files fs td) = Ok ms ->
  plain_files ms
  /\ forall q d, (q, Some d) ∈ ms <-> q <> [] /\ fs !! (td ++ q) = Some (File d).
Proof.
  intros Hc Hsame Hms. apply read_members_ok in Hms as [Hnames Hall].
  rewrite Forall_forall in Hall.
  assert (Hm : forall m, m ∈ ms ->
            m.1 <> [] /\ exists d, m.2 = Some d /\ fs !! (td ++ m.1) = Some (File d)).
  { intros m Hin. destruct (Hall m Hin) as (d & Hd & Hf).
    assert (Hw : m.1 ∈ Fs.walk_files fs td).
    { rewrite <- Hnames. apply list_elem_of_fmap. by exists m. }
    apply walk_files_spec in Hw as [Hq _]. split; [done|]. exists d.
    by rewrite <- Hsame. }
  split; [split; [|split]|].
  - rewrite Hnames. apply walk_files_NoDup.
  - intros m Hin. destruct (Hm m Hin) as (Hq & d & -> & _). split; [done|by eexists].
  - intros m m' Hin Hin'. destruct (Fs.below m.1 m'.1) eqn:Hb; [|done].
    destruct (Hm m Hin) as (_ & d & _ & Hf), (Hm m' Hin') as (_ & d' & _ & Hf').
    apply below_spec in Hb as (n & r & Hb). rewrite Hb, app_assoc in Hf'.
    rewrite (closed_file_leaf fs (td ++ m.1) d _ Hc Hf) in Hf'; [done|apply below_app].
  - intros q d. split.
    + intros Hin. destruct (Hm _ Hin) as (Hq & d' & [= <-] & Hf). done.
    + intros [Hq Hf].
      assert (Hw : q ∈ ms.*1).
      { rewrite Hnames. apply walk_files_spec. eauto. }
      apply list_elem_of_fmap in Hw as ([q' o] & -> & Hin).
      destruct (Hm _ Hin) as (_ & d' & Ho & Hf''). simpl in *. subst o.
      assert (d' = d) as -> by congruence. done.
Qed.

Lemma fresh_nothing_below fs td2 x :
  closed fs -> td2 <> [] -> fs !! td2 = None -> Fs.below td2 x = true -> fs !! x = None.
Proof.
  intros Hc Hne Hfresh Hb. apply below_spec in Hb as (n & r & ->).
  destruct (fs !! (td2 ++ n :: r)) as [y|] eqn:E; [|done].
  assert (Hd : Fs.is_dir fs td2 = true).
  { apply (closed_ancestor fs td2 (n :: r)); [done|by rewrite E|done]. }
  apply is_dir_lookup in Hd; [congruence|done].
Qed.

Lemma parent_not_fresh fs td2 x :
  closed fs -> td2 <> [] -> fs !! td2 = None ->
  Fs.is_dir fs (removelast x) = true -> Fs.below td2 x = false.
Proof.
  intros Hc Hne Hfresh Hp. destruct (Fs.below td2 x) eqn:Hb; [|done].
  apply below_spec in Hb as (n & r & ->).
  rewrite (removelast_app_nonempty td2 (n :: r)) in Hp by done.
  destruct (removelast (n :: r)) as [|a r'] eqn:Er.
  - rewrite app_nil_r in Hp. apply is_dir_lookup in Hp; [congruence|done].
  - apply is_dir_lookup in Hp; [|by destruct td2].
    by rewrite (fresh_nothing_below fs td2 _ Hc Hne Hfresh (below_app _ _ _)) in Hp.
Qed.

(** The way to a fresh directory made beside existing ones. *)
Lemma dirs_to_fresh fs td2 :
  closed fs -> td2 <> [] -> Fs.is_dir fs (removelast td2) = true ->
  forall a1 a2, td2 = a1 ++ a2 -> a1 <> [] -> a2 <> [] -> fs !! a1 = Some Dir.
Proof.
  intros Hc Hne Hp a1 a2 -> Ha1 Ha2.
  rewrite (removelast_app_nonempty a1 a2 Ha2) in Hp.
  destruct (removelast a2) as [|b r] eqn:Er.
  - rewrite app_nil_r in Hp. by apply is_dir_lookup in Hp.
  - apply is_dir_lookup; [done|].
    apply (closed_ancestor fs a1 (b :: r)); [done| |done].
    apply is_dir_lookup in Hp; [by rewrite Hp|by destruct a1].
Qed.

End RoundTrip.

(** ** The round trip *)

Section RoundTripLaw.

Variables (PYZIPPER_AVAILABLE py7zr rarfile : bool) (lib : codecs).

Local Abbreviation run_export := (export PYZIPPER_AVAILABLE py7zr lib).
Local Abbreviation run_dispatch := (export_dispatch PYZIPPER_AVAILABLE py7zr lib).
Local Abbreviation run_import := (import_archive PYZIPPER_AVAILABLE py7zr rarfile lib).
Local Abbreviation run_decode := (import_decode PYZIPPER_AVAILABLE py7zr rarfile lib).

Implicit Types (fs : fsmap) (p q td : list string) (ms : list member).

(** The round trip for one writer and one reader that agree. *)
Lemma round_trip_core (output : string) (password : option string) (st : state)
  (td2 : list string) (image : list member -> data)
  (own : option (list member -> data)) (reader : data -> outcome) :
  let fs := files (env st) in
  let td := temp_dir (self st) in
  let out := canon (cwd (env st)) (PurePath.of_string output) in
  let fmt := _get_format output in
  let fl := Fs.walk_files fs td in
  (forall ms, reader (image ms) = Extracts ms None) ->
  run_dispatch output fmt fl (length fl) (announced output fmt st)
    = write_archive output image own fl (announced output fmt st) ->
  (forall st0, run_decode output password fmt st0
               = bind (bind (open_archive output) (fun d => run_outcome (reader d)))
                      (fun _ => logger_log "Import successful." "INFO") st0) ->
  closed fs ->
  Fs.is_dir fs out = false -> Fs.is_dir fs (removelast out) = true ->
  Fs.below td out = false ->
  td2 <> [] -> fs !! td2 = None -> td2 <> out ->
  Fs.is_dir fs (removelast td2) = true ->
  let exported := run_export output None st in
  let imported := run_import output password (init td2 (env exported.2)) in
  exported.1 = Ok tt
  /\ imported.1 = Ok tt
  /\ exists ms,
       plain_files ms
       /\ (forall q d, (q, Some d) ∈ ms <-> q <> [] /\ fs !! (td ++ q) = Some (File d))
       /\ files (env exported.2) !! out = Some (File (image ms))
       /\ extracted (<[td2 := Dir]> (files (env exported.2))) td2 ms
                    (files (env imported.2)).
Proof.
  intros fs td out fmt fl Hread Hexp Himp Hc Hod Hop Hbelow Htd2 Hfresh Hne Hpar2.
  cbv zeta.
  assert (Hout : out <> []) by (intros E; by rewrite E in Hod).
  set (fs1 := <[out := File (Bytes [])]> fs).
  assert (Hsame : forall q, q <> [] -> fs1 !! (td ++ q) = fs !! (td ++ q)).
  { intros q Hq. unfold fs1. rewrite lookup_insert_ne; [done|].
    intros E. rewrite E in Hbelow. destruct q as [|n r]; [done|].
    by rewrite below_app in Hbelow. }
  destruct (read_members_run fs1 td fl) as [ms Hms].
  { intros q [Hq [d Hd]]%walk_files_spec. exists d. by rewrite Hsame. }
  destruct (exported_members fs fs1 td ms Hc Hsame Hms) as [Hplain Hmem].
  set (fse := <[out := File (image ms)]> fs1).
  assert (Hexported : run_export output None st
            = (Ok tt, State (self st)
                        (World fse (cwd (env st))
                           ((logged (env st)
                             ++ [("INFO", "Exporting content to '" +:+ output
                                          +:+ "' (format: " +:+ fmt +:+ ")")])
                            ++ [("INFO", "Export successful.")])))).
  { rewrite export_run. cbv zeta. change (truthy None) with false.
    cbv iota. fold fs td fl fmt. unfold bind at 1. rewrite Hexp.
    rewrite (write_archive_run output image own fl (announced output fmt st) ms);
      try done.
    intros q Hq. by apply (walk_files_not_at fs td). }
  rewrite Hexported. cbn [fst snd env files].
  split; [done|].
  match goal with |- context [init td2 ?w] => set (st2 := init td2 w) end.
  set (fs2 := <[td2 := Dir]> fse).
  assert (Hfs2 : files (env st2) = fs2) by done.
  assert (Hout2 : fs2 !! out = Some (File (image ms))).
  { unfold fs2, fse. by rewrite lookup_insert_ne, lookup_insert_eq. }
  assert (Hfound : Fs.exists_ (files (env st2))
                     (canon (cwd (env st2)) (PurePath.of_string output)) = true).
  { change (canon _ _) with out. unfold Fs.exists_. destruct out; [done|].
    rewrite Hfs2, Hout2. by apply bool_decide_eq_true_2. }
  assert (Hnotbelow : forall x, Fs.below td2 x = true -> x <> out).
  { intros x Hx ->. by rewrite (parent_not_fresh fs td2 out Hc Htd2 Hfresh Hop) in Hx. }
  assert (Hdirs : dirs_to fs2 td2).
  { intros a1 a2 E Ha1. destruct a2 as [|b a2].
    - rewrite app_nil_r in E. subst a1. unfold fs2. by rewrite lookup_insert_eq.
    - assert (Hd : fs !! a1 = Some Dir).
      { by apply (dirs_to_fresh fs td2 Hc Htd2 Hpar2 a1 (b :: a2)). }
      unfold fs2, fse, fs1. rewrite !lookup_insert_ne; [done| | |].
      + intros <-. unfold Fs.is_dir in Hod. rewrite Hd in Hod. by destruct out.
      + intros <-. unfold Fs.is_dir in Hod. rewrite Hd in Hod. by destruct out.
      + intros ->. apply (f_equal length) in E. rewrite length_app in E. simpl in E. lia. }
  assert (Hempty : forall x, Fs.below td2 x = true -> fs2 !! x = None).
  { intros x Hx. unfold fs2, fse, fs1.
    rewrite lookup_insert_ne by (intros <-; by rewrite below_irrefl in Hx).
    rewrite !lookup_insert_ne by (intros <-; by apply (Hnotbelow _ Hx)).
    by apply (fresh_nothing_below fs td2). }
  destruct (extract_all_spec fs2 td2 ms Hdirs Hempty Hplain) as (fs3 & Hrun & Hext).
  assert (Hopen : open_archive output (recorded output st2)
                  = (Ok (image ms), recorded output st2)).
  { cbv [open_archive bind os_path get_cwd get_fs ret lift]. simpl.
    change (canon _ _) with out. unfold read_file. fold fs2. by rewrite Hout2. }
  assert (Hdec : run_decode output password fmt (recorded output st2)
                 = (Ok tt, State (self (recorded output st2))
                             (World fs3 (cwd (env (recorded output st2)))
                                (logged (env (recorded output st2))
                                 ++ [("INFO", "Import successful.")])))).
  { rewrite Himp. unfold bind at 1. unfold bind at 1. rewrite Hopen, Hread.
    simpl run_outcome.
    by rewrite (extract_members_pure ms (recorded output st2) fs3) by exact Hrun. }
  assert (Himported : (run_import output password st2).1 = Ok tt
                      /\ files (env (run_import output password st2).2) = fs3).
  { rewrite (import_archive_found _ _ _ _ _ _ _ Hfound).
    unfold try_except. fold fmt. by rewrite Hdec. }
  destruct Himported as [Hok Hfiles]. split; [done|].
  exists ms. split; [done|]. split; [done|].
  split; [unfold fse; by rewrite lookup_insert_eq|].
  fold fs2. by rewrite Hfiles.
Qed.

(** What the extraction of the exported members leaves, in terms of
    the exported tree. *)
Lemma extracted_tree fs fs2 fs3 td td2 ms :
  plain_files ms ->
  (forall q d, (q, Some d) ∈ ms <-> q <> [] /\ fs !! (td ++ q) = Some (File d)) ->
  extracted fs2 td2 ms fs3 ->
  forall q, q <> [] ->
    (forall d, fs3 !! (td2 ++ q) = Some (File d) <-> fs !! (td ++ q) = Some (File d))
    /\ (fs3 !! (td2 ++ q) = Some Dir <-> file_below fs td q).
Proof.
  intros (_ & Hfile & _) Hmem (_ & Hfiles & Hsub) q Hq. split.
  - intros d. rewrite Hfiles, Hmem by done. split; [by intros [_ ?]|by intros ?].
  - rewrite Hsub by done. split.
    + intros ([q' o] & Hin & Hb). destruct (Hfile _ Hin) as [_ [d Hd]]. simpl in *.
      subst o. apply Hmem in Hin as [_ Hf].
      apply below_spec in Hb as (n & r & ->). exists (n :: r), d.
      split; [done|]. exact Hf.
    + intros (r & d & Hr & Hf). exists (q ++ r, Some d). split.
      * apply Hmem. split; [by destruct q|]. done.
      * simpl. destruct r as [|n r]; [done|]. apply below_app.
Qed.

(** The round-trip law: for the tar formats, with a tar library that
    reads back what it wrote, an export to an archive beside the
    staging area followed by an import into a fresh session succeeds;
    the new staging area holds the regular files of the old one, path
    by path and with the same data, and the directories that hold a
    regular file somewhere below them, and nothing else.  It is a copy
    of the old tree when each directory of the old tree holds a
    regular file. *)
Theorem export_import_round_trip (output : string) (password : option string)
  (st : state) (td2 : list string) :
  let fs := files (env st) in
  let td := temp_dir (self st) in
  let out := canon (cwd (env st)) (PurePath.of_string output) in
  faithful lib (_get_format output) ->
  closed fs ->
  Fs.is_dir fs out = false -> Fs.is_dir fs (removelast out) = true ->
  Fs.below td out = false ->
  td2 <> [] -> fs !! td2 = None -> td2 <> out ->
  Fs.is_dir fs (removelast td2) = true ->
  let exported := run_export output None st in
  let imported := run_import output password (init td2 (env exported.2)) in
  exported.1 = Ok tt
  /\ imported.1 = Ok tt
  /\ (forall q, q <> [] ->
        (forall d, files (env imported.2) !! (td2 ++ q) = Some (File d)
                   <-> fs !! (td ++ q) = Some (File d))
        /\ (files (env imported.2) !! (td2 ++ q) = Some Dir <-> file_below fs td q))
  /\ ((forall q, q <> [] -> fs !! (td ++ q) = Some Dir -> file_below fs td q) ->
      forall q, q <> [] -> files (env imported.2) !! (td2 ++ q) = fs !! (td ++ q)).
Proof.
  intros fs td out Hfaith Hc Hod Hop Hbelow Htd2 Hfresh Hne Hpar2. cbv zeta.
  assert (Hcore : exists (image : list member -> data) ms,
    (run_export output None st).1 = Ok tt
    /\ (run_import output password (init td2 (env (run_export output None st).2))).1
       = Ok tt
    /\ plain_files ms
    /\ (forall q d, (q, Some d) ∈ ms <-> q <> [] /\ fs !! (td ++ q) = Some (File d))
    /\ extracted (<[td2 := Dir]> (files (env (run_export output None st).2))) td2 ms
         (files (env (run_import output password
                        (init td2 (env (run_export output None st).2))).2))).
  { destruct Hfaith as [Hfmt Hread].
    assert (exists mode, forall st0,
              run_dispatch output (_get_format output)
                (Fs.walk_files fs td) (length (Fs.walk_files fs td)) st0
              = write_archive output (write_tar lib mode) None (Fs.walk_files fs td) st0)
      as [mode Hexp].
    { repeat (apply elem_of_cons in Hfmt as [->|Hfmt]);
        [by eexists..|by apply elem_of_nil in Hfmt]. }
    destruct (round_trip_core output password st td2 (write_tar lib mode) None
                (read_tar lib))
      as (H1 & H2 & ms & H3 & H4 & _ & H5); try done.
    { intros st0.
      repeat (apply elem_of_cons in Hfmt as [->|Hfmt]);
        [done..|by apply elem_of_nil in Hfmt]. }
    by exists (write_tar lib mode), ms. }
  destruct Hcore as (image & ms & H1 & H2 & Hplain & Hmem & Hext).
  pose proof (extracted_tree fs _ _ td td2 ms Hplain Hmem Hext) as Htree.
  split; [done|]. split; [done|]. split; [exact Htree|].
  intros Hfull q Hq. destruct (Htree q Hq) as [Hf Hd].
  destruct (fs !! (td ++ q)) as [[|d]|] eqn:E.
  - apply Hd, Hfull; done.
  - by apply Hf.
  - destruct (files (env _) !! (td2 ++ q)) as [[|d]|] eqn:E3; [| |done].
    + destruct (proj1 Hd eq_refl) as (r & d & Hr & Hfd).
      assert (Hdir : Fs.is_dir fs (td ++ q) = true).
      { apply (closed_ancestor fs (td ++ q) r); [done| |done].
        rewrite <- app_assoc, Hfd. by eexists. }
      apply is_dir_lookup in Hdir; [congruence|by destruct td, q].
    + pose proof (proj1 (Hf d) eq_refl). congruence.
Qed.

End RoundTripLaw.

Lemma export_import_round_trip_witness :
  let exported := export false false Reference.lib "/home/u/out.tar.gz" None Sample.st0 in
  let imported := import_archive false false false Reference.lib "/home/u/out.tar.gz" None
                    (init ["tmp"; "t2"] (env exported.2)) in
  imported.1 = Ok tt
  /\ files (env imported.2) !! ["tmp"; "t2"; "docs"; "img"; "p.jpg"]
     = Some (File Sample.photo)
  /\ files (env imported.2) !! ["tmp"; "t2"; "docs"] = Some Dir
  /\ files (env imported.2) !! ["tmp"; "t2"; "empty"] = None.
Proof.
  cbv zeta.
  destruct (export_import_round_trip false false false Reference.lib
              "/home/u/out.tar.gz" None Sample.st0 ["tmp"; "t2"])
    as (_ & Hok & Htree & _).
  - split; [|reflexivity]. change (_get_format "/home/u/out.tar.gz") with "tar.gz".
    apply elem_of_cons. right. apply elem_of_cons. by left.
  - apply closedb_closed. vm_compute. reflexivity.
  - vm_compute. reflexivity.
  - vm_compute. reflexivity.
  - vm_compute. reflexivity.
  - discriminate.
  - vm_compute. reflexivity.
  - discriminate.
  - vm_compute. reflexivity.
  - split; [exact Hok|]. split; [|split].
    + apply (Htree ["docs"; "img"; "p.jpg"]); [discriminate|]. vm_compute. reflexivity.
    + apply (Htree ["docs"]); [discriminate|].
      exists ["img"; "p.jpg"], Sample.photo. split; [discriminate|].
      vm_compute. reflexivity.
    + vm_compute. reflexivity.
Defined.


(** * Further properties of the manager *)

(** Unfolding the monad on a given state. *)
Ltac run :=
  cbv [bind ret raise lift get_self get_fs get_cwd put_fs fs_step os_path logger_log
       set_password_for_export set_imported_archive_path set_is_encrypted_import
       try_except];
  simpl.

(** ** The export password *)

Section Passwords.

Variables (PYZIPPER_AVAILABLE py7zr rarfile : bool) (lib : codecs).

Local Abbreviation run_decrypt := (decrypt PYZIPPER_AVAILABLE py7zr rarfile lib).

(** [encrypt] refuses the empty string and changes nothing then; any
    other password is stored, and nothing else of the session or of the
    file system changes. *)
Theorem encrypt_stores_password (password : string) (st : state) :
  encrypt "" st = (Raise (Exn ValueError "Password must be a non-empty string."), st)
  /\ (password <> "" ->
      (encrypt password st).1 = Ok tt
      /\ self (encrypt password st).2
         = Session (temp_dir (self st)) (Some password)
                   (_imported_archive_path (self st)) (_is_encrypted_import (self st))
      /\ files (env (encrypt password st).2) = files (env st)
      /\ truthy (_password_for_export (self (encrypt password st).2)) = true).
Proof.
  split; [done|]. intros Hne. apply String.eqb_neq in Hne.
  unfold encrypt. rewrite Hne. run. by rewrite Hne.
Qed.

(** [decrypt] without a password, or with the empty one, is no retry:
    whatever the flag and the recorded path are, it returns, replaces
    a stored export password by [None], so that none is in force
    afterwards, and leaves the rest of the session and the file system
    alone. *)
Theorem decrypt_without_password (password : option string) (st : state) :
  truthy password = false ->
  (run_decrypt password st).1 = Ok tt
  /\ self (run_decrypt password st).2
     = (if truthy (_password_for_export (self st))
        then Session (temp_dir (self st)) None
                     (_imported_archive_path (self st)) (_is_encrypted_import (self st))
        else self st)
  /\ truthy (_password_for_export (self (run_decrypt password st).2)) = false
  /\ files (env (run_decrypt password st).2) = files (env st).
Proof.
  intros Hpw. unfold decrypt. rewrite Hpw. run.
  destruct (truthy (_password_for_export (self st))) eqn:E; simpl; by rewrite ?E.
Qed.

End Passwords.

Lemma encrypt_stores_password_witness :
  _password_for_export (self (encrypt "s3cret" Sample.st0).2) = Some "s3cret".
Proof.
  destruct (encrypt_stores_password "s3cret" Sample.st0) as [_ H].
  destruct (H ltac:(discriminate)) as (_ & Hs & _). by rewrite Hs.
Defined.

Lemma decrypt_without_password_witness :
  _password_for_export
    (self (decrypt true false false Reference.lib (Some "")
             (State (Session ["tmp"; "t1"] (Some "x") (Some "secret.zip") true)
                    Sample.w0)).2) = None
  /\ _is_encrypted_import
       (self (decrypt true false false Reference.lib (Some "")
                (State (Session ["tmp"; "t1"] (Some "x") (Some "secret.zip") true)
                       Sample.w0)).2) = true.
Proof.
  destruct (decrypt_without_password true false false Reference.lib (Some "")
              (State (Session ["tmp"; "t1"] (Some "x") (Some "secret.zip") true)
                     Sample.w0) eq_refl) as (_ & Hs & _).
  rewrite Hs. by split.
Defined.

(** ** Export: refusals and what is left alone *)

Section ExportEdges.

Variables (PYZIPPER_AVAILABLE py7zr : bool) (lib : codecs).

Local Abbreviation run_export := (export PYZIPPER_AVAILABLE py7zr lib).
Local Abbreviation run_dispatch := (export_dispatch PYZIPPER_AVAILABLE py7zr lib).

(** Whatever [write_archive] does, it changes the file system at the
    output path only, and nothing of the session. *)
Lemma write_archive_frame output image own fl st :
  let out := canon (cwd (env st)) (PurePath.of_string output) in
  let r := write_archive output image own fl st in
  self r.2 = self st /\ cwd (env r.2) = cwd (env st)
  /\ logged (env r.2) = logged (env st)
  /\ forall p, p <> out -> files (env r.2) !! p = files (env st) !! p.
Proof.
  cbv zeta. cbv [write_archive bind os_path fs_step get_cwd get_fs get_self lift ret put_fs].
  simpl.
  destruct (Fs.write_file _ _ (Bytes [])) as [fs1|] eqn:E1; simpl; [|done].
  apply write_file_ok in E1 as (-> & _ & _).
  destruct (gather_members _ _ _ _ _ _) as [ms|]; simpl.
  - destruct (Fs.write_file _ _ (image ms)) as [fs2|] eqn:E2; simpl.
    + apply write_file_ok in E2 as (-> & _ & _). repeat split.
      intros p Hp. by rewrite !lookup_insert_ne.
    + repeat split. intros p Hp. by rewrite lookup_insert_ne.
  - repeat split. intros p Hp. by rewrite lookup_insert_ne.
Qed.

Lemma export_dispatch_cases output fmt fl n st :
  (exists image own,
     run_dispatch output fmt fl n st = write_archive output image own fl st)
  \/ (exists e st1, run_dispatch output fmt fl n st = (Raise e, st1)
                    /\ self st1 = self st /\ cwd (env st1) = cwd (env st)
                    /\ files (env st1) = files (env st)).
Proof.
  unfold export_dispatch, _export_zip_with_progress, _export_tar_with_progress.
  cbv [bind get_self]. simpl.
  destruct (String.eqb fmt "zip").
  - destruct (truthy (_password_for_export (self st))), PYZIPPER_AVAILABLE; simpl.
    + left. by eexists _, _.
    + right. by eexists _, _.
    + right. by eexists _, _.
    + right. by eexists _, _.
  - destruct (bool_decide _); [left; by eexists _, _|].
    destruct (String.eqb fmt "7z"); [|right; by eexists _, _].
    destruct py7zr; simpl; [left; by eexists _, _|right; by eexists _, _].
Qed.

Lemma export_dispatch_frame output fmt fl n st :
  let out := canon (cwd (env st)) (PurePath.of_string output) in
  let r := run_dispatch output fmt fl n st in
  self r.2 = self st /\ cwd (env r.2) = cwd (env st)
  /\ forall p, p <> out -> files (env r.2) !! p = files (env st) !! p.
Proof.
  cbv zeta.
  destruct (export_dispatch_cases output fmt fl n st)
    as [(image & own & ->)|(e & st1 & -> & Hs & Hc & Hf)].
  - by destruct (write_archive_frame output image own fl st) as (? & ? & ? & ?).
  - simpl. by rewrite Hf.
Qed.

Lemma export_keeps_self output cf st : self (run_export output cf st).2 = self st.
Proof.
  rewrite export_run. cbv zeta. unfold bind.
  match goal with |- context [run_dispatch ?o ?f ?l ?n ?s] =>
    pose proof (export_dispatch_frame o f l n s) as Hd;
    destruct (run_dispatch o f l n s) as [[[]|e] st1] end;
    cbv zeta in Hd; simpl in *; by destruct Hd as (Hs & _).
Qed.

(** [export] with the standard opener: the constructor raises. *)
Lemma export_zip_stdlib output cf st :
  (if truthy cf then default "" cf else _get_format output) = "zip" ->
  truthy (_password_for_export (self st)) && PYZIPPER_AVAILABLE = false ->
  (run_export output cf st).1
  = Raise (Exn TypeError
      "ZipFile.__init__() got an unexpected keyword argument 'encryption'").
Proof.
  intros Hfmt Hstd. rewrite export_run. cbv zeta. rewrite Hfmt.
  unfold export_dispatch, _export_zip_with_progress.
  cbv [bind get_self ret logger_log]. simpl. rewrite Hstd.
  destruct (truthy (_password_for_export (self st))); by rewrite call_opener_stdlib.
Qed.

(** Whether it returns or raises, [export] changes no attribute of the
    session and no file other than the one at the output path: the
    staging area stays as it is when the archive is written elsewhere. *)
Theorem export_touches_output_only (output_path : string)
  (compression_format : option string) (st : state) :
  let out := canon (cwd (env st)) (PurePath.of_string output_path) in
  let r := run_export output_path compression_format st in
  self r.2 = self st
  /\ forall p, p <> out -> files (env r.2) !! p = files (env st) !! p.
Proof.
  cbv zeta. rewrite export_run. cbv zeta. unfold bind.
  match goal with |- context [run_dispatch ?o ?f ?l ?n ?s] =>
    pose proof (export_dispatch_frame o f l n s) as Hd;
    destruct (run_dispatch o f l n s) as [[[]|e] st1] end;
    cbv zeta in Hd; simpl in *; destruct Hd as (Hs & Hc & Hf); by rewrite Hs.
Qed.

(** Without an export password, an export to ZIP goes through the
    standard opener, with or without pyzipper, and raises the
    [TypeError] of its constructor; nothing is written and no warning
    is logged. *)
Theorem export_zip_without_password (output_path : string)
  (compression_format : option string) (st : state) :
  truthy (_password_for_export (self st)) = false ->
  (if truthy compression_format then default "" compression_format
   else _get_format output_path) = "zip" ->
  run_export output_path compression_format st
  = (Raise (Exn TypeError
       "ZipFile.__init__() got an unexpected keyword argument 'encryption'"),
     announced output_path "zip" st).
Proof.
  intros Hpw Hfmt. rewrite export_run. cbv zeta. rewrite Hfmt.
  unfold export_dispatch, _export_zip_with_progress, bind, get_self. simpl.
  by rewrite Hpw.
Qed.

(** [export] writes nothing and raises [ValueError] for every format
    other than zip, tar, tar.gz, tar.xz and 7z (so for rar, gz and xz,
    which [import_archive] accepts), and [ImportError] for 7z when
    py7zr is missing. *)
Theorem export_refuses (output_path : string) (compression_format : option string)
  (st : state) :
  let fmt := if truthy compression_format then default "" compression_format
             else _get_format output_path in
  (fmt ∉ ["zip"; "tar"; "tar.gz"; "tar.xz"; "7z"] ->
   run_export output_path compression_format st
   = (Raise (Exn ValueError ("Unsupported export format: " +:+ fmt
                             +:+ " or implementation pending.")),
      announced output_path fmt st))
  /\ (fmt = "7z" -> py7zr = false ->
      run_export output_path compression_format st
      = (Raise (Exn ImportError "py7zr is not installed."),
         announced output_path fmt st)).
Proof.
  cbv zeta. rewrite export_run. cbv zeta.
  set (fmt := if truthy compression_format then _ else _).
  split.
  - intros Hfmt. unfold export_dispatch, bind, get_self. simpl.
    destruct (String.eqb_spec fmt "zip") as [E|_].
    { exfalso. apply Hfmt. rewrite E. by left. }
    rewrite bool_decide_eq_false_2; cycle 1.
    { intros Hin. apply Hfmt. right.
      repeat (apply elem_of_cons in Hin as [->|Hin]);
        [repeat constructor..|by apply elem_of_nil in Hin]. }
    destruct (String.eqb_spec fmt "7z") as [E|_]; [|done].
    exfalso. apply Hfmt. rewrite E. repeat constructor.
  - intros -> ->. reflexivity.
Qed.

(** The tar formats know no password: with an export password set,
    [export] to tar, tar.gz or tar.xz does what it does without one,
    and logs no warning. *)
Theorem export_tar_ignores_password (output_path : string)
  (compression_format : option string) (password : option string) (st : state) :
  (if truthy compression_format then default "" compression_format
   else _get_format output_path) ∈ ["tar"; "tar.gz"; "tar.xz"] ->
  let r := run_export output_path compression_format st in
  run_export output_path compression_format (set_password_for_export password st).2
  = (r.1, (set_password_for_export password r.2).2).
Proof.
  intros Hfmt. cbv zeta. rewrite !export_run. cbv zeta.
  set (fmt := if truthy compression_format then _ else _) in *.
  assert (Hd : forall fl n st0, run_dispatch output_path fmt fl n st0
               = write_archive output_path
                   (write_tar lib (if Str.contains "gz" fmt then "w:gz"
                                   else if Str.contains "xz" fmt then "w:xz" else "w"))
                   None fl st0).
  { intros fl n st0.
    repeat (apply elem_of_cons in Hfmt as [->|Hfmt]);
      [done..|by apply elem_of_nil in Hfmt]. }
  unfold bind. rewrite !Hd.
  cbv [write_archive bind os_path fs_step get_cwd get_fs get_self lift ret put_fs
       set_password_for_export announced logger_log].
  simpl.
  destruct (Fs.write_file _ _ (Bytes [])) as [fs1|]; simpl; [|done].
  destruct (gather_members _ _ _ _ _ _) as [ms|]; simpl; [|done].
  by destruct (Fs.write_file _ _ (write_tar _ _ _)) as [fs2|].
Qed.

End ExportEdges.

Lemma export_zip_without_password_witness :
  (export true false Reference.lib "/home/u/out.zip" None Sample.st0).1
  = Raise (Exn TypeError
       "ZipFile.__init__() got an unexpected keyword argument 'encryption'").
Proof.
  by rewrite (export_zip_without_password true false Reference.lib "/home/u/out.zip" None
                Sample.st0 eq_refl eq_refl).
Defined.

Lemma export_refuses_witness :
  (export false false Reference.lib "/home/u/out.rar" None Sample.st0).1
  = Raise (Exn ValueError "Unsupported export format: rar or implementation pending.")
  /\ (export false false Reference.lib "/home/u/out.7z" None Sample.st0).1
     = Raise (Exn ImportError "py7zr is not installed.").
Proof.
  destruct (export_refuses false false Reference.lib "/home/u/out.rar" None Sample.st0)
    as [H1 _].
  destruct (export_refuses false false Reference.lib "/home/u/out.7z" None Sample.st0)
    as [_ H2].
  split.
  - rewrite H1; [done|]. change (if truthy None then _ else _) with "rar".
    intros H. repeat (apply elem_of_cons in H as [H|H]; [discriminate H|]).
    by apply elem_of_nil in H.
  - by rewrite H2.
Defined.

Lemma export_tar_ignores_password_witness :
  files (env (export false false Reference.lib "/home/u/out.tar" None
                (State (Session ["tmp"; "t1"] (Some "x") None false) Sample.w0)).2)
    !! ["home"; "u"; "out.tar"]
  = files (env (export false false Reference.lib "/home/u/out.tar" None Sample.st0).2)
      !! ["home"; "u"; "out.tar"].
Proof.
  pose proof (export_tar_ignores_password false false Reference.lib "/home/u/out.tar"
                None (Some "x") Sample.st0) as H.
  cbv zeta in H.
  change (set_password_for_export (Some "x") Sample.st0).2
    with (State (Session ["tmp"; "t1"] (Some "x") None false) Sample.w0) in H.
  rewrite H; [done|]. change (if truthy None then _ else _) with "tar". by left.
Defined.

(** ** Import: refusals, unused passwords and what is left alone *)

Section ImportEdges.

Variables (PYZIPPER_AVAILABLE py7zr rarfile : bool) (lib : codecs).

Local Abbreviation run_import := (import_archive PYZIPPER_AVAILABLE py7zr rarfile lib).
Local Abbreviation run_decode := (import_decode PYZIPPER_AVAILABLE py7zr rarfile lib).

(** An archive that exists but whose format is not one of zip, tar,
    tar.gz, gz, tar.xz, xz, 7z and rar is refused with [ValueError];
    7z and rar are refused with [ImportError] when their library is
    missing.  In all three cases no file is touched, the path is
    recorded all the same, the failure is logged, and the flag is set
    when the message is taken for an encryption failure. *)
Theorem import_refuses (archive_path : string) (password : option string) (st : state) :
  Fs.exists_ (files (env st)) (canon (cwd (env st)) (PurePath.of_string archive_path))
    = true ->
  let fmt := _get_format archive_path in
  let refuses e :=
    run_import archive_path password st = (Raise e, refused archive_path e st)
    /\ files (env (refused archive_path e st)) = files (env st)
    /\ _imported_archive_path (self (refused archive_path e st)) = Some archive_path
    /\ _is_encrypted_import (self (refused archive_path e st))
       = _is_encrypted_import (self st) || likely_encryption e in
  (fmt ∉ ["zip"; "tar"; "tar.gz"; "gz"; "tar.xz"; "xz"; "7z"; "rar"] ->
   refuses (Exn ValueError ("Unsupported import format: " +:+ fmt)))
  /\ (fmt = "7z" -> py7zr = false -> refuses (Exn ImportError "py7zr is not installed."))
  /\ (fmt = "rar" -> rarfile = false ->
      refuses (Exn ImportError "rarfile is not installed.")).
Proof.
  intros Hex fmt refuses. subst refuses. cbv beta.
  rewrite (import_archive_found _ _ _ _ _ _ _ Hex). fold fmt.
  assert (Hfiles : forall e, files (env (refused archive_path e st)) = files (env st)
            /\ _imported_archive_path (self (refused archive_path e st))
               = Some archive_path
            /\ _is_encrypted_import (self (refused archive_path e st))
               = _is_encrypted_import (self st) || likely_encryption e).
  { intros e. unfold refused, import_handler, bind.
    destruct (likely_encryption e); simpl; by rewrite ?orb_true_r, ?orb_false_r. }
  assert (Hraise : forall e, run_decode archive_path password fmt (recorded archive_path st)
                             = (Raise e, recorded archive_path st) ->
            try_except (run_decode archive_path password fmt) import_handler
              (recorded archive_path st) = (Raise e, refused archive_path e st)).
  { intros e He. unfold try_except. rewrite He. unfold refused.
    destruct (import_handler_spec e (recorded archive_path st)) as [H1 _].
    destruct (import_handler e (recorded archive_path st)) as [r st1].
    simpl in *. by rewrite H1. }
  split; [|split].
  - intros Hfmt. split; [|apply Hfiles]. apply Hraise.
    unfold import_decode, bind.
    destruct (String.eqb_spec fmt "zip") as [E|_].
    { exfalso. apply Hfmt. rewrite E. repeat constructor. }
    rewrite bool_decide_eq_false_2; cycle 1.
    { intros Hin. apply Hfmt. right.
      repeat (apply elem_of_cons in Hin as [->|Hin]);
        [repeat constructor..|by apply elem_of_nil in Hin]. }
    destruct (String.eqb_spec fmt "7z") as [E|_].
    { exfalso. apply Hfmt. rewrite E. repeat constructor. }
    destruct (String.eqb_spec fmt "rar") as [E|_]; [|done].
    exfalso. apply Hfmt. rewrite E. repeat constructor.
  - intros E ->. split; [|apply Hfiles]. apply Hraise. by rewrite E.
  - intros E ->. split; [|apply Hfiles]. apply Hraise. by rewrite E.
Qed.

(** The tar formats take no password: [import_archive] on a tar,
    tar.gz, gz, tar.xz or xz name does the same with any password. *)
Theorem import_tar_ignores_password (archive_path : string)
  (password password' : option string) (st : state) :
  _get_format archive_path ∈ ["tar"; "tar.gz"; "gz"; "tar.xz"; "xz"] ->
  run_import archive_path password st = run_import archive_path password' st.
Proof.
  intros Hfmt.
  destruct (Fs.exists_ (files (env st))
              (canon (cwd (env st)) (PurePath.of_string archive_path))) eqn:Hex.
  - rewrite !(import_archive_found _ _ _ _ _ _ _ Hex).
    f_equal. unfold import_decode.
    destruct (String.eqb_spec (_get_format archive_path) "zip") as [E|_].
    { rewrite E in Hfmt.
      repeat (apply elem_of_cons in Hfmt as [Hfmt|Hfmt]; [discriminate Hfmt|]).
      by apply elem_of_nil in Hfmt. }
    by rewrite bool_decide_eq_true_2.
  - by rewrite !(import_archive_missing _ _ _ _ _ _ _ Hex).
Qed.

Lemma zip_extract_members_empty_password ms err :
  zip_extract_members (Some "") ms err = zip_extract_members None ms err.
Proof. induction ms as [|m ms IH]; simpl; [done|]. by rewrite IH. Qed.

(** An empty password is no password: [import_archive] with [""] does
    what it does with [None] on a ZIP name, where the password is not
    set on the archive and the hint to use one is logged. *)
Theorem import_zip_empty_password (archive_path : string) (st : state) :
  _get_format archive_path = "zip" ->
  run_import archive_path (Some "") st = run_import archive_path None st.
Proof.
  intros Hfmt.
  destruct (Fs.exists_ (files (env st))
              (canon (cwd (env st)) (PurePath.of_string archive_path))) eqn:Hex.
  - rewrite !(import_archive_found _ _ _ _ _ _ _ Hex).
    unfold try_except, import_decode. rewrite Hfmt. simpl.
    unfold _import_zip_with_progress.
    cbv [bind os_path get_cwd get_fs ret lift]. simpl.
    destruct (read_file _ _) as [d|e]; [|done].
    destruct (read_zip _ _ _ _) as [e|ms err]; [done|].
    by rewrite zip_extract_members_empty_password.
  - by rewrite !(import_archive_missing _ _ _ _ _ _ _ Hex).
Qed.

(** Success or failure, [import_archive] leaves the staging directory
    and the export password of the session as they are, and never
    clears the "encrypted import" flag: only [decrypt] does. *)
Theorem import_keeps_session (archive_path : string) (password : option string)
  (st : state) :
  let st' := (run_import archive_path password st).2 in
  temp_dir (self st') = temp_dir (self st)
  /\ _password_for_export (self st') = _password_for_export (self st)
  /\ (_is_encrypted_import (self st) = true -> _is_encrypted_import (self st') = true).
Proof.
  cbv zeta. split; [|split].
  - destruct (Fs.exists_ (files (env st))
                (canon (cwd (env st)) (PurePath.of_string archive_path))) eqn:Hex.
    + rewrite (import_archive_found _ _ _ _ _ _ _ Hex).
      apply (import_attempt_keeps PYZIPPER_AVAILABLE py7zr rarfile lib
               (fun s => temp_dir s) archive_path password
               (_get_format archive_path) (fun _ _ => eq_refl)
               (recorded archive_path st)).
    + by rewrite (import_archive_missing _ _ _ _ _ _ _ Hex).
  - destruct (Fs.exists_ (files (env st))
                (canon (cwd (env st)) (PurePath.of_string archive_path))) eqn:Hex.
    + rewrite (import_archive_found _ _ _ _ _ _ _ Hex).
      apply (import_attempt_keeps PYZIPPER_AVAILABLE py7zr rarfile lib
               (fun s => _password_for_export s) archive_path password
               (_get_format archive_path) (fun _ _ => eq_refl)
               (recorded archive_path st)).
    + by rewrite (import_archive_missing _ _ _ _ _ _ _ Hex).
  - apply (import_keeps_flag_set PYZIPPER_AVAILABLE py7zr rarfile lib).
Qed.

End ImportEdges.

Lemma import_refuses_witness :
  (import_archive true false false Reference.lib "notes.txt" None Sample.st0).1
  = Raise (Exn ValueError "Unsupported import format: txt").
Proof.
  destruct (import_refuses true false false Reference.lib "notes.txt" None Sample.st0
              ltac:(vm_compute; reflexivity)) as [H _].
  cbv zeta beta in H.
  destruct H as [H _].
  - change (_get_format "notes.txt") with "txt". intros H.
    repeat (apply elem_of_cons in H as [H|H]; [discriminate H|]).
    by apply elem_of_nil in H.
  - by rewrite H.
Defined.

Lemma import_tar_ignores_password_witness :
  let st := State Sample.s0
              (World (<[["home"; "u"; "a.tar"] :=
                          File (Packed TarBox None [(["a.txt"], Some Sample.notes)])]>
                        Sample.fs0) ["home"; "u"] []) in
  import_archive true false false Reference.lib "a.tar" (Some "pw") st
  = import_archive true false false Reference.lib "a.tar" None st
  /\ files (env (import_archive true false false Reference.lib "a.tar" (Some "pw") st).2)
       !! ["tmp"; "t1"; "a.txt"] = Some (File Sample.notes).
Proof.
  cbv zeta. split; [|vm_compute; reflexivity].
  apply (import_tar_ignores_password true false false Reference.lib "a.tar").
  change (_get_format "a.tar") with "tar". repeat constructor.
Defined.

Lemma import_zip_empty_password_witness :
  import_archive true false false Reference.lib "secret.zip" (Some "") Sample.st0
  = import_archive true false false Reference.lib "secret.zip" None Sample.st0
  /\ _is_encrypted_import
       (self (import_archive true false false Reference.lib "secret.zip" (Some "")
                Sample.st0).2) = true.
Proof.
  split; [|vm_compute; reflexivity].
  apply (import_zip_empty_password true false false Reference.lib "secret.zip").
  reflexivity.
Defined.

(** ** The staging directory: [close] and [remove] *)

Section Staging.

Implicit Types (fs : fsmap) (p q td : list string).

Lemma collapse_plain acc ps :
  ".." ∉ ps -> PurePath.collapse acc ps = rev acc ++ ps.
Proof.
  revert acc. induction ps as [|x ps IH]; intros acc Hps; simpl.
  - by rewrite app_nil_r.
  - destruct (String.eqb_spec x "..") as [->|_].
    + exfalso. apply Hps. by left.
    + rewrite IH; [|by intros H; apply Hps; right].
      simpl. by rewrite <- app_assoc.
Qed.

Lemma canon_staging wd td : ".." ∉ td -> canon wd (PurePath.mk true td) = td.
Proof. intros H. unfold canon. simpl. by rewrite collapse_plain. Qed.

Lemma exists_lookup fs p : p <> [] -> Fs.exists_ fs p = bool_decide (is_Some (fs !! p)).
Proof. by destruct p. Qed.

(** [close] removes the staging directory with everything below it and
    nothing else; it can be called once: a second [close] raises
    [FileNotFoundError] from [shutil.rmtree]. *)
Theorem close_once (st : state) :
  let td := temp_dir (self st) in
  td <> [] -> files (env st) !! td = Some Dir ->
  let r := close st in
  r.1 = Ok tt
  /\ self r.2 = self st
  /\ (forall p, files (env r.2) !! p
                = if bool_decide (p = td) || Fs.below td p then None
                  else files (env st) !! p)
  /\ close r.2
     = (Raise (Fs.os_error FileNotFoundError "[Errno 2] No such file or directory" td),
        r.2).
Proof.
  intros td Hne Hdir. cbv zeta.
  assert (Hex : Fs.exists_ (files (env st)) td = true).
  { rewrite exists_lookup by done. apply bool_decide_eq_true_2. by rewrite Hdir. }
  assert (Hd : Fs.is_dir (files (env st)) td = true) by by apply is_dir_lookup.
  unfold close. cbv [bind get_self get_fs put_fs logger_log raise]. simpl.
  fold td. rewrite Hex, Hd. simpl.
  split; [done|]. split; [done|]. split; [intros p; apply remove_tree_lookup|].
  rewrite exists_lookup by done.
  rewrite (bool_decide_eq_false_2 (is_Some _)); [done|].
  rewrite remove_tree_lookup, bool_decide_eq_true_2 by done. simpl.
  by intros [? ?].
Qed.

Lemma below_take p k : Fs.below p (take k p) = false.
Proof.
  destruct (Fs.below p (take k p)) eqn:E; [|done].
  apply below_spec in E as (n & q & E). apply (f_equal length) in E.
  rewrite length_take, length_app in E. simpl in E. lia.
Qed.

(** [shutil.rmtree] through a path that does not climb removes the
    directory and everything below it. *)
Lemma shutil_rmtree_plain fs wd ps :
  ".." ∉ ps ->
  shutil_rmtree fs wd (PurePath.mk true ps) = (Fs.remove_tree fs ps, None).
Proof.
  intros Hps. unfold shutil_rmtree. rewrite (canon_staging _ _ Hps).
  destruct (existsb _ _) eqn:E; [exfalso|done].
  apply existsb_exists in E as (x & Hin & Hx).
  apply in_map_iff in Hin as (k & <- & _). simpl in Hx.
  rewrite canon_staging in Hx; [by rewrite below_take in Hx|].
  intros Hin. apply Hps. rewrite <- (take_drop k ps). apply elem_of_app. by left.
Qed.

(** [remove] through a path that does not climb: it raises
    [FileNotFoundError] and changes nothing when the resolved path
    does not exist; otherwise it deletes the file, or the directory
    with everything below it, logs it, and leaves every other path
    and the session as they are. *)
Theorem remove_deletes (path_in_archive : string) (st : state) :
  let td := temp_dir (self st) in
  let fs := files (env st) in
  let rel := PurePath.parse_parts (Str.lstrip_seps (OsPath.normpath path_in_archive)) in
  let target := td ++ rel in
  let r := remove path_in_archive st in
  ".." ∉ target ->
  (Fs.exists_ fs target = false ->
   r = (Raise (Exn FileNotFoundError ("Path not found: '" +:+ path_in_archive +:+ "'")),
        st))
  /\ (Fs.exists_ fs target = true ->
      r.1 = Ok tt
      /\ self r.2 = self st
      /\ logged (env r.2)
         = logged (env st) ++ [("INFO", "Removed '" +:+ path_in_archive +:+ "'.")]
      /\ forall p, files (env r.2) !! p
                   = if bool_decide (p = target) || (Fs.is_dir fs target && Fs.below target p)
                     then None else fs !! p).
Proof.
  intros td fs rel target. cbv zeta. intros Hplain.
  unfold remove. cbv [bind get_cwd get_fs get_self lift]. simpl.
  rewrite resolve_path_parts. fold td fs rel target.
  rewrite (canon_staging _ target Hplain).
  split; intros Hex; rewrite Hex; simpl; [done|].
  destruct (Fs.is_dir fs target) eqn:Hd; simpl.
  - rewrite (shutil_rmtree_plain _ _ _ Hplain). simpl.
    repeat split. intros p. apply remove_tree_lookup.
  - repeat split. intros p. rewrite orb_false_r.
    destruct (bool_decide_reflect (p = target)) as [->|Hp].
    + apply lookup_delete_eq.
    + by apply lookup_delete_ne.
Qed.

(** The paths [""], ["."], ["/"] and ["./"] resolve to the staging
    directory itself: [remove] on one of them deletes the staging
    directory, and the [close] that follows raises [FileNotFoundError]. *)
Theorem remove_root_removes_staging (path_in_archive : string) (st : state) :
  let td := temp_dir (self st) in
  path_in_archive ∈ [""; "."; "/"; "./"] ->
  td <> [] -> ".." ∉ td -> files (env st) !! td = Some Dir ->
  let r := remove path_in_archive st in
  r.1 = Ok tt
  /\ (forall p, files (env r.2) !! p
                = if bool_decide (p = td) || Fs.below td p then None
                  else files (env st) !! p)
  /\ close r.2
     = (Raise (Fs.os_error FileNotFoundError "[Errno 2] No such file or directory" td),
        r.2).
Proof.
  intros td Hp Hne Hdots Hdir. cbv zeta.
  assert (Hrel : PurePath.parse_parts (Str.lstrip_seps (OsPath.normpath path_in_archive))
                 = []).
  { repeat (apply elem_of_cons in Hp as [->|Hp]); [done..|by apply elem_of_nil in Hp]. }
  assert (Hex : Fs.exists_ (files (env st)) td = true).
  { rewrite exists_lookup by done. apply bool_decide_eq_true_2. by rewrite Hdir. }
  assert (Hd : Fs.is_dir (files (env st)) td = true) by by apply is_dir_lookup.
  unfold remove. cbv [bind get_cwd get_fs get_self lift]. simpl.
  rewrite resolve_path_parts, Hrel, app_nil_r. fold td.
  rewrite (canon_staging _ td Hdots), Hex, Hd. simpl.
  rewrite (shutil_rmtree_plain _ _ _ Hdots). simpl.
  split; [done|]. split; [intros p; apply remove_tree_lookup|].
  unfold close. cbv [bind get_self get_fs put_fs logger_log raise]. simpl. fold td.
  rewrite exists_lookup by done.
  rewrite (bool_decide_eq_false_2 (is_Some _)); [done|].
  rewrite remove_tree_lookup, bool_decide_eq_true_2 by done. simpl.
  by intros [? ?].
Qed.

End Staging.

Lemma close_once_witness :
  (close Sample.st0).1 = Ok tt
  /\ files (env (close Sample.st0).2) !! ["tmp"; "t1"; "notes.txt"] = None
  /\ files (env (close Sample.st0).2) !! ["home"; "u"; "notes.txt"]
     = Some (File Sample.notes)
  /\ is_ok (close (close Sample.st0).2).1 = false.
Proof.
  destruct (close_once Sample.st0 ltac:(done) ltac:(vm_compute; reflexivity))
    as (H1 & _ & H3 & H4).
  split; [exact H1|]. rewrite !H3, H4.
  repeat split; vm_compute; reflexivity.
Defined.

Lemma remove_deletes_witness :
  (remove "docs" Sample.st0).1 = Ok tt
  /\ files (env (remove "docs" Sample.st0).2) !! ["tmp"; "t1"; "docs"; "img"; "p.jpg"]
     = None
  /\ files (env (remove "docs" Sample.st0).2) !! ["tmp"; "t1"; "notes.txt"]
     = Some (File Sample.notes)
  /\ (remove "nothing" Sample.st0).1
     = Raise (Exn FileNotFoundError "Path not found: 'nothing'").
Proof.
  assert (Hplain : forall n : string, n <> ".." -> ".." ∉ ["tmp"; "t1"; n]).
  { intros n Hn H. repeat (apply elem_of_cons in H as [H|H]; [by inversion H|]).
    by apply elem_of_nil in H. }
  destruct (remove_deletes "docs" Sample.st0 (Hplain "docs" ltac:(discriminate)))
    as [_ H].
  destruct (H ltac:(vm_compute; reflexivity)) as (H1 & _ & _ & H4).
  destruct (remove_deletes "nothing" Sample.st0 (Hplain "nothing" ltac:(discriminate)))
    as [H' _].
  split; [exact H1|]. rewrite !H4, (H' ltac:(vm_compute; reflexivity)).
  repeat split; vm_compute; reflexivity.
Defined.

Lemma remove_root_removes_staging_witness :
  (remove "." Sample.st0).1 = Ok tt
  /\ files (env (remove "." Sample.st0).2) !! ["tmp"; "t1"] = None
  /\ is_ok (close (remove "." Sample.st0).2).1 = false.
Proof.
  assert (Hdots : ".." ∉ ["tmp"; "t1"]).
  { intros H. repeat (apply elem_of_cons in H as [H|H]; [discriminate H|]).
    by apply elem_of_nil in H. }
  destruct (remove_root_removes_staging "." Sample.st0
              ltac:(repeat constructor) ltac:(done) Hdots
              ltac:(vm_compute; reflexivity)) as (H1 & H2 & H3).
  split; [exact H1|]. rewrite H2, H3. repeat split; vm_compute; reflexivity.
Defined.

(** ** Adding files and directories *)

Section Adding.

Implicit Types (fs : fsmap) (p q td : list string) (n : string).







Lemma created_root_lookup D x : created [] D x -> x <> [].
Proof. intros (r1 & r2 & Hr & _ & ->). done. Qed.







End Adding.




(** ** The command line *)

(** Framing a sequence of calls whose frames are at hand. *)
Ltac calls :=
  repeat first
    [ progress (intros)
    | solve [auto with frame]
    | apply keeps_bind
    | apply keeps_try_except
    | match goal with
      | |- keeps _ (if ?b then _ else _) => destruct b
      | |- keeps _ (match ?x with _ => _ end) => destruct x
      end ].

Section CommandLineFacts.

Variables (PYZIPPER_AVAILABLE py7zr rarfile : bool) (lib : codecs).
Variables (green reset : string).

Local Abbreviation run_import := (import_archive PYZIPPER_AVAILABLE py7zr rarfile lib).
Local Abbreviation run_export := (export PYZIPPER_AVAILABLE py7zr lib).
Local Abbreviation run_body :=
  (main_body PYZIPPER_AVAILABLE py7zr rarfile lib green reset).
Local Abbreviation run_main := (main PYZIPPER_AVAILABLE py7zr rarfile lib green reset).

Lemma import_keeps {X} (g : session -> X) ap pw :
  (forall s b, g (Session (temp_dir s) (_password_for_export s)
                          (_imported_archive_path s) b) = g s) ->
  (forall s v, g (Session (temp_dir s) (_password_for_export s) v
                          (_is_encrypted_import s)) = g s) ->
  keeps (fun st => g (self st)) (run_import ap pw).
Proof.
  intros Hflag Hpath.
  pose proof (import_attempt_keeps PYZIPPER_AVAILABLE py7zr rarfile lib g ap pw
                (_get_format ap) Hflag) as Htry.
  assert (Hset : forall v, keeps (fun st => g (self st)) (set_imported_archive_path v)).
  { intros v st. simpl. apply Hpath. }
  unfold import_archive.
  apply keeps_bind; [apply (keeps_os_path g)|]. intros p.
  apply keeps_bind; [apply keeps_get_fs|]. intros fs.
  destruct (negb _); [apply keeps_raise|].
  apply keeps_bind; [apply Hset|]. intros _.
  apply keeps_bind; [apply (keeps_logger_log g)|]. intros _. apply Htry.
Qed.

Lemma add_keeps {X} (g : session -> X) s d : keeps (fun st => g (self st)) (add s d).
Proof. unfold add. frame. Qed.

Lemma remove_keeps {X} (g : session -> X) p : keeps (fun st => g (self st)) (remove p).
Proof. unfold remove. frame. Qed.

Lemma list_files_state p st : (list_files p st).2 = st.
Proof.
  unfold list_files. cbv [bind get_cwd get_fs get_self lift ret]. simpl.
  rewrite resolve_path_parts.
  destruct (Fs.exists_ _ _); [|done]. by rewrite relative_names_ok.
Qed.

Lemma export_keeps {X} (g : session -> X) out cf :
  keeps (fun st => g (self st)) (run_export out cf).
Proof.
  intros st. by rewrite (export_keeps_self PYZIPPER_AVAILABLE py7zr lib out cf st).
Qed.

Lemma log_each_keeps {X} (g : session -> X) l :
  keeps (fun st => g (self st)) (log_each l).
Proof. induction l as [|f l IH]; simpl; frame. Qed.

(** No command moves the staging directory of the manager. *)
Lemma main_body_keeps_temp_dir c : keeps (fun st => temp_dir (self st)) (run_body c).
Proof.
  pose proof (fun ap pw => import_keeps (fun s => temp_dir s) ap pw
                             (fun _ _ => eq_refl) (fun _ _ => eq_refl)) as Hi.
  pose proof (add_keeps (fun s => temp_dir s)) as Ha.
  pose proof (remove_keeps (fun s => temp_dir s)) as Hr.
  pose proof (export_keeps (fun s => temp_dir s)) as He.
  pose proof (log_each_keeps (fun s => temp_dir s)) as Hl.
  assert (Hls : forall p, keeps (fun st => temp_dir (self st)) (list_files p)).
  { intros p st. by rewrite list_files_state. }
  assert (Hen : forall pw, keeps (fun st => temp_dir (self st)) (encrypt_if pw)).
  { intros pw st. unfold encrypt_if, encrypt.
    destruct (truthy pw); [|done]. by destruct (String.eqb _ _). }
  cbv beta in Hi, Ha, Hr, He, Hl.
  destruct c; cbv [main_body]; calls.
Qed.

Local Abbreviation stdlib_opener := (uses_stdlib_opener PYZIPPER_AVAILABLE).

Lemma stdlib_opener_keeps {A} (m : M A) st :
  keeps (fun st => _password_for_export (self st)) m ->
  stdlib_opener st -> stdlib_opener (m st).2.
Proof. intros Hm. unfold uses_stdlib_opener. by rewrite (Hm st). Qed.

Lemma encrypt_if_stdlib password st :
  truthy password && PYZIPPER_AVAILABLE = false ->
  stdlib_opener st -> stdlib_opener (encrypt_if password st).2.
Proof.
  unfold uses_stdlib_opener, encrypt_if, encrypt. intros Hpw Hst.
  destruct (truthy password) eqn:Ht; [|done].
  simpl in Hpw. subst. destruct (String.eqb _ _); simpl; [done|].
  apply andb_false_r.
Qed.

Lemma bind_fails {A B} (P : state -> Prop) (m : M A) (k : A -> M B) st :
  P st -> (forall st, P st -> P (m st).2) ->
  (forall a st, P st -> is_ok (k a st).1 = false) ->
  is_ok (bind m k st).1 = false.
Proof.
  intros HP Hm Hk. unfold bind. specialize (Hm st HP).
  destruct (m st) as [[a|e] st1]; [|done]. by apply Hk.
Qed.

(** A command that writes a ZIP archive raises in its [try] block
    when no password is given or pyzipper is missing. *)
Lemma main_body_zip_fails c st :
  output_format c = Some "zip" ->
  truthy (command_password c) && PYZIPPER_AVAILABLE = false ->
  stdlib_opener st ->
  is_ok (run_body c st).1 = false.
Proof.
  intros Hfmt Hpw Hst.
  assert (Hexp : forall out cf st,
            (if truthy cf then default "" cf else _get_format out) = "zip" ->
            stdlib_opener st -> is_ok (run_export out cf st).1 = false).
  { intros out cf st1 Hf H1.
    by rewrite (export_zip_stdlib PYZIPPER_AVAILABLE py7zr lib out cf st1 Hf H1). }
  pose proof (fun ap pw => import_keeps (fun s => _password_for_export s) ap pw
                             (fun _ _ => eq_refl) (fun _ _ => eq_refl)) as Hi.
  pose proof (add_keeps (fun s => _password_for_export s)) as Ha.
  pose proof (remove_keeps (fun s => _password_for_export s)) as Hr.
  destruct c as [archive password|archive source dest password format
                |archive source dest password out format
                |archive target password out format];
    simpl in Hfmt, Hpw; [done|..]; injection Hfmt as Hfmt; simpl.
  - apply (bind_fails stdlib_opener); [done|..].
    { intros st1. apply stdlib_opener_keeps, Ha. }
    intros _ st1 H1. apply (bind_fails stdlib_opener); [done|..].
    { intros st2. by apply encrypt_if_stdlib. }
    intros _ st2 H2. by apply Hexp.
  - apply (bind_fails stdlib_opener); [done|..].
    { intros st1. apply stdlib_opener_keeps, Hi. }
    intros _ st1 H1. apply (bind_fails stdlib_opener); [done|..].
    { intros st2. apply stdlib_opener_keeps, Ha. }
    intros _ st2 H2. apply (bind_fails stdlib_opener); [done|..].
    { intros st3. by apply encrypt_if_stdlib. }
    intros _ st3 H3. by apply Hexp.
  - apply (bind_fails stdlib_opener); [done|..].
    { intros st1. apply stdlib_opener_keeps, Hi. }
    intros _ st1 H1. apply (bind_fails stdlib_opener); [done|..].
    { intros st2. apply stdlib_opener_keeps, Hr. }
    intros _ st2 H2. apply (bind_fails stdlib_opener); [done|..].
    { intros st3. by apply encrypt_if_stdlib. }
    intros _ st3 H3. by apply Hexp.
Qed.

(** [create], [add] and [rm] never end with exit status 0 when the
    archive they write is a ZIP archive and no password is given, or
    pyzipper is missing: the export raises [TypeError] at the latest,
    and [main] exits with status 1 or with the exception of [close]. *)
Theorem main_zip_never_succeeds (td : list string) (c : command) (w : world) :
  output_format c = Some "zip" ->
  truthy (command_password c) && PYZIPPER_AVAILABLE = false ->
  (run_main td c w).1 <> Ok 0%nat.
Proof.
  intros Hfmt Hpw. unfold main.
  assert (Hatt : forall st, stdlib_opener st ->
            (try_except (bind (run_body c) (fun _ => ret 0%nat))
               (fun e => bind (logger_log (exn_msg e) "ERROR") (fun _ => ret 1%nat))
               st).1 = Ok 1%nat).
  { intros st Hst. pose proof (main_body_zip_fails c st Hfmt Hpw Hst) as Hb.
    unfold try_except, bind at 1.
    by destruct (run_body c st) as [[[]|e] st1]. }
  rewrite Hatt; [|reflexivity].
  by destruct (close _) as [[[]|e] st].
Qed.

(** Whenever [main] ends with an exit status, the staging directory
    and everything below it are gone. *)
Theorem main_cleans_up (td : list string) (c : command) (w : world) (status : nat) :
  (run_main td c w).1 = Ok status ->
  forall p, p = td \/ Fs.below td p = true -> files (run_main td c w).2 !! p = None.
Proof.
  unfold main.
  set (attempt := try_except _ _ _).
  assert (Htd : temp_dir (self attempt.2) = td).
  { pose proof (main_body_keeps_temp_dir c) as Hb.
    assert (Hk : keeps (fun st => temp_dir (self st))
                   (try_except (bind (run_body c) (fun _ => ret 0%nat))
                      (fun e => bind (logger_log (exn_msg e) "ERROR")
                                  (fun _ => ret 1%nat)))) by calls.
    exact (Hk (init td w)). }
  unfold close. cbv [bind get_self get_fs put_fs logger_log raise]. simpl.
  rewrite Htd.
  destruct (Fs.exists_ _ td); simpl; [|done].
  destruct (Fs.is_dir _ td); simpl; [|done].
  intros _ p Hp. rewrite remove_tree_lookup.
  destruct Hp as [-> | ->]; [by rewrite bool_decide_eq_true_2|by rewrite orb_true_r].
Qed.

(** [ls], [add] and [rm] on an archive that does not exist: [main]
    logs the error, exits with status 1 and leaves the file system as
    it found it, the fresh staging directory removed again. *)
Theorem main_missing_archive (td : list string) (c : command) (w : world)
  (archive : string) :
  command_archive c = Some archive ->
  td <> [] ->
  (forall p, p = td \/ Fs.below td p = true -> files w !! p = None) ->
  Fs.exists_ (<[td := Dir]> (files w)) (canon (cwd w) (PurePath.of_string archive))
    = false ->
  run_main td c w
  = (Ok 1%nat,
     World (files w) (cwd w)
       (logged w
        ++ [("INFO", "ArchiveManager initialized. Temp directory: " +:+ Fs.show td);
            ("ERROR", "Archive not found: " +:+ archive);
            ("INFO", "Temporary directory " +:+ Fs.show td +:+ " removed.")])).
Proof.
  intros Harch Hne Hfresh Hex.
  assert (Hbody : run_body c (init td w)
                  = (Raise (Exn FileNotFoundError ("Archive not found: " +:+ archive)),
                     init td w)).
  { pose proof (import_archive_missing PYZIPPER_AVAILABLE py7zr rarfile lib archive)
      as Hmiss.
    destruct c; simpl in Harch; simplify_eq; simpl; unfold bind at 1;
      by rewrite (Hmiss _ (init td w) Hex). }
  unfold main.
  assert (Hatt : try_except (bind (run_body c) (fun _ => ret 0%nat))
                   (fun e => bind (logger_log (exn_msg e) "ERROR") (fun _ => ret 1%nat))
                   (init td w)
                 = (Ok 1%nat,
                    (logger_log ("Archive not found: " +:+ archive) "ERROR" (init td w)).2)).
  { unfold try_except, bind at 1. by rewrite Hbody. }
  rewrite Hatt. clear Hatt Hbody.
  unfold close. cbv [bind get_self get_fs put_fs logger_log raise ret init]. simpl.
  rewrite exists_lookup, is_dir_nonroot by done.
  rewrite lookup_insert_eq. rewrite bool_decide_eq_true_2 by done. simpl.
  f_equal. f_equal; [|by rewrite <- !app_assoc].
  apply map_eq. intros p. rewrite remove_tree_lookup.
  destruct (bool_decide_reflect (p = td)) as [->|Hp]; simpl.
  - symmetry. apply Hfresh. by left.
  - destruct (Fs.below td p) eqn:Hb.
    + symmetry. apply Hfresh. by right.
    + by rewrite lookup_insert_ne.
Qed.

End CommandLineFacts.

(** A test for the freshness of a staging directory. *)
Lemma fresh_test (fs : fsmap) (td : list string) :
  forallb (fun kv => negb (bool_decide (kv.1 = td)) && negb (Fs.below td kv.1))
          (map_to_list fs) = true ->
  forall p, p = td \/ Fs.below td p = true -> fs !! p = None.
Proof.
  intros Hall p Hp. destruct (fs !! p) as [x|] eqn:E; [exfalso|done].
  apply elem_of_map_to_list, list_elem_of_In in E.
  rewrite forallb_forall in Hall. apply Hall in E. simpl in E.
  destruct Hp as [->|Hb].
  - by rewrite bool_decide_eq_true_2 in E.
  - rewrite Hb in E. by rewrite andb_false_r in E.
Qed.

Lemma main_zip_never_succeeds_witness :
  (main true false false Reference.lib "<g>" "<r>" ["tmp"; "t2"]
     (Create "out.zip" "notes.txt" "" None None) Sample.w0).1 = Ok 1%nat.
Proof.
  pose proof (main_zip_never_succeeds true false false Reference.lib "<g>" "<r>"
                ["tmp"; "t2"] (Create "out.zip" "notes.txt" "" None None) Sample.w0
                eq_refl eq_refl) as H.
  destruct (main _ _ _ _ _ _ _ _ _).1 as [[|[|n]]|e] eqn:E; try done;
    vm_compute in E; discriminate E.
Defined.

Lemma main_cleans_up_witness :
  files (main true false false Reference.lib "<g>" "<r>" ["tmp"; "t2"]
           (Create "out.tar" "notes.txt" "" None None) Sample.w0).2
    !! ["tmp"; "t2"; "notes.txt"] = None
  /\ files (main true false false Reference.lib "<g>" "<r>" ["tmp"; "t2"]
              (Create "out.tar" "notes.txt" "" None None) Sample.w0).2
       !! ["home"; "u"; "out.tar"]
     = Some (File (Packed TarBox None [(["notes.txt"], Some Sample.notes)])).
Proof.
  split; [|vm_compute; reflexivity].
  apply (main_cleans_up true false false Reference.lib "<g>" "<r>" ["tmp"; "t2"]
           (Create "out.tar" "notes.txt" "" None None) Sample.w0 0).
  - vm_compute; reflexivity.
  - right. reflexivity.
Defined.

Lemma main_missing_archive_witness :
  (main true false false Reference.lib "<g>" "<r>" ["tmp"; "t2"]
     (Ls "gone.zip" None) Sample.w0).1 = Ok 1%nat
  /\ files (main true false false Reference.lib "<g>" "<r>" ["tmp"; "t2"]
              (Ls "gone.zip" None) Sample.w0).2 = Sample.fs0.
Proof.
  rewrite (main_missing_archive true false false Reference.lib "<g>" "<r>"
             ["tmp"; "t2"] (Ls "gone.zip" None) Sample.w0 "gone.zip" eq_refl).
  - done.
  - done.
  - apply fresh_test. vm_compute; reflexivity.
  - vm_compute; reflexivity.
Defined.

(** ** A failed import is not undone *)

Section PartialImport.

Variables (PYZIPPER_AVAILABLE py7zr rarfile : bool) (lib : codecs).

Local Abbreviation run_import := (import_archive PYZIPPER_AVAILABLE py7zr rarfile lib).

Lemma extract_members_raises ms e st fs' :
  extract_all (files (env st)) (temp_dir (self st)) ms = Ok fs' ->
  extract_members ms (Some e) st
  = (Raise e, State (self st) (World fs' (cwd (env st)) (logged (env st)))).
Proof.
  revert st. induction ms as [|m ms IH]; intros [s [fs wd lg]]; simpl.
  - by intros [= <-].
  - destruct (Fs.extract_member fs (temp_dir s) m) as [fs1|] eqn:E; [|done].
    intros Hrest. cbv [bind extract_one fs_step get_self get_fs lift put_fs].
    simpl. rewrite E. simpl.
    by rewrite (IH (State s (World fs1 wd lg)) Hrest).
Qed.

(** When the tar library raises after it has extracted some members,
    [import_archive] raises that exception and the members extracted
    so far stay in the staging area: nothing is rolled back. *)
Theorem import_failure_keeps_extracted (archive_path : string)
  (password : option string) (st : state) (d : data) (ms : list member) (e : exn)
  (fs' : fsmap) :
  _get_format archive_path ∈ ["tar"; "tar.gz"; "gz"; "tar.xz"; "xz"] ->
  files (env st) !! canon (cwd (env st)) (PurePath.of_string archive_path)
    = Some (File d) ->
  read_tar lib d = Extracts ms (Some e) ->
  extract_all (files (env st)) (temp_dir (self st)) ms = Ok fs' ->
  let r := run_import archive_path password st in
  r.1 = Raise e /\ files (env r.2) = fs'.
Proof.
  intros Hfmt Hfile Hread Hext. cbv zeta.
  assert (Hex : Fs.exists_ (files (env st))
                  (canon (cwd (env st)) (PurePath.of_string archive_path)) = true).
  { destruct (canon _ _) as [|a A]; [done|]. simpl.
    apply bool_decide_eq_true_2. by rewrite Hfile. }
  rewrite (import_archive_found _ _ _ _ _ _ _ Hex).
  assert (Hdec : import_decode PYZIPPER_AVAILABLE py7zr rarfile lib archive_path password
                   (_get_format archive_path) (recorded archive_path st)
                 = (Raise e, State (self (recorded archive_path st))
                               (World fs' (cwd (env st))
                                  (logged (env (recorded archive_path st)))))).
  { unfold import_decode.
    destruct (String.eqb_spec (_get_format archive_path) "zip") as [E|_].
    { rewrite E in Hfmt.
      repeat (apply elem_of_cons in Hfmt as [Hfmt|Hfmt]; [discriminate Hfmt|]).
      by apply elem_of_nil in Hfmt. }
    rewrite bool_decide_eq_true_2 by done.
    unfold _import_tar_with_progress, open_archive, read_file.
    cbv [bind os_path get_cwd get_fs ret lift]. simpl.
    rewrite Hfile, Hread. simpl.
    by rewrite (extract_members_raises ms e (recorded archive_path st) fs' Hext). }
  unfold try_except. rewrite Hdec.
  unfold import_handler, bind. by destruct (likely_encryption e).
Qed.

End PartialImport.

Lemma import_failure_keeps_extracted_witness :
  let torn := Packed TarBox None [(["a.txt"], Some Sample.notes); (["b"; "c.txt"], None)] in
  let codec := {| probe_aes := probe_aes Reference.lib;
                  read_zip := read_zip Reference.lib;
                  read_tar := fun d =>
                    Extracts [(["a.txt"], Some Sample.notes)]
                             (Some (Exn (LibraryError "tarfile.ReadError" false)
                                        "unexpected end of data"));
                  read_7z := read_7z Reference.lib;
                  read_rar := read_rar Reference.lib;
                  write_zip := write_zip Reference.lib;
                  write_tar := write_tar Reference.lib;
                  write_7z := write_7z Reference.lib;
                  own_zip := own_zip Reference.lib;
                  own_7z := own_7z Reference.lib |} in
  let st := State (Session ["tmp"; "t2"] None None false)
              (World (<[["tmp"; "t2"] := Dir]>
                        (<[["home"; "u"; "torn.tar"] := File torn]> Sample.fs0))
                     ["home"; "u"] []) in
  let r := import_archive true false false codec "torn.tar" None st in
  is_ok r.1 = false
  /\ files (env r.2) !! ["tmp"; "t2"; "a.txt"] = Some (File Sample.notes).
Proof.
  intros torn codec st r.
  destruct (import_failure_keeps_extracted true false false codec "torn.tar" None st
              torn [(["a.txt"], Some Sample.notes)]
              (Exn (LibraryError "tarfile.ReadError" false) "unexpected end of data")
              (<[["tmp"; "t2"; "a.txt"] := File Sample.notes]> (files (env st))))
    as [H1 H2].
  - change (_get_format "torn.tar") with "tar". repeat constructor.
  - vm_compute; reflexivity.
  - reflexivity.
  - vm_compute; reflexivity.
  - subst r. rewrite H1, H2. split; [done|]. apply lookup_insert_eq.
Defined.

(** ** Paths that stay inside the staging area *)

Section Containment.

Implicit Types (s c : string) (l comps : list string).

(** A component that is not [..], also once its leading backslashes
    are stripped. *)
Local Abbreviation steady := (fun c => Str.lstrip_seps c <> "..").

Lemma steady_not_dotdot c : steady c -> c <> "..".
Proof. intros H ->. by apply H. Qed.

Lemma normpath_go_steady abs acc comps :
  Forall (fun c => c <> "..") comps ->
  OsPath.normpath_go abs acc comps
  = rev acc ++ List.filter (fun c => negb (String.eqb c "" || String.eqb c ".")) comps.
Proof.
  intros Hall. revert acc. induction Hall as [|c comps Hc Hall IH]; intros acc; simpl.
  - by rewrite app_nil_r.
  - destruct (String.eqb c "" || String.eqb c "."); simpl; [apply IH|].
    destruct (String.eqb_spec c ".."); [done|]. simpl.
    rewrite IH. simpl. by rewrite <- app_assoc.
Qed.

Lemma lstrip_seps_app c s :
  Str.mem "/" c = false ->
  Str.lstrip_seps (c +:+ s)
  = if String.eqb (Str.lstrip_seps c) "" then Str.lstrip_seps s
    else Str.lstrip_seps c +:+ s.
Proof.
  induction c as [|a c IH]; [done|].
  change (String a c +:+ s) with (String a (c +:+ s)). simpl. intros Hm.
  apply orb_false_elim in Hm as [Ha Hm]. rewrite Ha. simpl.
  destruct (Ascii.eqb a "\"); [by apply IH|done].
Qed.

Lemma lstrip_seps_plain c : Str.mem "/" c = false -> Str.mem "/" (Str.lstrip_seps c) = false.
Proof.
  induction c as [|a c IH]; [done|]. simpl. intros Hm.
  apply orb_false_elim in Hm as [Ha Hm]. rewrite Ha. simpl.
  destruct (Ascii.eqb a "\"); [by apply IH|]. simpl. by rewrite Ha, Hm.
Qed.

Lemma split_slash_app c s :
  Str.mem "/" c = false ->
  Str.split_slash (c +:+ String "/" s) = c :: Str.split_slash s.
Proof.
  induction c as [|a c IH]; [done|].
  change (String a c +:+ String "/" s) with (String a (c +:+ String "/" s)).
  simpl. intros Hm.
  apply orb_false_elim in Hm as [Ha Hm]. rewrite Ha. by rewrite IH.
Qed.

Lemma join_slash_cons c c2 l :
  Str.join_slash (c :: c2 :: l) = c +:+ String "/" (Str.join_slash (c2 :: l)).
Proof. reflexivity. Qed.

Lemma split_join_slash l :
  l <> [] -> Forall (fun c => Str.mem "/" c = false) l ->
  Str.split_slash (Str.join_slash l) = l.
Proof.
  intros Hne Hall. induction Hall as [|c l Hc Hall IH]; [done|].
  destruct l as [|c2 l].
  - by apply split_slash_plain.
  - rewrite join_slash_cons, split_slash_app by done. by rewrite IH.
Qed.

Lemma Forall_filter_keep {A} (P : A -> Prop) (f : A -> bool) (l : list A) :
  Forall P l -> Forall P (List.filter f l).
Proof.
  induction 1 as [|x l Hx Hl IH]; simpl; [done|].
  destruct (f x); [by constructor|done].
Qed.

Lemma parse_parts_strip_join comps :
  Forall (fun c => Str.mem "/" c = false) comps ->
  Forall steady comps ->
  Forall (fun c => c <> "..")
         (PurePath.parse_parts (Str.lstrip_seps (Str.join_slash comps))).
Proof.
  intros Hplain Hsteady. unfold PurePath.parse_parts.
  induction Hplain as [|c l Hc Hplain IH]; [by apply Forall_filter_keep; repeat constructor|].
  inversion Hsteady as [|? ? Hs Hsteady']; subst.
  destruct l as [|c2 l].
  - change (Str.join_slash [c]) with c.
    rewrite split_slash_plain by by apply lstrip_seps_plain.
    apply Forall_filter_keep. by repeat constructor.
  - rewrite join_slash_cons, lstrip_seps_app by done.
    destruct (String.eqb (Str.lstrip_seps c) "").
    + change (Str.lstrip_seps (String "/" ?s)) with (Str.lstrip_seps s). by apply IH.
    + rewrite split_slash_app by by apply lstrip_seps_plain.
      rewrite split_join_slash by done.
      apply Forall_filter_keep. constructor; [done|].
      eapply Forall_impl; [exact Hsteady'|]. intros x. apply steady_not_dotdot.
Qed.

Lemma normpath_steady p :
  Forall steady (Str.split_slash p) ->
  Forall (fun c => c <> "..")
         (PurePath.parse_parts (Str.lstrip_seps (OsPath.normpath p))).
Proof.
  intros Hsteady. unfold OsPath.normpath.
  destruct (String.eqb p ""); [by constructor|].
  rewrite normpath_go_steady; cycle 1.
  { eapply Forall_impl; [exact Hsteady|]. intros x. apply steady_not_dotdot. }
  simpl rev. rewrite app_nil_l.
  set (comps := List.filter _ (Str.split_slash p)).
  assert (Hgoal : Forall (fun c => c <> "..")
            (PurePath.parse_parts (Str.lstrip_seps (Str.join_slash comps)))).
  { apply parse_parts_strip_join; apply Forall_filter_keep;
      [apply split_slash_parts|done]. }
  destruct (if Str.startswith p "/" then _ else _) as [|[|k]].
  - destruct (String.eqb _ ""); [by constructor|done].
  - destruct (String.eqb _ ""); [by constructor|].
    by change (Str.lstrip_seps ("/" +:+ ?x)) with (Str.lstrip_seps x).
  - destruct (String.eqb _ ""); [by constructor|].
    by change (Str.lstrip_seps ("//" +:+ ?x)) with (Str.lstrip_seps x).
Qed.

(** The counterpart of the missing containment check: a path none of
    whose components is [..], also once the backslashes in front of it
    are stripped, resolves to the staging directory or to a place
    below it. *)
Theorem resolve_path_inside (td wd : list string) (path_in_archive : string) :
  ".." ∉ td ->
  Forall (fun c => Str.lstrip_seps c <> "..") (Str.split_slash path_in_archive) ->
  exists rel,
    _resolve_path td path_in_archive = Ok (PurePath.mk true (td ++ rel))
    /\ canon wd (PurePath.mk true (td ++ rel)) = td ++ rel.
Proof.
  intros Htd Hp. eexists. split; [apply resolve_path_parts|].
  unfold canon. simpl. rewrite collapse_plain; [done|].
  intros Hin. apply elem_of_app in Hin as [Hin|Hin]; [done|].
  pose proof (normpath_steady path_in_archive Hp) as Hall.
  rewrite Forall_forall in Hall. by apply (Hall ".." Hin).
Qed.

End Containment.

Lemma resolve_path_inside_witness :
  exists rel,
    _resolve_path ["tmp"; "t1"] "/docs//./img/" = Ok (PurePath.mk true (["tmp"; "t1"] ++ rel))
    /\ canon ["home"; "u"] (PurePath.mk true (["tmp"; "t1"] ++ rel)) = ["tmp"; "t1"] ++ rel.
Proof.
  apply (resolve_path_inside ["tmp"; "t1"] ["home"; "u"] "/docs//./img/").
  - intros H. repeat (apply elem_of_cons in H as [H|H]; [discriminate H|]).
    by apply elem_of_nil in H.
  - vm_compute. repeat constructor; discriminate.
Defined.
